(** * PyKraken: outage pipeline (src/main.py)

    A shallow embedding of [main.py]: the retrying request helper
    [fetch_data], the thin wrappers around it, the pure transformation
    [filter_and_transform_outages] and the orchestration [main].

    Conventions of the embedding.
    - A Python value that came out of [response.json()] is a [json] tree,
      [None] being [JNull]; a JSON object is an association list in
      insertion order, read and written through [dict_get] and [dict_set]
      as a Python [dict] is.
      Numbers are integers: a payload with a JSON float in it is outside
      the model.  A [str] is held as its UTF-8 bytes.
    - A Python exception is a value of [exn]; code that may raise returns
      [res A].
    - Code that talks to the network, sleeps, logs or prints runs in [IO],
      a state-and-exception monad over a [world] that records every such
      event in order.
    - What the program cannot see into is a variable of the section that
      holds the program: [requests.request], [datetime.fromisoformat], and
      what the platform does with a sleep that [time.sleep] has accepted.
    - [backoff_factor] is a float, as the signature of [fetch_data] says:
      a finite one, given by its exact value, a rational.  The products
      [backoff_factor * (2 ** i)] are exact as long as they are floats at
      all, since a power of two only moves the exponent; where they are
      not, the code gets an [OverflowError] or an infinity, and so does
      the model.
    - A body that is not JSON makes [response.json()] raise
      [requests.JSONDecodeError], which is a [RequestException] (requests
      2.27 and later); what else [json()] may raise is a field of the
      response. *)

From Stdlib Require Import ZArith QArith List String Ascii Bool Lia.
From stdpp Require Import base option list strings gmap.

Local Open Scope Z_scope.
Local Open Scope string_scope.
Local Open Scope list_scope.

(* ===================================================================== *)
(** ** Python values *)
(* ===================================================================== *)

#[local] Set Warnings "-register-all".

Inductive json : Type :=
| JNull
| JBool (b : bool)
| JNum (n : Z)
| JStr (s : string)
| JList (xs : list json)
| JDict (kvs : list (string * json)).

(** The exceptions the program can meet.  The first four are the
    [requests] hierarchy: [Timeout], [HTTPError] and [JSONDecodeError] are
    subclasses of [RequestException]; [ConnectionError] stands for every
    other subclass (connection refused, too many redirects, ...).
    [OSError] is the built-in class itself, which no [except] clause of
    the program names ([RequestException] is a subclass of it, not the
    other way round). *)
Inductive exn : Type :=
| Timeout
| HTTPError
| JSONDecodeError
| ConnectionError
| KeyError
| TypeError
| ValueError
| UnboundLocalError
| UnicodeDecodeError
| OverflowError
| RecursionError
| OSError.

Definition is_Timeout (e : exn) : bool :=
  match e with Timeout => true | _ => false end.

Definition is_HTTPError (e : exn) : bool :=
  match e with HTTPError => true | _ => false end.

Definition is_RequestException (e : exn) : bool :=
  match e with
  | Timeout | HTTPError | JSONDecodeError | ConnectionError => true
  | _ => false
  end.

Inductive res (A : Type) : Type :=
| Ok (a : A)
| Raise (e : exn).
Arguments Ok {A} a.
Arguments Raise {A} e.

Definition res_bind {A B} (m : res A) (k : A -> res B) : res B :=
  match m with
  | Ok a => k a
  | Raise e => Raise e
  end.

Declare Scope res_scope.
Delimit Scope res_scope with res.
Notation "'let*' x ':=' m 'in' k" := (res_bind m (fun x => k))
  (at level 10, x name, m at level 100, k at level 200) : res_scope.

(** *** dict *)

Definition pydict : Type := list (string * json).

(** [d.get(k)]: the value stored under [k], if any. *)
Fixpoint dict_get (k : string) (d : pydict) : option json :=
  match d with
  | [] => None
  | (k', v) :: d' => if String.eqb k k' then Some v else dict_get k d'
  end.

(** [d[k] = v]: an existing key keeps its position, a new key goes last. *)
Fixpoint dict_set (k : string) (v : json) (d : pydict) : pydict :=
  match d with
  | [] => [(k, v)]
  | (k', v') :: d' =>
      if String.eqb k k' then (k', v) :: d' else (k', v') :: dict_set k v d'
  end.

(** [v[k]] for a string [k]: only a dict can be indexed by a string, and a
    missing key is a [KeyError]. *)
Definition py_getitem (v : json) (k : string) : res json :=
  match v with
  | JDict d =>
      match dict_get k d with
      | Some x => Ok x
      | None => Raise KeyError
      end
  | _ => Raise TypeError
  end.

(** [bool(v)] *)
Definition truthy (v : json) : bool :=
  match v with
  | JNull => false
  | JBool b => b
  | JNum n => negb (Z.eqb n 0)
  | JStr s => negb (String.eqb s "")
  | JList xs => match xs with [] => false | _ => true end
  | JDict d => match d with [] => false | _ => true end
  end.

(** The characters of a [str].  In its UTF-8 bytes a character starts at
    every byte that is no continuation byte (a byte [10xxxxxx]). *)
Definition is_continuation (c : ascii) : bool :=
  let n := N_of_ascii c in N.leb 128 n && N.ltb n 192.

Definition continues (s : string) : bool :=
  match s with
  | String c _ => is_continuation c
  | EmptyString => false
  end.

Fixpoint characters (s : string) : list string :=
  match s with
  | EmptyString => []
  | String c s' =>
      let rest := characters s' in
      if continues s' then
        match rest with
        | x :: xs => String c x :: xs
        | [] => [String c EmptyString]
        end
      else String c EmptyString :: rest
  end.

Definition chars (s : string) : list json := map JStr (characters s).

(** [iter(v)]: the items a [for] loop or a comprehension runs over. *)
Definition py_iter (v : json) : res (list json) :=
  match v with
  | JList xs => Ok xs
  | JDict d => Ok (map (fun kv => JStr (fst kv)) d)
  | JStr s => Ok (chars s)
  | _ => Raise TypeError
  end.

(** *** dict keys

    A value used as a key is hashed first; lists and dicts are
    unhashable.  [True] and [1] (and [False] and [0]) are the same key. *)
Inductive pykey : Type :=
| KNone
| KInt (n : Z)
| KStr (s : string).

#[global] Instance pykey_eq_dec : EqDecision pykey.
Proof. solve_decision. Defined.

#[global] Instance pykey_countable : Countable pykey.
Proof.
  refine (inj_countable'
            (fun k => match k with
                      | KNone => inl tt
                      | KInt n => inr (inl n)
                      | KStr s => inr (inr s)
                      end)
            (fun x => match x with
                      | inl _ => KNone
                      | inr (inl n) => KInt n
                      | inr (inr s) => KStr s
                      end) _).
  by intros [].
Defined.

Definition py_hash (v : json) : res pykey :=
  match v with
  | JNull => Ok KNone
  | JBool b => Ok (KInt (if b then 1 else 0))
  | JNum n => Ok (KInt n)
  | JStr s => Ok (KStr s)
  | JList _ | JDict _ => Raise TypeError
  end.

(* ===================================================================== *)
(** ** datetime *)
(* ===================================================================== *)

(** A [datetime] is naive (no tzinfo: a wall-clock reading) or aware (an
    instant).  Both are counted in microseconds; for an aware value the
    count is of the UTC instant, which is all that ordering looks at. *)
Inductive datetime : Type :=
| Naive (wall_us : Z)
| Aware (utc_us : Z).

(** [a >= b].  Ordering a naive against an aware datetime is a
    [TypeError]. *)
Definition datetime_ge (a b : datetime) : res bool :=
  match a, b with
  | Aware x, Aware y => Ok (Z.leb y x)
  | Naive x, Naive y => Ok (Z.leb y x)
  | _, _ => Raise TypeError
  end.

(** *** A reference parser for the closed examples

    [datetime.fromisoformat] is a section variable in the program below.
    The closed examples need one concrete parser; this one reads the
    extended format [YYYY-MM-DD[Thh:mm:ss[.f+][Z|+hh:mm|-hh:mm]]] as
    CPython 3.11 and later do, counting microseconds from 1970-01-01.
    That is a part of what CPython reads (which also takes other
    separators than [T], the basic format, and offsets without minutes or
    with seconds); the examples call it on strings of that part, and on
    strings that CPython rejects with [ValueError] as well. *)

Definition digit (c : ascii) : option Z :=
  let n := Z.of_N (N_of_ascii c) in
  if Z.leb 48 n && Z.leb n 57 then Some (n - 48) else None.

Fixpoint take_digits (n : nat) (acc : Z) (s : string) : option (Z * string) :=
  match n with
  | O => Some (acc, s)
  | S n' =>
      match s with
      | String c s' =>
          match digit c with
          | Some d => take_digits n' (10 * acc + d) s'
          | None => None
          end
      | EmptyString => None
      end
  end.

Definition expect (c : ascii) (s : string) : option string :=
  match s with
  | String c' s' => if Ascii.eqb c c' then Some s' else None
  | EmptyString => None
  end.

Definition is_leap (y : Z) : bool :=
  Z.eqb (y mod 4) 0 && (negb (Z.eqb (y mod 100) 0) || Z.eqb (y mod 400) 0).

Definition days_in_month (y m : Z) : Z :=
  if Z.eqb m 2 then (if is_leap y then 29 else 28)
  else if Z.eqb m 4 || Z.eqb m 6 || Z.eqb m 9 || Z.eqb m 11 then 30
  else 31.

(** Days from 1970-01-01 to the civil date [y]-[m]-[d]. *)
Definition days_from_civil (y m d : Z) : Z :=
  let y' := if Z.leb m 2 then y - 1 else y in
  let era := y' / 400 in
  let yoe := y' - era * 400 in
  let mp := if Z.leb m 2 then m + 9 else m - 3 in
  let doy := (153 * mp + 2) / 5 + d - 1 in
  let doe := yoe * 365 + yoe / 4 - yoe / 100 + doy in
  era * 146097 + doe - 719468.

Definition parse_date (s : string) : option (Z * string) :=
  '(y, s) ← take_digits 4 0 s;
  s ← expect "-" s;
  '(m, s) ← take_digits 2 0 s;
  s ← expect "-" s;
  '(d, s) ← take_digits 2 0 s;
  if Z.leb 1 y && Z.leb 1 m && Z.leb m 12 && Z.leb 1 d
     && Z.leb d (days_in_month y m)
  then Some (days_from_civil y m d, s)
  else None.

(** The digits of a fraction: the first six count, the rest are dropped. *)
Fixpoint take_fraction (scale : Z) (acc : Z) (s : string) : Z * string :=
  match s with
  | String c s' =>
      match digit c with
      | Some d => take_fraction (scale / 10) (acc + d * scale) s'
      | None => (acc, s)
      end
  | EmptyString => (acc, s)
  end.

Definition parse_time (s : string) : option (Z * string) :=
  '(h, s) ← take_digits 2 0 s;
  s ← expect ":" s;
  '(mi, s) ← take_digits 2 0 s;
  s ← expect ":" s;
  '(sec, s) ← take_digits 2 0 s;
  if Z.leb h 23 && Z.leb mi 59 && Z.leb sec 59 then
    let whole := ((h * 60 + mi) * 60 + sec) * 1000000 in
    match s with
    | String "." (String c s') =>
        match digit c with
        | Some _ =>
            let '(us, rest) := take_fraction 100000 0 (String c s') in
            Some (whole + us, rest)
        | None => None
        end
    | _ => Some (whole, s)
    end
  else None.

(** The offset east of UTC in microseconds, or [None] for a naive time. *)
Definition parse_tz (s : string) : option (option Z) :=
  match s with
  | EmptyString => Some None
  | String "Z" EmptyString => Some (Some 0)
  | String sign s =>
      '(h, s) ← take_digits 2 0 s;
      s ← expect ":" s;
      '(mi, s) ← take_digits 2 0 s;
      let off := (h * 60 + mi) * 60 * 1000000 in
      if Z.leb h 23 && Z.leb mi 59 && String.eqb s "" then
        if Ascii.eqb sign "+" then Some (Some off)
        else if Ascii.eqb sign "-" then Some (Some (- off))
        else None
      else None
  end.

Definition make_datetime (wall_us : Z) (tz : option Z) : datetime :=
  match tz with
  | None => Naive wall_us
  | Some off => Aware (wall_us - off)
  end.

Definition parse_isoformat (s : string) : option datetime :=
  '(days, s) ← parse_date s;
  let day_us := days * 86400 * 1000000 in
  match s with
  | EmptyString => Some (Naive day_us)
  | String sep s =>
      if Ascii.eqb sep "T" then
        '(t, s) ← parse_time s;
        tz ← parse_tz s;
        Some (make_datetime (day_us + t) tz)
      else None
  end.

Definition fromisoformat_extended (s : string) : res datetime :=
  match parse_isoformat s with
  | Some dt => Ok dt
  | None => Raise ValueError
  end.

(* ===================================================================== *)
(** ** bytes *)
(* ===================================================================== *)

(** Strict UTF-8: [pending] continuation bytes are still due, the next of
    them within [lo..hi] (which rules out over-long forms, surrogates and
    code points above U+10FFFF). *)
Fixpoint utf8_valid_from (pending : nat) (lo hi : N) (bs : list Byte.byte) : bool :=
  match bs with
  | [] => match pending with O => true | S _ => false end
  | b :: bs' =>
      let n := Byte.to_N b in
      match pending with
      | S p =>
          if N.leb lo n && N.leb n hi
          then utf8_valid_from p 128 191 bs' else false
      | O =>
          if N.leb n 127 then utf8_valid_from 0 128 191 bs'
          else if N.leb 194 n && N.leb n 223 then utf8_valid_from 1 128 191 bs'
          else if N.eqb n 224 then utf8_valid_from 2 160 191 bs'
          else if N.eqb n 237 then utf8_valid_from 2 128 159 bs'
          else if N.leb 225 n && N.leb n 239 then utf8_valid_from 2 128 191 bs'
          else if N.eqb n 240 then utf8_valid_from 3 144 191 bs'
          else if N.leb 241 n && N.leb n 243 then utf8_valid_from 3 128 191 bs'
          else if N.eqb n 244 then utf8_valid_from 3 128 143 bs'
          else false
      end
  end.

(** [bs.decode('utf-8')] *)
Definition bytes_decode_utf8 (bs : list Byte.byte) : res string :=
  if utf8_valid_from 0 128 191 bs
  then Ok (string_of_list_byte bs)
  else Raise UnicodeDecodeError.

(* ===================================================================== *)
(** ** The outside world *)
(* ===================================================================== *)

(** What [requests.request(method, url, headers=..., json=..., timeout=...)]
    is called with. *)
Record request : Type := {
  req_method : string;
  req_url : string;
  req_headers : list (string * string);
  req_json : json;
  req_timeout : Z
}.

(** What the program reads off a [requests.Response]: [status_code],
    [content], and what [json()] does.  [json_body] is the value it
    gives, [None] when it raises; [json_error] is what it raises then:
    [requests.JSONDecodeError] for a body that is not JSON, but also what
    the decoder lets through, such as the [ValueError] of an integer of
    more than 4300 digits or the [RecursionError] of a body nested too
    deep. *)
Record Response : Type := {
  status_code : Z;
  content : list Byte.byte;
  json_body : option json;
  json_error : exn
}.

(** One call of [requests.request] either returns a response or raises. *)
Inductive outcome : Type :=
| Returns (r : Response)
| Raises (e : exn).

Inductive level : Type := INFO | WARNING | ERROR.

(** A float that is no NaN: a finite one, given by its value, or an
    infinity. *)
Inductive pyfloat : Type :=
| Finite (q : Q)
| Infinity (negative : bool).

Definition Qlt_bool (x y : Q) : bool := negb (Qle_bool y x).

(** [x * (2 ** i)] for a float [x].  The integer is converted to a float
    first, which is an [OverflowError] from [2 ** 1024] on.  The product
    of the two floats is exact, or an infinity when it leaves the range
    of floats (a float product never raises). *)
Definition float_mul_pow2 (x : Q) (i : nat) : res pyfloat :=
  if Nat.leb 1024 i then Raise OverflowError
  else
    let product := (x * inject_Z (2 ^ Z.of_nat i))%Q in
    if Qle_bool (inject_Z (2 ^ 1024)) product then Ok (Infinity false)
    else if Qle_bool product (inject_Z (- 2 ^ 1024)) then Ok (Infinity true)
    else Ok (Finite product).

(** The values interpolated into a log line. *)
Inductive logarg : Type :=
| ArgSeconds (x : pyfloat)
| ArgLen (n : nat)
| ArgText (s : string)
| ArgExn (e : exn).

Inductive printed : Type :=
| PText (s : string)
| PValue (v : json).

Inductive event : Type :=
| EvRequest (r : request)
| EvSleep (seconds : Q)
| EvLog (lvl : level) (message : string) (args : list logarg)
| EvPrint (p : printed).

(** The world: how many requests have been sent so far, and everything
    that has happened, oldest first. *)
Record world : Type := {
  sent : nat;
  trace : list event
}.

Definition world0 : world := {| sent := 0; trace := [] |}.

Definition IO (A : Type) : Type := world -> res A * world.

Definition io_ret {A} (a : A) : IO A := fun w => (Ok a, w).

Definition io_raise {A} (e : exn) : IO A := fun w => (Raise e, w).

Definition io_bind {A B} (m : IO A) (k : A -> IO B) : IO B :=
  fun w =>
    match m w with
    | (Ok a, w') => k a w'
    | (Raise e, w') => (Raise e, w')
    end.

(** [try: x = m / except as e: h e / else: k x] *)
Definition io_try {A B} (m : IO A) (k : A -> IO B) (h : exn -> IO B) : IO B :=
  fun w =>
    match m w with
    | (Ok a, w') => k a w'
    | (Raise e, w') => h e w'
    end.

(** [try: m / except as e: h e] *)
Definition io_catch {A} (m : IO A) (h : exn -> IO A) : IO A :=
  io_try m io_ret h.

Definition io_lift {A} (r : res A) : IO A := fun w => (r, w).

Definition emit (e : event) : IO unit :=
  fun w => (Ok tt, {| sent := sent w; trace := trace w ++ [e] |}).

Declare Scope io_scope.
Delimit Scope io_scope with io.
Notation "'let*' x ':=' m 'in' k" := (io_bind m (fun x => k))
  (at level 10, x name, m at level 100, k at level 200) : io_scope.
Notation "m ';;' k" := (io_bind m (fun _ => k))
  (at level 100, k at level 200, right associativity) : io_scope.

Fixpoint io_for {A} (xs : list A) (body : A -> IO unit) : IO unit :=
  match xs with
  | [] => io_ret tt
  | x :: xs' => io_bind (body x) (fun _ => io_for xs' body)
  end.

Definition logging_info (message : string) (args : list logarg) : IO unit :=
  emit (EvLog INFO message args).

Definition logging_warning (message : string) (args : list logarg) : IO unit :=
  emit (EvLog WARNING message args).

Definition logging_error (message : string) (args : list logarg) : IO unit :=
  emit (EvLog ERROR message args).

Definition print (p : printed) : IO unit := emit (EvPrint p).

(** [response.raise_for_status()] *)
Definition raise_for_status (r : Response) : IO unit :=
  if Z.leb 400 (status_code r) && Z.ltb (status_code r) 600
  then io_raise HTTPError else io_ret tt.

(** [response.json()] *)
Definition response_json (r : Response) : IO json :=
  match json_body r with
  | Some v => io_ret v
  | None => io_raise (json_error r)
  end.

(** Reading a local variable that an earlier statement may not have
    assigned. *)
Definition local {A} (x : option A) : IO A :=
  match x with
  | Some a => io_ret a
  | None => io_raise UnboundLocalError
  end.

Definition BASE_URL : string :=
  "https://api.krakenflex.systems/interview-tests-mock-api/v1".

Definition API_KEY : string := "<API_KEY>".

(** How one pass through the body of the [for] loop ends when it does not
    raise: at [continue] or the end of the body, or at a [return]. *)
Inductive flow : Type :=
| Next
| Return (v : json).

(** *** Reading a trace *)

(** [w] after the events [evs]. *)
Definition after (w : world) (evs : list event) : world :=
  {| sent := sent w; trace := trace w ++ evs |}.

(** What happened between the world [w] and the later world [w']. *)
Definition new_events (w w' : world) : list event :=
  drop (length (trace w)) (trace w').

Fixpoint requests_of (evs : list event) : list request :=
  match evs with
  | [] => []
  | EvRequest r :: evs' => r :: requests_of evs'
  | _ :: evs' => requests_of evs'
  end.

Fixpoint sleeps_of (evs : list event) : list Q :=
  match evs with
  | [] => []
  | EvSleep q :: evs' => q :: sleeps_of evs'
  | _ :: evs' => sleeps_of evs'
  end.

(* ===================================================================== *)
(** ** A store of dict objects *)
(* ===================================================================== *)

(** The transformation receives references to dict objects.  To speak of
    what it does to the objects it was handed, a second embedding runs it
    over a store: [cells] gives the content of every object, and the
    addresses below [next] are the ones in use. *)
Record store : Type := {
  cells : nat -> pydict;
  next : nat
}.

Definition ST (A : Type) : Type := store -> res A * store.

Definition st_ret {A} (a : A) : ST A := fun s => (Ok a, s).

Definition st_bind {A B} (m : ST A) (k : A -> ST B) : ST B :=
  fun s =>
    match m s with
    | (Ok a, s') => k a s'
    | (Raise e, s') => (Raise e, s')
    end.

Definition st_lift {A} (r : res A) : ST A := fun s => (r, s).

(** Reading the object at an address. *)
Definition deref (l : nat) : ST pydict := fun s => (Ok (cells s l), s).

(** A dict display [{...}] makes a new object. *)
Definition new_dict (d : pydict) : ST nat :=
  fun s =>
    (Ok (next s),
     {| cells := fun l => if Nat.eqb l (next s) then d else cells s l;
        next := S (next s) |}).

Declare Scope st_scope.
Delimit Scope st_scope with st.
Notation "'let*' x ':=' m 'in' k" := (st_bind m (fun x => k))
  (at level 10, x name, m at level 100, k at level 200) : st_scope.

(** From [s] to [s'] no object of [s] was changed. *)
Definition frame (s s' : store) : Prop :=
  (next s <= next s')%nat /\
  forall l, (l < next s)%nat -> cells s' l = cells s l.

(** The values a list of addresses stands for. *)
Definition values (s : store) (ls : list nat) : list json :=
  map (fun l => JDict (cells s l)) ls.

(* ===================================================================== *)
(** ** Sample data for the closed examples *)
(* ===================================================================== *)

(** A response whose body, when it is no JSON value, is not JSON. *)
Definition reply (code : Z) (body : list Byte.byte) (v : option json)
    : Response :=
  {| status_code := code; content := body; json_body := v;
     json_error := JSONDecodeError |}.

(** A platform that takes every sleep it is asked for, and one that
    refuses a sleep of more than a hundred million seconds. *)
Definition platform : Q -> res unit := fun _ => Ok tt.

Definition platform_short : Q -> res unit :=
  fun secs =>
    if Qle_bool secs (inject_Z (10 ^ 8)) then Ok tt else Raise OSError.

(** 429 three times, then 200 with a payload. *)
Definition transport_429_429_429_200 : nat -> request -> outcome :=
  fun n _ =>
    if Nat.ltb n 3 then Returns (reply 429 [] None)
    else Returns (reply 200 [] (Some (JStr "payload"))).

(** 400 with the body [Bad], and 400 with the single byte [0xFF], which
    is not UTF-8. *)
Definition transport_400 : nat -> request -> outcome :=
  fun _ _ => Returns (reply 400 [Byte.x42; Byte.x61; Byte.x64] None).

Definition transport_400_latin1 : nat -> request -> outcome :=
  fun _ _ => Returns (reply 400 [Byte.xff] None).

Definition transport_timeout : nat -> request -> outcome :=
  fun _ _ => Raises Timeout.

(** The network is down: every call raises [requests.ConnectionError]. *)
Definition transport_down : nat -> request -> outcome :=
  fun _ _ => Raises ConnectionError.

(** 200 with an empty JSON array for every request. *)
Definition transport_empty : nat -> request -> outcome :=
  fun _ _ => Returns (reply 200 [] (Some (JList []))).

Definition outage_d1 : pydict :=
  [("id", JStr "d1"); ("begin", JStr "2022-06-01T00:00:00+00:00")].

Definition outage_d2 : pydict :=
  [("id", JStr "d2"); ("begin", JStr "2021-01-01T00:00:00+00:00")].

Definition outage_at_cutoff : pydict :=
  [("id", JStr "d1"); ("begin", JStr "2022-01-01T00:00:00.000Z");
   ("end", JStr "2022-01-02T00:00:00.000Z"); ("name", JStr "old")].

Definition outage_malformed : pydict :=
  [("id", JStr "d1"); ("begin", JStr "not-a-date")].

Definition fridge : pydict := [("id", JStr "d1"); ("name", JStr "Fridge")].

Definition site_fridge : pydict := [("devices", JList [JDict fridge])].

(** The API of the end-to-end scenario: two outages, one device, and a
    server that acknowledges the post. *)
Definition transport_api : nat -> request -> outcome :=
  fun _ r =>
    if String.eqb (req_method r) "POST"
    then Returns (reply 200 [] (Some (JDict [("ok", JBool true)])))
    else if String.eqb (req_url r) (String.append BASE_URL "/outages")
    then Returns (reply 200 [] (Some (JList [JDict outage_d1; JDict outage_d2])))
    else Returns (reply 200 [] (Some (JDict site_fridge))).

(** An API whose only outage has a [begin] that is no timestamp. *)
Definition transport_malformed : nat -> request -> outcome :=
  fun _ r =>
    if String.eqb (req_url r) (String.append BASE_URL "/outages")
    then Returns (reply 200 [] (Some (JList [JDict outage_malformed])))
    else Returns (reply 200 [] (Some (JDict site_fridge))).

(** A timeout, a 503 and a connection error, in that order. *)
Definition failures_sample : list outcome :=
  [Raises Timeout; Returns (reply 503 [] None); Raises ConnectionError].

(** A network that fails as [failures_sample] says and then answers 200
    with a payload; and one that then answers 400. *)
Definition transport_flaky : nat -> request -> outcome :=
  fun n _ =>
    nth n failures_sample (Returns (reply 200 [] (Some (JStr "payload")))).

Definition transport_flaky_400 : nat -> request -> outcome :=
  fun n _ =>
    nth n failures_sample
      (Returns (reply 400 [Byte.x42; Byte.x61; Byte.x64] None)).

(** 204 with no body, every time. *)
Definition transport_no_content : nat -> request -> outcome :=
  fun _ _ => Returns (reply 204 [] None).

(** 429 every time. *)
Definition transport_busy : nat -> request -> outcome :=
  fun _ _ => Returns (reply 429 [] None).

(** An API whose only outage began before the cutoff. *)
Definition transport_old : nat -> request -> outcome :=
  fun _ r =>
    if String.eqb (req_url r) (String.append BASE_URL "/outages")
    then Returns (reply 200 [] (Some (JList [JDict outage_d2])))
    else Returns (reply 200 [] (Some (JDict site_fridge))).

(** An API that answers every request with the JSON number 5. *)
Definition transport_number : nat -> request -> outcome :=
  fun _ _ => Returns (reply 200 [] (Some (JNum 5))).

(** An API like [transport_api] whose acknowledgement of the post is the
    empty object. *)
Definition transport_empty_ack : nat -> request -> outcome :=
  fun _ r =>
    if String.eqb (req_method r) "POST"
    then Returns (reply 200 [] (Some (JDict [])))
    else if String.eqb (req_url r) (String.append BASE_URL "/outages")
    then Returns (reply 200 [] (Some (JList [JDict outage_d1; JDict outage_d2])))
    else Returns (reply 200 [] (Some (JDict site_fridge))).

(** A second device with the id of [fridge], and a site with both. *)
Definition freezer : pydict := [("id", JStr "d1"); ("name", JStr "Freezer")].

Definition site_two_devices : pydict :=
  [("devices", JList [JDict fridge; JDict freezer])].

(** An old outage without an [id], and one without a timezone. *)
Definition outage_no_id : pydict :=
  [("begin", JStr "2021-01-01T00:00:00+00:00")].

Definition outage_naive : pydict :=
  [("id", JStr "d1"); ("begin", JStr "2022-06-01T00:00:00")].

(** A store holding the two outages and the site. *)
Definition store_sample : store :=
  {| cells := fun l =>
       match l with
       | 0%nat => site_fridge
       | 1%nat => outage_d1
       | 2%nat => outage_d2
       | _ => []
       end;
     next := 3 |}.

(* ===================================================================== *)
(** ** The program *)
(* ===================================================================== *)

Section Program.

(** [datetime.fromisoformat] on a [str]. *)
Variable fromisoformat : string -> res datetime.

(** The network: what the [n]-th call of [requests.request] (counting
    from 0) does with the request it is given. *)
Variable transport : nat -> request -> outcome.

(** The platform: what it does with a sleep of [secs] seconds that
    [time.sleep] has accepted.  It sleeps, or the call fails: CPython
    3.11 on Linux, for one, adds the length to the reading of the
    monotonic clock and has the system refuse ([OSError]) a sum that
    overflows, and the versions differ on lengths within rounding of
    [2 ** 63] nanoseconds. *)
Variable pysleep : Q -> res unit.

(** [time.sleep(secs)] for a float.  The length is converted to a signed
    64-bit count of nanoseconds first: [secs * 1e9], rounded to a float,
    has to lie between [- 2 ** 63] and [2 ** 63], else [OverflowError];
    the floats on either side of [2 ** 63] being 1024 and 2048 apart, a
    product that is off by more than 1024 is out of range for certain.
    After that a negative length is a [ValueError], and any other is left
    to the platform. *)
Definition time_sleep (secs : pyfloat) : IO unit :=
  match secs with
  | Infinity _ => io_raise OverflowError
  | Finite q =>
      let ns := (q * inject_Z (10 ^ 9))%Q in
      if Qlt_bool (inject_Z (2 ^ 63 + 1024)) ns
         || Qlt_bool ns (inject_Z (- (2 ^ 63 + 1024)))
      then io_raise OverflowError
      else if Qle_bool 0 q then
        (io_lift (pysleep q);; emit (EvSleep q))%io
      else io_raise ValueError
  end.

Definition requests_request (method url : string)
    (headers : list (string * string)) (data : json) (timeout : Z)
    : IO Response :=
  fun w =>
    let req := {| req_method := method; req_url := url;
                  req_headers := headers; req_json := data;
                  req_timeout := timeout |} in
    let w' := {| sent := S (sent w); trace := trace w ++ [EvRequest req] |} in
    match transport (sent w) req with
    | Returns r => (Ok r, w')
    | Raises e => (Raise e, w')
    end.

(** *** fetch_data *)

(** The [try] block from the line after the request on, with [response]
    bound. *)
Definition on_response (backoff_factor : Q) (i : nat) (response : Response)
    : IO flow :=
  (if Z.eqb (status_code response) 429 then
     let* wait_time := io_lift (float_mul_pow2 backoff_factor i) in
     logging_warning
       "Rate limit reached. Waiting for {wait_time} seconds and retrying..."
       [ArgSeconds wait_time];;
     time_sleep wait_time;;
     io_ret Next
   else if Z.eqb (status_code response) 400 then
     let* body := io_lift (bytes_decode_utf8 (content response)) in
     logging_error
       "Bad Request. Server Response: {response.content.decode('utf-8')}"
       [ArgText body];;
     io_ret (Return JNull)
   else
     raise_for_status response;;
     let* v := response_json response in
     io_ret (Return v))%io.

(** The three [except] clauses, tried in order; [response] is the local
    variable as it stands when the exception arrives, unbound if no
    request has returned yet. *)
Definition except_clauses (response : option Response) (e : exn) : IO flow :=
  (if is_Timeout e then
     logging_error "Request timed out." [];;
     io_ret Next
   else if is_HTTPError e then
     let* r := local response in
     (if Z.eqb (status_code r) 500
      then logging_error
             "Internal Server Error. Please check with the API server maintainers."
             []
      else logging_error "HTTP error occurred: {http_err}" [ArgExn e]);;
     io_ret Next
   else if is_RequestException e then
     logging_error "Request error: {e}" [ArgExn e];;
     let* r := local response in
     match content r with
     | [] => io_ret tt
     | _ =>
         let* body := io_lift (bytes_decode_utf8 (content r)) in
         logging_error "API Error Message: {response.content.decode('utf-8')}"
           [ArgText body]
     end;;
     io_ret Next
   else io_raise e)%io.

(** One pass through the loop body.  It hands back how the pass ended and
    what [response] is bound to afterwards. *)
Definition iteration (method url : string) (headers : list (string * string))
    (data : json) (backoff_factor : Q) (i : nat) (response : option Response)
    : IO (flow * option Response) :=
  io_try (requests_request method url headers data 10)
    (fun r =>
       let* f := io_catch (on_response backoff_factor i r)
                          (except_clauses (Some r)) in
       io_ret (f, Some r))%io
    (fun e =>
       let* f := except_clauses response e in
       io_ret (f, response))%io.

(** [for i in range(retries): ...] followed by the final [return None]. *)
Fixpoint fetch_loop (method url : string) (headers : list (string * string))
    (data : json) (backoff_factor : Q) (range : list nat)
    (response : option Response) : IO json :=
  match range with
  | [] => io_ret JNull
  | i :: range' =>
      io_bind (iteration method url headers data backoff_factor i response)
        (fun '(f, response') =>
           match f with
           | Next =>
               fetch_loop method url headers data backoff_factor range' response'
           | Return v => io_ret v
           end)
  end.

Definition fetch_data (endpoint method : string) (data : json)
    (retries : Z) (backoff_factor : Q) : IO json :=
  let headers := [("x-api-key", API_KEY)] in
  let url := String.append BASE_URL endpoint in
  fetch_loop method url headers data backoff_factor
    (seq 0 (Z.to_nat retries)) None.

(** *** The wrappers *)

Definition get_all_outages : IO json :=
  fetch_data "/outages" "GET" JNull 5 (1 # 2).

Definition get_site_info (site_id : string) : IO json :=
  fetch_data (String.append "/site-info/" site_id) "GET" JNull 5 (1 # 2).

(** *** filter_and_transform_outages *)

Definition datetime_fromisoformat (v : json) : res datetime :=
  match v with
  | JStr s => fromisoformat s
  | _ => Raise TypeError
  end.

(** [{device["id"]: device["name"] for device in devices}], continued
    from the dict [m] built so far. *)
Fixpoint dict_comprehension (devices : list json) (m : gmap pykey json)
    : res (gmap pykey json) :=
  match devices with
  | [] => Ok m
  | device :: devices' =>
      (let* id := py_getitem device "id" in
       let* name := py_getitem device "name" in
       let* k := py_hash id in
       dict_comprehension devices' (<[k := name]> m))%res
  end.

(** The [if] of the list comprehension. *)
Definition condition (cutoff_datetime : datetime) (device_id_name_map : gmap pykey json)
    (outage : json) : res bool :=
  (let* begin := py_getitem outage "begin" in
   let* t := datetime_fromisoformat begin in
   let* late := datetime_ge t cutoff_datetime in
   if late then
     let* id := py_getitem outage "id" in
     let* k := py_hash id in
     Ok (bool_decide (is_Some (device_id_name_map !! k)))
   else Ok false)%res.

(** [{**outage, "name": device_id_name_map[outage["id"]]}] for an
    [outage] that is the dict [d]: a new dict with the items of [d], then
    the [name] item. *)
Definition element_dict (device_id_name_map : gmap pykey json) (d : pydict)
    : res pydict :=
  (let* id := py_getitem (JDict d) "id" in
   let* k := py_hash id in
   match device_id_name_map !! k with
   | Some name => Ok (dict_set "name" name d)
   | None => Raise KeyError
   end)%res.

Definition element (device_id_name_map : gmap pykey json) (outage : json)
    : res json :=
  match outage with
  | JDict d =>
      (let* x := element_dict device_id_name_map d in Ok (JDict x))%res
  | _ => Raise TypeError
  end.

Fixpoint list_comprehension (cutoff_datetime : datetime)
    (device_id_name_map : gmap pykey json) (outages : list json)
    : res (list json) :=
  match outages with
  | [] => Ok []
  | outage :: outages' =>
      (let* keep := condition cutoff_datetime device_id_name_map outage in
       if keep then
         let* x := element device_id_name_map outage in
         let* xs := list_comprehension cutoff_datetime device_id_name_map outages' in
         Ok (x :: xs)
       else list_comprehension cutoff_datetime device_id_name_map outages')%res
  end.

(** The literal ends in [Z], which [datetime.fromisoformat] reads from
    Python 3.11 on (as UTC); an older parser rejects it. *)
Definition cutoff_literal : string := "2022-01-01T00:00:00.000Z".

Definition filter_and_transform_outages (outages site_info : json)
    : res (list json) :=
  (let* cutoff_datetime := fromisoformat cutoff_literal in
   let* devices := py_getitem site_info "devices" in
   let* devices := py_iter devices in
   let* device_id_name_map := dict_comprehension devices ∅ in
   let* outages := py_iter outages in
   list_comprehension cutoff_datetime device_id_name_map outages)%res.

(** *** post_site_outages and main *)

Definition post_site_outages (site_id : string) (outages : list json)
    : IO json :=
  match outages with
  | [] =>
      (logging_warning "No outages to post. Skipping the POST operation." [];;
       io_ret JNull)%io
  | _ =>
      (let* response :=
         fetch_data (String.append "/site-outages/" site_id) "POST" (JList outages)
                    5 (1 # 2) in
       (if truthy response
        then logging_info "Outages posted successfully." []
        else logging_error "Failed to post the outages." []);;
       io_ret response)%io
  end.

Definition main : IO unit :=
  (logging_info "Starting the process..." [];;
   logging_info "Fetching all outages..." [];;
   let* outages := get_all_outages in
   if negb (truthy outages) then io_ret tt else
   logging_info "Fetched all outages successfully." [];;
   print (PText (String "010" "Outages Data:"));;
   let* items := io_lift (py_iter outages) in
   io_for items (fun outage => print (PValue outage));;
   logging_info "Fetching site information for 'norwich-pear-tree'..." [];;
   let* site_info := get_site_info "norwich-pear-tree" in
   if negb (truthy site_info) then io_ret tt else
   logging_info "Fetched site information successfully." [];;
   print (PText (String "010" "Site Information:"));;
   print (PValue site_info);;
   logging_info "Filtering and transforming outages..." [];;
   let* processed_outages :=
     io_lift (filter_and_transform_outages outages site_info) in
   logging_info "Filtered and transformed {len(processed_outages)} outages."
     [ArgLen (length processed_outages)];;
   print (PText (String "010" "Processed Outages:"));;
   io_for processed_outages (fun outage => print (PValue outage));;
   logging_info "Posting processed outages..." [];;
   let* response := post_site_outages "norwich-pear-tree" processed_outages in
   if negb (truthy response) then io_ret tt else
   print (PText (String "010" "Post Response:"));;
   print (PValue response);;
   logging_info "Successfully posted {len(processed_outages)} outages."
     [ArgLen (length processed_outages)];;
   print (PText "Process completed successfully!"))%io.


(** *** The transformation over the store

    [outages] is a list of addresses of dict objects and [site_info] the
    address of the site object.  The statements are those of
    [filter_and_transform_outages]; the dict display allocates. *)

Fixpoint list_comprehension_st (cutoff_datetime : datetime)
    (device_id_name_map : gmap pykey json) (outages : list nat)
    : ST (list nat) :=
  match outages with
  | [] => st_ret []
  | outage :: outages' =>
      (let* d := deref outage in
       let* keep :=
         st_lift (condition cutoff_datetime device_id_name_map (JDict d)) in
       if keep then
         let* x := st_lift (element_dict device_id_name_map d) in
         let* l := new_dict x in
         let* ls :=
           list_comprehension_st cutoff_datetime device_id_name_map outages' in
         st_ret (l :: ls)
       else
         list_comprehension_st cutoff_datetime device_id_name_map outages')%st
  end.

Definition filter_and_transform_outages_st (outages : list nat)
    (site_info : nat) : ST (list nat) :=
  (let* cutoff_datetime := st_lift (fromisoformat cutoff_literal) in
   let* site := deref site_info in
   let* devices := st_lift (py_getitem (JDict site) "devices") in
   let* devices := st_lift (py_iter devices) in
   let* device_id_name_map := st_lift (dict_comprehension devices ∅) in
   list_comprehension_st cutoff_datetime device_id_name_map outages)%st.

(* ===================================================================== *)
(** ** The specification's vocabulary *)
(* ===================================================================== *)

(** These definitions follow the words of the specification, not the
    code; the theorems compare the two. *)

(** The instant of an outage's [begin], when it is a string that parses
    as a timestamp with a timezone. *)
Definition begin_instant (outage : json) : option Z :=
  match outage with
  | JDict d =>
      match dict_get "begin" d with
      | Some (JStr s) =>
          match fromisoformat s with
          | Ok (Aware t) => Some t
          | _ => None
          end
      | _ => None
      end
  | _ => None
  end.

(** The [id] of an outage or of a device, as a dict key. *)
Definition id_key (x : json) : option pykey :=
  match x with
  | JDict d =>
      match dict_get "id" d with
      | Some v => match py_hash v with Ok k => Some k | Raise _ => None end
      | None => None
      end
  | _ => None
  end.

Definition name_of (device : json) : option json :=
  match device with
  | JDict d => dict_get "name" d
  | _ => None
  end.

(** The device list of a site. *)
Definition devices_of (site_info : json) : option (list json) :=
  match site_info with
  | JDict d =>
      match dict_get "devices" d with
      | Some (JList devices) => Some devices
      | _ => None
      end
  | _ => None
  end.

Definition device_ids (devices : list json) : list pykey :=
  omap id_key devices.

(** Retained: [begin] at or after the cutoff instant, and [id] among the
    device ids. *)
Definition retained_spec (cutoff : Z) (devices : list json) (outage : json)
    : bool :=
  match begin_instant outage, id_key outage with
  | Some t, Some k => Z.leb cutoff t && bool_decide (k ∈ device_ids devices)
  | _, _ => false
  end.

(** The name of the device with id [k]; of the last one if several
    devices share the id. *)
Fixpoint matching_name (devices : list json) (k : pykey) : option json :=
  match devices with
  | [] => None
  | device :: devices' =>
      match matching_name devices' k with
      | Some name => Some name
      | None =>
          if bool_decide (id_key device = Some k) then name_of device
          else None
      end
  end.

(** [e] is the outage [o] with the field [name] added or overwritten. *)
Definition enriched (devices : list json) (o e : json) : Prop :=
  ∃ d k name,
    o = JDict d ∧ id_key o = Some k ∧ matching_name devices k = Some name ∧
    e = JDict (dict_set "name" name d).

(** The data model: a device has an [id] and a [name]; an outage has an
    [id] and a [begin] that parses as a timestamp with a timezone. *)
Definition wf_device (device : json) : Prop :=
  is_Some (id_key device) ∧ is_Some (name_of device).

Definition wf_outage (outage : json) : Prop :=
  is_Some (begin_instant outage) ∧ is_Some (id_key outage).

(** What [fetch_data] puts on the wire, and the world once it is sent. *)
Definition request_for (endpoint method : string) (data : json) : request :=
  {| req_method := method;
     req_url := String.append BASE_URL endpoint;
     req_headers := [("x-api-key", API_KEY)];
     req_json := data;
     req_timeout := 10 |}.

Definition requested (w : world) (req : request) (evs : list event) : world :=
  {| sent := S (sent w); trace := trace w ++ EvRequest req :: evs |}.

Definition rate_limit_warning (wait_time : Q) : event :=
  EvLog WARNING
    "Rate limit reached. Waiting for {wait_time} seconds and retrying..."
    [ArgSeconds (Finite wait_time)].

(** A failed attempt after which the loop tries again: a timeout, a 429,
    or an HTTP error status other than 400. *)
Definition transient (o : outcome) : bool :=
  match o with
  | Raises e => is_Timeout e
  | Returns r =>
      Z.eqb (status_code r) 429
      || (Z.leb 400 (status_code r) && Z.ltb (status_code r) 600
          && negb (Z.eqb (status_code r) 400))
  end.

(** An attempt that needs nothing the code forgot to guard: the call
    returns or times out, a body that gets logged is UTF-8, and [json()],
    where it raises, raises a [RequestException]. *)
Definition guarded (o : outcome) : bool :=
  match o with
  | Raises e => is_Timeout e
  | Returns r =>
      utf8_valid_from 0 128 191 (content r)
      && match json_body r with
         | Some _ => true
         | None => is_RequestException (json_error r)
         end
  end.

(** An action that sends no request. *)
Definition quiet {A} (m : IO A) : Prop :=
  forall w x w', m w = (x, w') ->
    exists evs, w' = after w evs /\ requests_of evs = [].

(** The log lines that open the later steps of [main]. *)
Definition fetching_site_info : event :=
  EvLog INFO "Fetching site information for 'norwich-pear-tree'..." [].

Definition filtering : event :=
  EvLog INFO "Filtering and transforming outages..." [].

Definition posting : event :=
  EvLog INFO "Posting processed outages..." [].

(** What [main] logs and prints around its steps: before the first fetch,
    between the first fetch and the second, between the second fetch and
    the transformation, and between the transformation and the post. *)
Definition opening : list event :=
  [EvLog INFO "Starting the process..." [];
   EvLog INFO "Fetching all outages..." []].

Definition outages_report (items : list json) : list event :=
  [EvLog INFO "Fetched all outages successfully." [];
   EvPrint (PText (String "010" "Outages Data:"))]
  ++ map (fun outage => EvPrint (PValue outage)) items
  ++ [fetching_site_info].

Definition site_report (site_info : json) : list event :=
  [EvLog INFO "Fetched site information successfully." [];
   EvPrint (PText (String "010" "Site Information:"));
   EvPrint (PValue site_info);
   filtering].

Definition processed_report (processed_outages : list json) : list event :=
  [EvLog INFO "Filtered and transformed {len(processed_outages)} outages."
     [ArgLen (length processed_outages)];
   EvPrint (PText (String "010" "Processed Outages:"))]
  ++ map (fun outage => EvPrint (PValue outage)) processed_outages
  ++ [posting].

(** The last step of [main]: the post and the report of its response. *)
Definition main_post (processed_outages : list json) : IO unit :=
  (let* response := post_site_outages "norwich-pear-tree" processed_outages in
   if negb (truthy response) then io_ret tt else
   print (PText (String "010" "Post Response:"));;
   print (PValue response);;
   logging_info "Successfully posted {len(processed_outages)} outages."
     [ArgLen (length processed_outages)];;
   print (PText "Process completed successfully!"))%io.

(** The log line of [post_site_outages] for the response [v]. *)
Definition post_verdict (v : json) : event :=
  if truthy v
  then EvLog INFO "Outages posted successfully." []
  else EvLog ERROR "Failed to post the outages." [].

Definition nothing_to_post : event :=
  EvLog WARNING "No outages to post. Skipping the POST operation." [].

(** *** Vocabulary for runs of the retry loop *)

Definition is_log (e : event) : Prop :=
  match e with
  | EvLog _ _ _ => True
  | _ => False
  end.

(** An action all of whose events satisfy [P]. *)
Definition emits {A} (P : event -> Prop) (m : IO A) : Prop :=
  forall w x w', m w = (x, w') ->
    exists evs, w' = after w evs /\ Forall P evs.

(** The calls made from the world [w] on go as the script [os] says: the
    [j]-th of them ends as the [j]-th outcome of the script. *)
Definition follows (w : world) (req : request) (os : list outcome) : Prop :=
  forall j o, os !! j = Some o -> transport (sent w + j)%nat req = o.

(** [raise_for_status] raises on this status. *)
Definition error_status (r : Response) : bool :=
  Z.leb 400 (status_code r) && Z.ltb (status_code r) 600.

(** A response that ends the loop with its JSON body. *)
Definition succeeds (r : Response) (v : json) : Prop :=
  error_status r = false /\ json_body r = Some v.

(** An outcome after which the loop goes on, provided [response] is bound
    by then and the wait after a 429 is slept: a [RequestException], a
    429, an HTTP error status other than 400, or, under any other status,
    a body for which [json()] raises a [RequestException], as it does for
    one that is not JSON; the body being UTF-8 in each case. *)
Definition absorbed (o : outcome) : bool :=
  match o with
  | Raises e => is_RequestException e
  | Returns r =>
      utf8_valid_from 0 128 191 (content r)
      && (if error_status r
          then negb (Z.eqb (status_code r) 400)
          else match json_body r with
               | None => is_RequestException (json_error r)
               | Some _ => false
               end)
  end.

(** An outcome that is harmless while [response] is unbound. *)
Definition first_contact (o : outcome) : bool :=
  match o with
  | Returns _ => true
  | Raises e => is_Timeout e
  end.

Definition returns (o : outcome) : bool :=
  match o with
  | Returns _ => true
  | Raises _ => false
  end.

(** A script of failed attempts each of which the loop absorbs; [bound]
    says whether [response] is bound when the script starts. *)
Fixpoint absorbs (bound : bool) (os : list outcome) : bool :=
  match os with
  | [] => true
  | o :: os' =>
      absorbed o && (bound || first_contact o)
      && absorbs (bound || returns o) os'
  end.

Definition is_bound (response : option Response) : bool :=
  match response with
  | Some _ => true
  | None => false
  end.

(** The body of the response that [response] is bound to, if any, is
    UTF-8. *)
Definition decodable (response : option Response) : Prop :=
  forall r, response = Some r -> utf8_valid_from 0 128 191 (content r) = true.

(** An action that sends at most [n] requests. *)
Definition sends_at_most {A} (n : nat) (m : IO A) : Prop :=
  forall w x w', m w = (x, w') ->
    (sent w <= sent w')%nat /\ (sent w' <= sent w + n)%nat.

(** The sleep after a 429 at loop index [i]. *)
Definition backoff_wait (backoff_factor : Q) (i : nat) : Q :=
  (backoff_factor * inject_Z (2 ^ Z.of_nat i))%Q.

(** The wait after a 429 at loop index [i] is one that is slept: [2 ** i]
    converts to a float, the product is not negative and no more than
    [2 ** 63] nanoseconds (up to the rounding of [time.sleep]), and the
    platform takes it. *)
Definition can_wait (backoff_factor : Q) (i : nat) : bool :=
  let secs := backoff_wait backoff_factor i in
  Nat.ltb i 1024
  && Qle_bool 0 secs
  && Qle_bool (secs * inject_Z (10 ^ 9)) (inject_Z (2 ^ 63 + 1024))
  && match pysleep secs with Ok _ => true | Raise _ => false end.

(** The 429s among the calls made from the world [w] on, as far as the
    loop indexes of [range] go, are followed by waits that are slept. *)
Definition waits (backoff_factor : Q) (w : world) (req : request)
    (range : list nat) : Prop :=
  forall j i r,
    range !! j = Some i ->
    transport (sent w + j)%nat req = Returns r ->
    status_code r = 429 ->
    can_wait backoff_factor i = true.

(** Every 429 of the script is followed by a wait that is slept, the
    outcomes of the script being those of the attempts 0, 1, ... *)
Definition slept (backoff_factor : Q) (os : list outcome) : Prop :=
  forall j r,
    os !! j = Some (Returns r) ->
    status_code r = 429 ->
    can_wait backoff_factor j = true.

(** What [time.sleep] raises for a negative length. *)
Definition negative_sleep_error (secs : Q) : exn :=
  if Qlt_bool (secs * inject_Z (10 ^ 9)) (inject_Z (- (2 ^ 63 + 1024)))
  then OverflowError else ValueError.

Fixpoint total (qs : list Q) : Q :=
  match qs with
  | [] => 0%Q
  | q :: qs' => (q + total qs')%Q
  end.

(* ===================================================================== *)
(** ** fetch_data: the retry loop *)
(* ===================================================================== *)

Ltac io_unfold :=
  unfold io_bind, io_try, io_catch, io_ret, io_raise, io_lift, emit,
    logging_info, logging_warning, logging_error, print, local.

Lemma wait_time_nonneg (backoff_factor : Q) (i : nat) :
  Qle 0 backoff_factor ->
  Qle_bool 0 (backoff_factor * inject_Z (2 ^ Z.of_nat i)) = true.
Proof.
  intros Hb. apply Qle_bool_iff. apply Qmult_le_0_compat; [assumption|].
  change 0%Q with (inject_Z 0). rewrite <- Zle_Qle.
  apply Z.pow_nonneg. lia.
Qed.

(** A wait that can be slept is slept: the product is a finite float and
    [time.sleep] raises nothing. *)
Lemma can_wait_sleeps (backoff_factor : Q) (i : nat) (w : world) :
  can_wait backoff_factor i = true ->
  float_mul_pow2 backoff_factor i
  = Ok (Finite (backoff_wait backoff_factor i)) /\
  time_sleep (Finite (backoff_wait backoff_factor i)) w
  = (Ok tt, after w [EvSleep (backoff_wait backoff_factor i)]).
Proof.
  unfold can_wait. intros H.
  apply andb_true_iff in H as [H H4]. apply andb_true_iff in H as [H H3].
  apply andb_true_iff in H as [H1 H2].
  set (secs := backoff_wait backoff_factor i) in *.
  apply Nat.ltb_lt in H1.
  pose proof (proj1 (Qle_bool_iff _ _) H2) as H2'.
  pose proof (proj1 (Qle_bool_iff _ _) H3) as H3'.
  assert (Hns : Qle 0 (secs * inject_Z (10 ^ 9))).
  { apply Qmult_le_0_compat; [exact H2'|]. discriminate. }
  split.
  - unfold float_mul_pow2. fold (backoff_wait backoff_factor i). fold secs.
    replace (Nat.leb 1024 i) with false
      by (symmetry; apply Nat.leb_gt; exact H1).
    destruct (Qle_bool (inject_Z (2 ^ 1024)) secs) eqn:E1.
    { exfalso. apply Qle_bool_iff in E1.
      assert (Hc : Qle (inject_Z (2 ^ 1024) * inject_Z (10 ^ 9))
                       (inject_Z (2 ^ 63 + 1024))).
      { eapply Qle_trans; [|exact H3'].
        apply Qmult_le_compat_r; [exact E1|discriminate]. }
      vm_compute in Hc. now apply Hc. }
    destruct (Qle_bool secs (inject_Z (- 2 ^ 1024))) eqn:E2.
    { exfalso. apply Qle_bool_iff in E2.
      pose proof (Qle_trans _ _ _ H2' E2) as Hc.
      vm_compute in Hc. now apply Hc. }
    reflexivity.
  - unfold time_sleep, Qlt_bool. rewrite H3, H2. cbn [negb orb].
    replace (Qle_bool (inject_Z (- (2 ^ 63 + 1024))) (secs * inject_Z (10 ^ 9)))
      with true.
    2:{ symmetry. apply Qle_bool_iff.
        eapply Qle_trans; [|exact Hns]. discriminate. }
    cbn [negb]. unfold io_bind, io_lift, emit, after.
    destruct (pysleep secs) as [[]|]; [reflexivity|discriminate].
Qed.

Lemma can_wait_product (backoff_factor : Q) (i : nat) :
  can_wait backoff_factor i = true ->
  float_mul_pow2 backoff_factor i
  = Ok (Finite (backoff_wait backoff_factor i)).
Proof. intros H. apply (can_wait_sleeps _ _ world0 H). Qed.

Lemma can_wait_sleep (backoff_factor : Q) (i : nat) (w : world) :
  can_wait backoff_factor i = true ->
  time_sleep (Finite (backoff_wait backoff_factor i)) w
  = (Ok tt, after w [EvSleep (backoff_wait backoff_factor i)]).
Proof. intros H. apply (can_wait_sleeps _ _ w H). Qed.

Lemma requests_of_app evs evs' :
  requests_of (evs ++ evs') = requests_of evs ++ requests_of evs'.
Proof.
  induction evs as [|[] evs IH]; cbn; auto. now rewrite IH.
Qed.

Lemma after_nil w : after w [] = w.
Proof. destruct w. unfold after. cbn. now rewrite app_nil_r. Qed.

Lemma after_after w evs evs' : after (after w evs) evs' = after w (evs ++ evs').
Proof. unfold after. cbn. now rewrite app_assoc. Qed.

Lemma quiet_ret {A} (a : A) : quiet (io_ret a).
Proof.
  intros w x w' H. inversion H; subst. exists []. now rewrite after_nil.
Qed.

Lemma quiet_raise {A} (e : exn) : quiet (@io_raise A e).
Proof.
  intros w x w' H. inversion H; subst. exists []. now rewrite after_nil.
Qed.

Lemma quiet_lift {A} (r : res A) : quiet (io_lift r).
Proof.
  intros w x w' H. inversion H; subst. exists []. now rewrite after_nil.
Qed.

Lemma quiet_emit e : requests_of [e] = [] -> quiet (emit e).
Proof.
  intros He w x w' H. inversion H; subst. exists [e]. now split.
Qed.

Lemma quiet_try {A B} (m : IO A) (k : A -> IO B) (h : exn -> IO B) :
  quiet m -> (forall a, quiet (k a)) -> (forall e, quiet (h e)) ->
  quiet (io_try m k h).
Proof.
  intros Hm Hk Hh w x w' H. unfold io_try in H.
  destruct (m w) as [[a|e] w1] eqn:E;
    destruct (Hm _ _ _ E) as (evs & -> & Hr).
  - destruct (Hk _ _ _ _ H) as (evs' & -> & Hr').
    exists (evs ++ evs'). rewrite after_after, requests_of_app, Hr, Hr'. now split.
  - destruct (Hh _ _ _ _ H) as (evs' & -> & Hr').
    exists (evs ++ evs'). rewrite after_after, requests_of_app, Hr, Hr'. now split.
Qed.

Lemma quiet_bind {A B} (m : IO A) (k : A -> IO B) :
  quiet m -> (forall a, quiet (k a)) -> quiet (io_bind m k).
Proof.
  intros Hm Hk. apply (quiet_try m k io_raise Hm Hk).
  intros e. apply quiet_raise.
Qed.

Ltac quiet_step :=
  first
    [ apply quiet_ret | apply quiet_raise | apply quiet_lift
    | apply quiet_emit; reflexivity
    | apply quiet_bind; [|intros ?]
    | progress unfold logging_info, logging_warning, logging_error, print,
        local, time_sleep, raise_for_status, response_json
    | case_match ].

Lemma on_response_quiet backoff_factor i r : quiet (on_response backoff_factor i r).
Proof. unfold on_response. repeat quiet_step. Qed.

Lemma except_clauses_quiet response e : quiet (except_clauses response e).
Proof. unfold except_clauses. repeat quiet_step. Qed.

Section Loop.

Variables (endpoint method : string) (data : json) (backoff_factor : Q).

Let url := String.append BASE_URL endpoint.
Let headers := [("x-api-key", API_KEY)].
Let req := request_for endpoint method data.
Let loop := fetch_loop method url headers data backoff_factor.

Lemma request_returns w r :
  transport (sent w) req = Returns r ->
  requests_request method url headers data 10 w = (Ok r, requested w req []).
Proof.
  intros H. unfold requests_request. fold req. unfold req, request_for in H.
  fold url headers in H. rewrite H. reflexivity.
Qed.

Lemma request_raises w e :
  transport (sent w) req = Raises e ->
  requests_request method url headers data 10 w = (Raise e, requested w req []).
Proof.
  intros H. unfold requests_request. unfold req, request_for in H.
  fold url headers in H. rewrite H. reflexivity.
Qed.

(** A 429 costs one request, one warning and one sleep of
    [backoff_factor * 2 ** i], and the loop goes on. *)
Lemma loop_429 i range response w r :
  can_wait backoff_factor i = true ->
  transport (sent w) req = Returns r ->
  status_code r = 429 ->
  let wait_time := backoff_wait backoff_factor i in
  loop (i :: range) response w
  = loop range (Some r)
      (requested w req [rate_limit_warning wait_time; EvSleep wait_time]).
Proof.
  intros Hb Ht Hs wait_time. unfold loop. simpl fetch_loop.
  unfold iteration. io_unfold. rewrite (request_returns _ _ Ht).
  unfold on_response. rewrite Hs. simpl Z.eqb. cbv iota.
  io_unfold. subst wait_time.
  rewrite (can_wait_product _ _ Hb). unfold emit.
  rewrite (can_wait_sleep _ _ _ Hb).
  unfold after, requested, rate_limit_warning. cbn [sent trace].
  rewrite <- !app_assoc. reflexivity.
Qed.

Lemma waits_tail i range w evs :
  waits backoff_factor w req (i :: range) ->
  waits backoff_factor (requested w req evs) req range.
Proof.
  intros H j i' r Hj Ht Hs. apply (H (S j) i' r); auto.
  cbn [requested sent] in Ht. rewrite <- Ht. f_equal. lia.
Qed.

Lemma waits_head i range w r :
  waits backoff_factor w req (i :: range) ->
  transport (sent w) req = Returns r ->
  status_code r = 429 ->
  can_wait backoff_factor i = true.
Proof.
  intros H Ht Hs. apply (H 0%nat i r); auto. now rewrite Nat.add_0_r.
Qed.

(** A 2xx whose body is JSON ends the loop with that JSON. *)
Lemma loop_200 i range response w r v :
  transport (sent w) req = Returns r ->
  status_code r = 200 ->
  json_body r = Some v ->
  loop (i :: range) response w = (Ok v, requested w req []).
Proof.
  intros Ht Hs Hj. unfold loop. simpl fetch_loop.
  unfold iteration. io_unfold. rewrite (request_returns _ _ Ht).
  unfold on_response, raise_for_status, response_json. rewrite Hs, Hj.
  reflexivity.
Qed.

Lemma loop_nil response w : loop [] response w = (Ok JNull, w).
Proof. reflexivity. Qed.

(** A 400 whose body is UTF-8 ends the loop with [None]: one request, one
    log line, no sleep. *)
Lemma loop_400 i range response w r body :
  transport (sent w) req = Returns r ->
  status_code r = 400 ->
  bytes_decode_utf8 (content r) = Ok body ->
  loop (i :: range) response w
  = (Ok JNull,
     requested w req
       [EvLog ERROR
          "Bad Request. Server Response: {response.content.decode('utf-8')}"
          [ArgText body]]).
Proof.
  intros Ht Hs Hd. unfold loop. simpl fetch_loop.
  unfold iteration. io_unfold. rewrite (request_returns _ _ Ht).
  unfold on_response. rewrite Hs. simpl Z.eqb. cbv iota.
  io_unfold. rewrite Hd. unfold requested. simpl.
  rewrite <- !app_assoc. reflexivity.
Qed.

(** A 400 whose body is not UTF-8: the log line cannot be built and
    [UnicodeDecodeError] leaves the function. *)
Lemma loop_400_undecodable i range response w r :
  transport (sent w) req = Returns r ->
  status_code r = 400 ->
  bytes_decode_utf8 (content r) = Raise UnicodeDecodeError ->
  loop (i :: range) response w = (Raise UnicodeDecodeError, requested w req []).
Proof.
  intros Ht Hs Hd. unfold loop. simpl fetch_loop.
  unfold iteration. io_unfold. rewrite (request_returns _ _ Ht).
  unfold on_response. rewrite Hs. simpl Z.eqb. cbv iota.
  io_unfold. rewrite Hd. reflexivity.
Qed.

Lemma loop_timeout i range response w :
  transport (sent w) req = Raises Timeout ->
  loop (i :: range) response w
  = loop range response
      (requested w req [EvLog ERROR "Request timed out." []]).
Proof.
  intros Ht. unfold loop. simpl fetch_loop.
  unfold iteration. io_unfold. rewrite (request_raises _ _ Ht).
  unfold except_clauses. simpl is_Timeout. cbv iota. io_unfold.
  unfold requested. simpl. rewrite <- !app_assoc. reflexivity.
Qed.

(** An HTTP error status other than 400 and 429 is logged and the loop
    goes on. *)
Lemma loop_http_error i range response w r :
  transport (sent w) req = Returns r ->
  400 < status_code r < 600 ->
  status_code r <> 429 ->
  exists line,
    loop (i :: range) response w
    = loop range (Some r) (requested w req [EvLog ERROR line []])
    \/ loop (i :: range) response w
       = loop range (Some r)
           (requested w req [EvLog ERROR line [ArgExn HTTPError]]).
Proof.
  intros Ht Hs Hn. unfold loop. simpl fetch_loop.
  unfold iteration. io_unfold. rewrite (request_returns _ _ Ht).
  unfold on_response, raise_for_status.
  destruct (Z.eqb_spec (status_code r) 429) as [|_]; [contradiction|].
  destruct (Z.eqb_spec (status_code r) 400) as [|_]; [lia|].
  replace (Z.leb 400 (status_code r) && Z.ltb (status_code r) 600) with true
    by (symmetry; apply andb_true_iff; split; [apply Z.leb_le|apply Z.ltb_lt]; lia).
  io_unfold. unfold except_clauses. io_unfold. unfold requested. simpl.
  destruct (Z.eqb (status_code r) 500); eexists; [left|right];
    simpl; rewrite <- !app_assoc; reflexivity.
Qed.

(** A request that raises some other [RequestException] before any
    response was received: the handler reads [response], which is
    unbound. *)
Lemma loop_request_error_unbound i range w e :
  transport (sent w) req = Raises e ->
  is_RequestException e = true ->
  is_Timeout e = false ->
  is_HTTPError e = false ->
  loop (i :: range) None w
  = (Raise UnboundLocalError,
     requested w req [EvLog ERROR "Request error: {e}" [ArgExn e]]).
Proof.
  intros Ht He Hto Hh. unfold loop. simpl fetch_loop.
  unfold iteration. io_unfold. rewrite (request_raises _ _ Ht).
  unfold except_clauses. rewrite Hto, Hh, He. io_unfold.
  unfold requested. simpl. rewrite <- !app_assoc. reflexivity.
Qed.

(** Every pass through the loop body sends exactly one request. *)
Lemma iteration_one_request i response w x w' :
  iteration method url headers data backoff_factor i response w = (x, w') ->
  exists evs, w' = requested w req evs /\ requests_of evs = [].
Proof.
  unfold iteration, io_try. intros H.
  assert (Hq : forall (m : IO (flow * option Response)) y,
             quiet m -> m (requested w req []) = (y, w') ->
             exists evs, w' = requested w req evs /\ requests_of evs = []).
  { intros m y Hm E. destruct (Hm _ _ _ E) as (evs & -> & Hr).
    exists evs. split; [|exact Hr]. unfold after, requested. cbn [sent trace].
    rewrite <- app_assoc. reflexivity. }
  destruct (transport (sent w) req) as [r|e] eqn:Ht.
  - rewrite (request_returns _ _ Ht) in H. revert H. apply Hq.
    apply quiet_bind; [|intros ?; apply quiet_ret].
    apply quiet_try; [apply on_response_quiet | intros ?; apply quiet_ret
                     | intros ?; apply except_clauses_quiet].
  - rewrite (request_raises _ _ Ht) in H. revert H. apply Hq.
    apply quiet_bind; [|intros ?; apply quiet_ret].
    apply except_clauses_quiet.
Qed.

(** The loop never sends more requests than the range is long. *)
Lemma loop_bound range : forall response w x w',
  loop range response w = (x, w') ->
  exists evs,
    trace w' = trace w ++ evs /\
    sent w' = (sent w + length (requests_of evs))%nat /\
    (length (requests_of evs) <= length range)%nat.
Proof.
  induction range as [|i range IH]; intros response w x w' H.
  - rewrite loop_nil in H. inversion H; subst. exists [].
    rewrite app_nil_r. cbn. split; [reflexivity|]. split; lia.
  - unfold loop in H. simpl fetch_loop in H. unfold io_bind in H.
    destruct (iteration method url headers data backoff_factor i response w)
      as [[[f response']|e] w1] eqn:E;
      destruct (iteration_one_request _ _ _ _ _ E) as (evs & -> & Hq).
    + destruct f.
      * apply IH in H. destruct H as (evs' & Htr & Hs & Hl).
        exists (EvRequest req :: evs ++ evs').
        cbn [requested trace sent] in *. rewrite Htr, Hs.
        rewrite <- app_assoc. cbn [app requests_of length].
        assert (Hr : requests_of (evs ++ evs') = requests_of evs').
        { clear -Hq. induction evs as [|[] evs IHe]; cbn in *;
            try discriminate; auto. }
        rewrite Hr. split; [reflexivity|]. split; lia.
      * unfold io_ret in H. inversion H; subst.
        exists (EvRequest req :: evs). cbn [requested trace sent requests_of length].
        rewrite Hq. cbn. split; [reflexivity|]. split; lia.
    + inversion H; subst.
      exists (EvRequest req :: evs). cbn [requested trace sent requests_of length].
      rewrite Hq. cbn. split; [reflexivity|]. split; lia.
Qed.

(** If every attempt fails in a way the loop retries, the waits after the
    429s being slept, the loop makes one request per element of the range
    and ends with [None]. *)
Lemma loop_exhausts range : forall response w,
  waits backoff_factor w req range ->
  (forall k, (k < length range)%nat ->
             transient (transport (sent w + k)%nat req) = true) ->
  exists evs,
    loop range response w
    = (Ok JNull,
       {| sent := (sent w + length range)%nat; trace := trace w ++ evs |})
    /\ requests_of evs = repeat req (length range).
Proof.
  induction range as [|i range IH]; intros response w Hb Hall.
  - exists []. rewrite loop_nil. cbn. rewrite Nat.add_0_r, app_nil_r.
    destruct w; auto.
  - assert (Hstep : exists response' evs,
               loop (i :: range) response w
               = loop range response' (requested w req evs)
               /\ requests_of evs = []).
    { pose proof (Hall 0%nat ltac:(cbn; lia)) as H0.
      rewrite Nat.add_0_r in H0.
      destruct (transport (sent w) req) as [r|e] eqn:Ht; cbn in H0.
      - destruct (Z.eqb_spec (status_code r) 429) as [H429|H429].
        + eexists _, _.
          split; [apply (loop_429 i range response w r
                           (waits_head _ _ _ _ Hb Ht H429) Ht H429)|].
          reflexivity.
        + cbn in H0. apply andb_true_iff in H0 as [H0 Hne].
          apply andb_true_iff in H0 as [Hlo Hhi].
          apply Z.leb_le in Hlo. apply Z.ltb_lt in Hhi.
          apply negb_true_iff, Z.eqb_neq in Hne.
          destruct (loop_http_error i range response w r Ht ltac:(lia) H429)
            as (line & [E|E]); eexists _, _; (split; [exact E|reflexivity]).
      - destruct e; try discriminate.
        eexists _, _. split; [apply (loop_timeout i range response w Ht)|].
        reflexivity. }
    destruct Hstep as (response' & evs & E & Hq).
    destruct (IH response' (requested w req evs) (waits_tail _ _ _ _ Hb))
      as (evs' & E' & Hq').
    { intros k Hk. cbn [requested sent].
      replace (S (sent w) + k)%nat with (sent w + S k)%nat by lia.
      apply Hall. cbn. lia. }
    exists (EvRequest req :: evs ++ evs'). split.
    + rewrite E, E'. cbn [requested sent trace length]. f_equal. f_equal.
      * lia.
      * rewrite <- app_assoc. reflexivity.
    + cbn [requests_of length repeat]. now rewrite requests_of_app, Hq, Hq'.
Qed.

(** When the call returns or times out, needing nothing the code forgot
    to guard, and the wait after a 429 is slept, the pass through the
    loop body ends without an exception. *)
Lemma iteration_guarded i response w :
  (forall r, transport (sent w) req = Returns r -> status_code r = 429 ->
             can_wait backoff_factor i = true) ->
  guarded (transport (sent w) req) = true ->
  exists f response' evs,
    iteration method url headers data backoff_factor i response w
    = (Ok (f, response'), requested w req evs).
Proof.
  intros Hb Hg. unfold iteration, io_try.
  destruct (transport (sent w) req) as [r|e] eqn:Ht; cbn in Hg.
  - rewrite (request_returns _ _ Ht).
    apply andb_true_iff in Hg as [Hg Hj].
    assert (Hd : bytes_decode_utf8 (content r) = Ok (string_of_list_byte (content r))).
    { unfold bytes_decode_utf8. now rewrite Hg. }
    unfold on_response, except_clauses, raise_for_status, response_json.
    rewrite Hd. io_unfold. unfold requested.
    assert (Hfin : forall (f : flow) (o : option Response) tr evs,
               tr = trace w ++ EvRequest req :: evs ->
               exists f' o' evs',
                 (Ok (f, o), {| sent := S (sent w); trace := tr |})
                 = (Ok (f', o'),
                    {| sent := S (sent w);
                       trace := trace w ++ EvRequest req :: evs' |})).
    { intros f o tr evs ->. eexists _, _, _. reflexivity. }
    destruct (Z.eqb_spec (status_code r) 429) as [H429|_]; cbn.
    { pose proof (Hb r eq_refl H429) as Hw.
      rewrite (can_wait_product _ _ Hw). unfold emit, io_try. cbv beta.
      rewrite (can_wait_sleep _ _ _ Hw). unfold after. cbn [sent trace].
      eapply Hfin; rewrite <- !app_assoc; reflexivity. }
    destruct (Z.eqb (status_code r) 400); cbn;
      [eapply Hfin; rewrite <- !app_assoc; reflexivity|].
    destruct (Z.leb 400 (status_code r) && Z.ltb (status_code r) 600); cbn.
    + destruct (Z.eqb (status_code r) 500); cbn;
        eapply Hfin; rewrite <- !app_assoc; reflexivity.
    + destruct (json_body r); cbn; [eapply Hfin; reflexivity|].
      destruct (json_error r); try discriminate Hj; cbn.
      * eapply Hfin; rewrite <- !app_assoc; reflexivity.
      * destruct (Z.eqb (status_code r) 500); cbn;
          eapply Hfin; rewrite <- !app_assoc; reflexivity.
      * destruct (content r); cbn; rewrite ?Hd; cbn;
          eapply Hfin; rewrite <- !app_assoc; reflexivity.
      * destruct (content r); cbn; rewrite ?Hd; cbn;
          eapply Hfin; rewrite <- !app_assoc; reflexivity.
  - destruct e; try discriminate.
    rewrite (request_raises _ _ Ht). unfold except_clauses. io_unfold.
    unfold requested. cbn. rewrite <- ?app_assoc.
    eexists _, _, _; reflexivity.
Qed.

Lemma loop_returns range : forall response w,
  waits backoff_factor w req range ->
  (forall k, (k < length range)%nat ->
             guarded (transport (sent w + k)%nat req) = true) ->
  exists v w', loop range response w = (Ok v, w').
Proof.
  induction range as [|i range IH]; intros response w Hb Hall.
  - eexists _, _. apply loop_nil.
  - pose proof (Hall 0%nat ltac:(cbn; lia)) as H0. rewrite Nat.add_0_r in H0.
    destruct (iteration_guarded i response w) as (f & response' & evs & E);
      [intros r Ht Hs; exact (waits_head _ _ _ _ Hb Ht Hs)|exact H0|].
    unfold loop. simpl fetch_loop. unfold io_bind. rewrite E.
    destruct f as [|v].
    + apply IH; [exact (waits_tail _ _ _ _ Hb)|].
      intros k Hk. cbn [requested sent].
      replace (S (sent w) + k)%nat with (sent w + S k)%nat by lia.
      apply Hall. cbn. lia.
    + eexists _, _. reflexivity.
Qed.

(** A pass through the loop body starts with the request. *)
Lemma loop_cons_trace i range response w x w' :
  loop (i :: range) response w = (x, w') ->
  exists evs, trace w' = trace w ++ EvRequest req :: evs.
Proof.
  intros H. unfold loop in H. simpl fetch_loop in H. unfold io_bind in H.
  destruct (iteration method url headers data backoff_factor i response w)
    as [[[f response']|e] w1] eqn:E;
    destruct (iteration_one_request _ _ _ _ _ E) as (evs & -> & _).
  - destruct f.
    + apply loop_bound in H as (evs' & Htr & _). exists (evs ++ evs').
      rewrite Htr. cbn [requested trace]. now rewrite <- app_assoc.
    + unfold io_ret in H. injection H as <- <-. now exists evs.
  - injection H as <- <-. now exists evs.
Qed.

(** A 429 at the [j]-th call of a run that gets that far, followed by a
    wait that is slept: the run has [j] requests before that call, then
    the request, the warning and the sleep, and after the sleep the next
    request if the range has an index left, and else nothing: the run
    ends with [None]. *)
Lemma loop_429_then range : forall response w x w' j i r,
  loop range response w = (x, w') ->
  (sent w + j < sent w')%nat ->
  range !! j = Some i ->
  transport (sent w + j)%nat req = Returns r ->
  status_code r = 429 ->
  can_wait backoff_factor i = true ->
  exists before rest,
    trace w'
    = trace w ++ before
      ++ EvRequest req :: rate_limit_warning (backoff_wait backoff_factor i)
         :: EvSleep (backoff_wait backoff_factor i) :: rest /\
    requests_of before = repeat req j /\
    match drop (S j) range with
    | [] => rest = [] /\ x = Ok JNull
    | _ :: _ => exists rest', rest = EvRequest req :: rest'
    end.
Proof.
  induction range as [|i0 range IH]; intros response w x w' j i r H Hj Hi Ht Hs Hb;
    [discriminate|].
  destruct j as [|j].
  - injection Hi as ->. rewrite Nat.add_0_r in Ht.
    rewrite (loop_429 _ _ _ _ _ Hb Ht Hs) in H. cbv zeta in H.
    exists []. cbn [app drop].
    destruct range as [|i1 range].
    + rewrite loop_nil in H. injection H as <- <-. exists [].
      unfold requested. cbn [trace drop]. auto.
    + apply loop_cons_trace in H as (evs & Htr). exists (EvRequest req :: evs).
      rewrite Htr. unfold requested. cbn [trace drop]. rewrite <- app_assoc.
      cbn [app]. eauto.
  - cbn [lookup list_lookup] in Hi.
    unfold loop in H. simpl fetch_loop in H. unfold io_bind in H.
    destruct (iteration method url headers data backoff_factor i0 response w)
      as [[[f response']|e] w1] eqn:E;
      destruct (iteration_one_request _ _ _ _ _ E) as (evs & -> & Hq).
    + destruct f.
      * destruct (IH response' (requested w req evs) x w' j i r H)
          as (before & rest & Htr & Hrq & Hrest); auto.
        { cbn [requested sent]. lia. }
        { cbn [requested sent]. rewrite <- Ht. f_equal. lia. }
        exists (EvRequest req :: evs ++ before), rest.
        split; [|split].
        -- rewrite Htr. unfold requested. cbn [trace].
           rewrite <- !app_assoc. cbn [app]. rewrite <- !app_assoc.
           reflexivity.
        -- cbn [requests_of repeat]. now rewrite requests_of_app, Hq, Hrq.
        -- exact Hrest.
      * unfold io_ret in H. injection H as <- <-.
        cbn [requested sent] in Hj. lia.
    + injection H as <- <-. cbn [requested sent] in Hj. lia.
Qed.

End Loop.

(** Over [range(n)] the loop index of a call is its number. *)
Lemma waits_seq backoff_factor w req n :
  (forall j r, (j < n)%nat ->
     transport (sent w + j)%nat req = Returns r ->
     status_code r = 429 ->
     can_wait backoff_factor j = true) ->
  waits backoff_factor w req (seq 0 n).
Proof.
  intros H j i r Hj Ht Hs. apply lookup_seq in Hj as [-> Hj].
  now apply (H j r).
Qed.

Lemma new_events_after w w' evs :
  trace w' = trace w ++ evs -> new_events w w' = evs.
Proof. intros H. unfold new_events. rewrite H. apply drop_app_length. Qed.

(** [fetch_data] never sends more than [retries] requests, whatever the
    network does and however the call ends. *)
Lemma fetch_data_at_most_retries endpoint method data retries backoff_factor
    w x w' :
  fetch_data endpoint method data retries backoff_factor w = (x, w') ->
  (sent w' <= sent w + Z.to_nat retries)%nat /\
  (length (requests_of (new_events w w')) <= Z.to_nat retries)%nat.
Proof.
  intros H. unfold fetch_data in H.
  destruct (loop_bound _ _ _ _ _ _ _ _ _ H) as (evs & Htr & Hs & Hl).
  rewrite length_seq in Hl. rewrite (new_events_after _ _ _ Htr). lia.
Qed.

(** When every attempt ends in a timeout, a 429 whose wait is slept or an
    HTTP error status other than 400, [fetch_data] makes exactly
    [retries] attempts and returns [None]. *)
Lemma fetch_data_exhausts endpoint method data retries backoff_factor w :
  (forall j r, (j < Z.to_nat retries)%nat ->
     transport (sent w + j)%nat (request_for endpoint method data) = Returns r ->
     status_code r = 429 ->
     can_wait backoff_factor j = true) ->
  (forall k, (k < Z.to_nat retries)%nat ->
     transient (transport (sent w + k)%nat (request_for endpoint method data))
     = true) ->
  exists w',
    fetch_data endpoint method data retries backoff_factor w = (Ok JNull, w') /\
    sent w' = (sent w + Z.to_nat retries)%nat /\
    requests_of (new_events w w')
    = repeat (request_for endpoint method data) (Z.to_nat retries).
Proof.
  intros Hb Hall. unfold fetch_data.
  destruct (loop_exhausts endpoint method data backoff_factor
              (seq 0 (Z.to_nat retries)) None w (waits_seq _ _ _ _ Hb))
    as (evs & E & Hq).
  { rewrite length_seq. exact Hall. }
  rewrite length_seq in E, Hq. eexists. split; [exact E|].
  split; [reflexivity|]. now rewrite (new_events_after _ _ evs).
Qed.

(** When every attempt needs nothing the code forgot to guard and the
    wait after every 429 is slept, [fetch_data] returns: a JSON value or
    [None]. *)
Lemma fetch_data_returns endpoint method data retries backoff_factor w :
  (forall j r, (j < Z.to_nat retries)%nat ->
     transport (sent w + j)%nat (request_for endpoint method data) = Returns r ->
     status_code r = 429 ->
     can_wait backoff_factor j = true) ->
  (forall k, (k < Z.to_nat retries)%nat ->
     guarded (transport (sent w + k)%nat (request_for endpoint method data))
     = true) ->
  exists v w',
    fetch_data endpoint method data retries backoff_factor w = (Ok v, w').
Proof.
  intros Hb Hall. unfold fetch_data.
  apply loop_returns; [exact (waits_seq _ _ _ _ Hb)|].
  now rewrite length_seq.
Qed.

(** A 400 on the first attempt whose body is UTF-8: [None] after that one
    request, and nothing but the log line besides. *)
Lemma fetch_data_400 endpoint method data retries backoff_factor w r body :
  0 < retries ->
  transport (sent w) (request_for endpoint method data) = Returns r ->
  status_code r = 400 ->
  bytes_decode_utf8 (content r) = Ok body ->
  exists w',
    fetch_data endpoint method data retries backoff_factor w = (Ok JNull, w') /\
    sent w' = S (sent w) /\
    requests_of (new_events w w') = [request_for endpoint method data] /\
    sleeps_of (new_events w w') = [].
Proof.
  intros Hr Ht Hs Hd. unfold fetch_data.
  destruct (Z.to_nat retries) as [|n] eqn:E; [lia|]. cbn [seq].
  rewrite (loop_400 _ _ _ _ _ _ _ _ _ _ Ht Hs Hd).
  eexists. split; [reflexivity|]. split; [reflexivity|].
  erewrite new_events_after by (unfold requested; cbn [trace]; reflexivity).
  split; reflexivity.
Qed.

(** A first attempt that raises a [RequestException] other than a timeout
    ends the call with [UnboundLocalError]. *)
Lemma fetch_data_request_error_first endpoint method data retries
    backoff_factor w e :
  0 < retries ->
  transport (sent w) (request_for endpoint method data) = Raises e ->
  is_RequestException e = true ->
  is_Timeout e = false ->
  is_HTTPError e = false ->
  fetch_data endpoint method data retries backoff_factor w
  = (Raise UnboundLocalError,
     requested w (request_for endpoint method data)
       [EvLog ERROR "Request error: {e}" [ArgExn e]]).
Proof.
  intros Hr Ht He Hto Hh. unfold fetch_data.
  destruct (Z.to_nat retries) as [|n] eqn:E; [lia|]. cbn [seq].
  now apply loop_request_error_unbound.
Qed.

(* ===================================================================== *)
(** ** fetch_data: the claims *)
(* ===================================================================== *)

(** C5, as amended.  A 429 on attempt [i], when [backoff_factor * 2 ** i]
    is a wait that is slept, costs that attempt and makes the executor
    sleep exactly that many seconds, after which it retries.  In a run of
    [fetch_data]
    that gets as far as attempt [i], whatever the attempts before were,
    there are [i] requests before this one, then come the request, the
    warning and the sleep of [backoff_factor * 2 ** i] seconds, and right
    after the sleep the request of attempt [i + 1], unless [i] was the
    last attempt, in which case the run ends there with [None].  In
    particular, when the transport answers 429 three times and then 200
    with a JSON payload, [fetch_data] (given at least four attempts, and
    three waits that are slept) returns that payload after four requests
    and exactly three sleeps, of [backoff_factor * 1], [backoff_factor * 2]
    and [backoff_factor * 4] seconds. *)
Theorem fetch_data_429_backoff (endpoint method : string) (data : json)
    (retries : Z) (backoff_factor : Q) (w : world) :
  let req := request_for endpoint method data in
  let wait := backoff_wait backoff_factor in
  (forall i r x w',
      fetch_data endpoint method data retries backoff_factor w = (x, w') ->
      (sent w + i < sent w')%nat ->
      transport (sent w + i)%nat req = Returns r ->
      status_code r = 429 ->
      can_wait backoff_factor i = true ->
      exists before rest,
        new_events w w'
        = before
          ++ EvRequest req :: rate_limit_warning (wait i) :: EvSleep (wait i)
             :: rest /\
        requests_of before = repeat req i /\
        (Z.of_nat (S i) < retries ->
         exists rest', rest = EvRequest req :: rest') /\
        (Z.of_nat (S i) = retries -> rest = [] /\ x = Ok JNull))
  /\
  (forall r0 r1 r2 r3 v,
      4 <= retries ->
      transport (sent w) req = Returns r0 -> status_code r0 = 429 ->
      transport (sent w + 1)%nat req = Returns r1 -> status_code r1 = 429 ->
      transport (sent w + 2)%nat req = Returns r2 -> status_code r2 = 429 ->
      transport (sent w + 3)%nat req = Returns r3 -> status_code r3 = 200 ->
      json_body r3 = Some v ->
      (forall i, (i < 3)%nat -> can_wait backoff_factor i = true) ->
      exists w',
        fetch_data endpoint method data retries backoff_factor w = (Ok v, w') /\
        sent w' = (sent w + 4)%nat /\
        sleeps_of (new_events w w')
        = [(backoff_factor * inject_Z 1)%Q; (backoff_factor * inject_Z 2)%Q;
           (backoff_factor * inject_Z 4)%Q]).
Proof.
  intros req wait. split.
  - intros i r x w' H Hi Ht Hs Hb. unfold fetch_data in H.
    pose proof (loop_bound _ _ _ _ _ _ _ _ _ H) as (evs & Htr & Hse & Hl).
    rewrite length_seq in Hl.
    assert (Hlt : (i < Z.to_nat retries)%nat) by lia.
    destruct (loop_429_then endpoint method data backoff_factor
                _ _ _ _ _ i i r H Hi) as (before & rest & Htr' & Hq & Hrest);
      [apply lookup_seq; split; [reflexivity|exact Hlt]|exact Ht|exact Hs
      |exact Hb|].
    exists before, rest.
    split; [exact (new_events_after _ _ _ Htr')|]. split; [exact Hq|].
    rewrite drop_seq in Hrest. cbn [Nat.add] in Hrest.
    destruct (Z.to_nat retries - S i)%nat as [|m] eqn:Em; cbn [seq] in Hrest.
    + split; [intros; lia|]. intros _. exact Hrest.
    + split; [intros _; exact Hrest|]. intros; lia.
  - intros r0 r1 r2 r3 v Hr H0 S0 H1 S1 H2 S2 H3 S3 Hj Hb.
    unfold fetch_data.
    destruct (Z.to_nat retries) as [|[|[|[|n]]]] eqn:E; try lia.
    cbn [seq].
    rewrite (loop_429 _ _ _ _ 0%nat _ _ _ _ (Hb 0%nat ltac:(lia)) H0 S0).
    rewrite (loop_429 _ _ _ _ 1%nat _ _ (requested w _ _) r1
               (Hb 1%nat ltac:(lia)));
      [|cbn [requested sent]; rewrite <- H1; f_equal; lia|exact S1].
    rewrite (loop_429 _ _ _ _ 2%nat _ _ (requested (requested w _ _) _ _) r2
               (Hb 2%nat ltac:(lia)));
      [|cbn [requested sent]; rewrite <- H2; f_equal; lia|exact S2].
    rewrite (loop_200 _ _ _ _ 3%nat _ _ _ r3 v);
      [|cbn [requested sent]; rewrite <- H3; f_equal; lia|exact S3|exact Hj].
    eexists. split; [reflexivity|]. split; [cbn [requested sent]; lia|].
    erewrite new_events_after
      by (unfold requested; cbn [trace]; rewrite <- !app_assoc; reflexivity).
    reflexivity.
Qed.

(** C10.  With [retries = 0] the loop body never runs: [fetch_data]
    returns [None] and leaves the world as it found it, so that no request
    was sent and no sleep taken, whatever the endpoint, method and body. *)
Theorem fetch_data_no_retries (endpoint method : string) (data : json)
    (backoff_factor : Q) (w : world) :
  fetch_data endpoint method data 0 backoff_factor w = (Ok JNull, w) /\
  requests_of (new_events w w) = [] /\
  sleeps_of (new_events w w) = [].
Proof.
  split; [reflexivity|].
  rewrite (new_events_after w w []); [split; reflexivity|].
  now rewrite app_nil_r.
Qed.

(* ===================================================================== *)
(** ** filter_and_transform_outages: the dict and the comprehension *)
(* ===================================================================== *)

Lemma dict_get_set_eq k v d : dict_get k (dict_set k v d) = Some v.
Proof.
  induction d as [|[k' v'] d IH]; cbn.
  - now rewrite String.eqb_refl.
  - destruct (String.eqb k k') eqn:E; cbn; rewrite E; auto.
Qed.

Lemma dict_get_set_ne k k' v d :
  k <> k' -> dict_get k (dict_set k' v d) = dict_get k d.
Proof.
  intros Hne. induction d as [|[k0 v0] d IH]; cbn.
  - apply String.eqb_neq in Hne. now rewrite Hne.
  - destruct (String.eqb_spec k' k0) as [->|Hk]; cbn.
    + apply String.eqb_neq in Hne. now rewrite Hne.
    + destruct (String.eqb k k0); auto.
Qed.

Lemma dict_set_set k v v' d : dict_set k v (dict_set k v' d) = dict_set k v d.
Proof.
  induction d as [|[k0 v0] d IH]; cbn.
  - now rewrite String.eqb_refl.
  - destruct (String.eqb k k0) eqn:E; cbn; rewrite E; congruence.
Qed.

(** What the code reads off a record, in the vocabulary of the
    specification. *)
Lemma id_key_Some x k :
  id_key x = Some k <->
  exists v, py_getitem x "id" = Ok v /\ py_hash v = Ok k.
Proof.
  unfold id_key, py_getitem. split.
  - destruct x; try discriminate. destruct (dict_get "id" kvs); [|discriminate].
    destruct (py_hash j) eqn:E; [|discriminate]. intros [= ->]. eauto.
  - intros (v & H & Hh). destruct x; try discriminate.
    destruct (dict_get "id" kvs); [|discriminate].
    injection H as ->. now rewrite Hh.
Qed.

Lemma id_key_None x :
  id_key x = None ->
  (exists e, py_getitem x "id" = Raise e) \/
  (exists v e, py_getitem x "id" = Ok v /\ py_hash v = Raise e).
Proof.
  unfold id_key, py_getitem. destruct x; eauto.
  destruct (dict_get "id" kvs); eauto.
  destruct (py_hash j) eqn:E; [discriminate|]. eauto.
Qed.

Lemma id_key_enriched d name :
  id_key (JDict (dict_set "name" name d)) = id_key (JDict d).
Proof. unfold id_key. now rewrite dict_get_set_ne. Qed.

(** The dict the comprehension builds maps a key to the name of the last
    device with that id. *)
Lemma dict_comprehension_lookup devices : forall m0 m,
  dict_comprehension devices m0 = Ok m ->
  forall k, m !! k = match matching_name devices k with
                     | Some name => Some name
                     | None => m0 !! k
                     end.
Proof.
  induction devices as [|device devices IH]; intros m0 m H k; cbn in H.
  - now injection H as ->.
  - destruct (py_getitem device "id") as [v|] eqn:Ei;
      cbn [res_bind] in H; [|discriminate].
    destruct (py_getitem device "name") as [name|] eqn:En;
      cbn [res_bind] in H; [|discriminate].
    destruct (py_hash v) as [k0|] eqn:Eh; cbn [res_bind] in H; [|discriminate].
    rewrite (IH _ _ H k). cbn [matching_name].
    destruct (matching_name devices k); [reflexivity|].
    assert (Hid : id_key device = Some k0) by (apply id_key_Some; eauto).
    rewrite Hid. destruct (decide (k0 = k)) as [->|Hne].
    + rewrite bool_decide_eq_true_2 by reflexivity.
      rewrite lookup_insert_eq. unfold name_of, py_getitem in *.
      destruct device; try discriminate.
      destruct (dict_get "name" kvs); congruence.
    + rewrite bool_decide_eq_false_2 by congruence.
      now rewrite lookup_insert_ne.
Qed.

Lemma dict_comprehension_wf devices : forall m0 m,
  dict_comprehension devices m0 = Ok m -> Forall wf_device devices.
Proof.
  induction devices as [|device devices IH]; intros m0 m H; cbn in H.
  - constructor.
  - destruct (py_getitem device "id") as [v|] eqn:Ei;
      cbn [res_bind] in H; [|discriminate].
    destruct (py_getitem device "name") as [name|] eqn:En;
      cbn [res_bind] in H; [|discriminate].
    destruct (py_hash v) as [k0|] eqn:Eh; cbn [res_bind] in H; [|discriminate].
    constructor; [|eapply IH, H]. split.
    + exists k0. apply id_key_Some. eauto.
    + unfold name_of, py_getitem in *. destruct device; try discriminate.
      destruct (dict_get "name" kvs); [eauto|discriminate].
Qed.

Lemma dict_comprehension_total devices : forall m0,
  Forall wf_device devices -> exists m, dict_comprehension devices m0 = Ok m.
Proof.
  induction devices as [|device devices IH]; intros m0 Hwf; cbn.
  - eauto.
  - inversion Hwf as [|? ? [[k Hk] [name Hn]] Hrest]; subst.
    apply id_key_Some in Hk as (v & Hv & Hh). rewrite Hv.
    unfold name_of in Hn. unfold py_getitem in *.
    destruct device; try discriminate. rewrite Hn. cbn. rewrite Hh. cbn.
    apply IH, Hrest.
Qed.

Lemma matching_name_sound devices k name :
  matching_name devices k = Some name ->
  exists device,
    device ∈ devices /\ id_key device = Some k /\ name_of device = Some name.
Proof.
  induction devices as [|device devices IH]; cbn; [discriminate|].
  destruct (matching_name devices k) as [n|].
  - intros [= ->]. destruct IH as (dev & Hin & H); [reflexivity|].
    exists dev. split; [now right|exact H].
  - case_bool_decide; [|discriminate]. intros Hn.
    exists device. split; [now left|]. now split.
Qed.

Lemma matching_name_ids devices k :
  Forall wf_device devices ->
  (is_Some (matching_name devices k) <-> k ∈ device_ids devices).
Proof.
  intros Hwf. unfold device_ids. rewrite list_elem_of_omap.
  induction Hwf as [|device devices [[k0 Hk] [name Hn]] Hrest IH]; cbn.
  - split; [intros [? [=]]|intros (? & H & _); inversion H].
  - destruct (matching_name devices k) as [n|] eqn:E.
    + split; [intros _|eauto]. destruct IH as [IH _].
      destruct IH as (dev & Hin & Hid); [eauto|].
      exists dev. split; [now right|exact Hid].
    + case_bool_decide as Hd.
      * rewrite Hn. split; [intros _|eauto].
        exists device. split; [now left|exact Hd].
      * split; [intros [? [=]]|]. intros (dev & Hin & Hid).
        inversion Hin; subst; [congruence|].
        destruct IH as [_ IH]. destruct IH as [? [=]]. eauto.
Qed.

(** An outage that passes the [if] is a dict whose [id] is a key of the
    device dict, and the element built from it is that dict with [name]
    set. *)
Lemma condition_true c m o :
  condition c m o = Ok true ->
  exists d k name,
    o = JDict d /\ id_key o = Some k /\ m !! k = Some name /\
    element m o = Ok (JDict (dict_set "name" name d)).
Proof.
  unfold condition. intros H.
  destruct (py_getitem o "begin") as [b|] eqn:Eb;
    cbn [res_bind] in H; [|discriminate].
  destruct (datetime_fromisoformat b) as [t|]; cbn [res_bind] in H; [|discriminate].
  destruct (datetime_ge t c) as [[|]|]; cbn [res_bind] in H; try discriminate.
  destruct (py_getitem o "id") as [v|] eqn:Ei; cbn [res_bind] in H; [|discriminate].
  destruct (py_hash v) as [k|] eqn:Eh; cbn [res_bind] in H; [|discriminate].
  injection H as H. apply bool_decide_eq_true in H as [name Hm].
  destruct o as [| | | | |d]; try discriminate.
  exists d, k, name. split; [reflexivity|].
  split; [apply id_key_Some; eauto|]. split; [exact Hm|].
  unfold element, element_dict. rewrite Ei. cbn [res_bind].
  rewrite Eh. cbn [res_bind]. now rewrite Hm.
Qed.

(** The [if] reads [begin] and [id] only, so it cannot tell an outage
    from the element built from it. *)
Lemma condition_enriched c m d name :
  condition c m (JDict (dict_set "name" name d)) = condition c m (JDict d).
Proof.
  unfold condition, py_getitem.
  now rewrite !dict_get_set_ne by discriminate.
Qed.

Lemma element_enriched m d name x :
  element m (JDict d) = Ok x ->
  x = JDict (dict_set "name" name d) ->
  element m x = Ok x.
Proof.
  intros H ->. unfold element, element_dict, py_getitem in *.
  rewrite dict_get_set_ne by discriminate.
  destruct (dict_get "id" d) as [v|]; cbn [res_bind] in *; [|discriminate].
  destruct (py_hash v) as [k|]; cbn [res_bind] in *; [|discriminate].
  destruct (m !! k) as [n|]; cbn [res_bind] in *; [|discriminate].
  injection H as H. rewrite <- H at 2. rewrite <- H.
  now rewrite dict_set_set.
Qed.

(** The comprehension keeps a sublist of its input, in order, and turns
    each outage kept into the element built from it. *)
Lemma list_comprehension_inv c m items : forall out,
  list_comprehension c m items = Ok out ->
  exists kept,
    sublist kept items /\
    Forall2 (fun o e =>
               exists d k name,
                 o = JDict d /\ id_key o = Some k /\ m !! k = Some name /\
                 e = JDict (dict_set "name" name d)) kept out.
Proof.
  induction items as [|o items IH]; intros out H; cbn in H.
  - injection H as <-. exists []. split; constructor.
  - destruct (condition c m o) as [[|]|] eqn:Ec; cbn [res_bind] in H;
      [| |discriminate].
    + destruct (condition_true _ _ _ Ec) as (d & k & name & -> & Hk & Hm & He).
      rewrite He in H. cbn [res_bind] in H.
      destruct (list_comprehension c m items) as [xs|] eqn:Ex;
        cbn [res_bind] in H; [|discriminate].
      injection H as <-. destruct (IH _ eq_refl) as (kept & Hs & Hf).
      exists (JDict d :: kept). split; [now constructor|].
      constructor; [|exact Hf]. exists d, k, name. auto.
    + destruct (IH _ H) as (kept & Hs & Hf).
      exists kept. split; [now constructor|exact Hf].
Qed.

(** Run on its own output, the comprehension returns that output. *)
Lemma list_comprehension_idem c m items : forall out,
  list_comprehension c m items = Ok out ->
  list_comprehension c m out = Ok out.
Proof.
  induction items as [|o items IH]; intros out H; cbn in H.
  - now injection H as <-.
  - destruct (condition c m o) as [[|]|] eqn:Ec; cbn [res_bind] in H;
      [| |discriminate]; [|now apply IH].
    destruct (condition_true _ _ _ Ec) as (d & k & name & -> & Hk & Hm & He).
    rewrite He in H. cbn [res_bind] in H.
    destruct (list_comprehension c m items) as [xs|] eqn:Ex;
      cbn [res_bind] in H; [|discriminate].
    injection H as <-. cbn [list_comprehension].
    rewrite condition_enriched, Ec. cbn [res_bind].
    rewrite (element_enriched m d name _ He eq_refl). cbn [res_bind].
    now rewrite (IH _ eq_refl).
Qed.

(** A parser that rejects the cutoff literal makes every call raise. *)
Lemma filter_and_transform_outages_cutoff_rejected outages site_info e :
  fromisoformat cutoff_literal = Raise e ->
  filter_and_transform_outages outages site_info = Raise e.
Proof. intros H. unfold filter_and_transform_outages. now rewrite H. Qed.

(** The steps of [filter_and_transform_outages] when it returns. *)
Lemma filter_and_transform_outages_inv outages site_info out :
  filter_and_transform_outages outages site_info = Ok out ->
  exists cutoff dv devices m items,
    fromisoformat cutoff_literal = Ok cutoff /\
    py_getitem site_info "devices" = Ok dv /\
    py_iter dv = Ok devices /\
    dict_comprehension devices ∅ = Ok m /\
    py_iter outages = Ok items /\
    list_comprehension cutoff m items = Ok out.
Proof.
  unfold filter_and_transform_outages. intros H.
  destruct (fromisoformat cutoff_literal) as [cutoff|] eqn:E1;
    cbn [res_bind] in H; [|discriminate].
  destruct (py_getitem site_info "devices") as [dv|] eqn:E2;
    cbn [res_bind] in H; [|discriminate].
  destruct (py_iter dv) as [devices|] eqn:E3;
    cbn [res_bind] in H; [|discriminate].
  destruct (dict_comprehension devices ∅) as [m|] eqn:E4;
    cbn [res_bind] in H; [|discriminate].
  destruct (py_iter outages) as [items|] eqn:E5;
    cbn [res_bind] in H; [|discriminate].
  exists cutoff, dv, devices, m, items. repeat split; auto.
Qed.

Lemma devices_of_Some site_info devices :
  devices_of site_info = Some devices ->
  py_getitem site_info "devices" = Ok (JList devices).
Proof.
  unfold devices_of, py_getitem. destruct site_info; try discriminate.
  destruct (dict_get "devices" kvs) as [[]|]; try discriminate. congruence.
Qed.

(** On data that fits the data model the [if] of the comprehension is the
    specification's test. *)
Lemma condition_wf cutoff m devices o :
  wf_outage o ->
  (forall k, is_Some (m !! k) <-> k ∈ device_ids devices) ->
  condition (Aware cutoff) m o = Ok (retained_spec cutoff devices o).
Proof.
  intros [[t Ht] [k Hk]] Hm. unfold retained_spec. rewrite Ht, Hk.
  apply id_key_Some in Hk as (v & Hv & Hh).
  unfold begin_instant in Ht. destruct o as [| | | | |d]; try discriminate.
  unfold condition. unfold py_getitem at 1.
  destruct (dict_get "begin" d) as [[| | |s| |]|]; try discriminate.
  cbn [res_bind datetime_fromisoformat].
  destruct (fromisoformat s) as [[|t']|]; try discriminate.
  injection Ht as ->. cbn [res_bind datetime_ge].
  destruct (Z.leb cutoff t); cbn [andb]; [|reflexivity].
  rewrite Hv. cbn [res_bind]. rewrite Hh. cbn [res_bind].
  f_equal. apply bool_decide_ext, Hm.
Qed.

(** On data that fits the data model the comprehension returns, and what
    it returns is the outages the specification retains, enriched, in the
    order of the input. *)
Lemma list_comprehension_wf cutoff m devices outages :
  Forall wf_outage outages ->
  (forall k, m !! k = matching_name devices k) ->
  (forall k, is_Some (m !! k) <-> k ∈ device_ids devices) ->
  exists out,
    list_comprehension (Aware cutoff) m outages = Ok out /\
    Forall2 (enriched devices)
      (List.filter (retained_spec cutoff devices) outages) out.
Proof.
  intros Hwf Hm Hids. induction Hwf as [|o outages Ho _ (out & E & Hf)].
  - exists []. split; [reflexivity|constructor].
  - cbn [list_comprehension List.filter].
    rewrite (condition_wf cutoff m devices o Ho Hids). cbn [res_bind].
    destruct (retained_spec cutoff devices o) eqn:Er.
    + assert (Ec : condition (Aware cutoff) m o = Ok true)
        by (rewrite (condition_wf cutoff m devices o Ho Hids); now rewrite Er).
      destruct (condition_true _ _ _ Ec) as (d & k & name & -> & Hk & Hn & He).
      rewrite He, E. cbn [res_bind]. eexists. split; [reflexivity|].
      constructor; [|exact Hf]. exists d, k, name.
      rewrite <- Hm. auto.
    + exists out. now split.
Qed.

(** An outage whose [begin] the parser rejects stops the comprehension
    with [ValueError], once the outages before it have been handled. *)
Lemma list_comprehension_malformed cutoff m devices before d s rest :
  Forall wf_outage before ->
  (forall k, is_Some (m !! k) <-> k ∈ device_ids devices) ->
  dict_get "begin" d = Some (JStr s) ->
  fromisoformat s = Raise ValueError ->
  list_comprehension (Aware cutoff) m (before ++ JDict d :: rest)
  = Raise ValueError.
Proof.
  intros Hwf Hids Hb Hs. induction Hwf as [|o before Ho _ IH].
  - cbn [app list_comprehension]. unfold condition, py_getitem.
    rewrite Hb. cbn [res_bind datetime_fromisoformat]. now rewrite Hs.
  - cbn [app list_comprehension].
    rewrite (condition_wf cutoff m devices o Ho Hids). cbn [res_bind].
    destruct (retained_spec cutoff devices o) eqn:Er; [|exact IH].
    assert (Ec : condition (Aware cutoff) m o = Ok true)
      by (rewrite (condition_wf cutoff m devices o Ho Hids); now rewrite Er).
    destruct (condition_true _ _ _ Ec) as (d' & k & name & -> & _ & _ & He).
    rewrite He, IH. reflexivity.
Qed.

(* ===================================================================== *)
(** ** filter_and_transform_outages over the store *)
(* ===================================================================== *)

Lemma frame_refl s : frame s s.
Proof. split; auto. Qed.

Lemma frame_trans s1 s2 s3 : frame s1 s2 -> frame s2 s3 -> frame s1 s3.
Proof.
  intros [H1 C1] [H2 C2]. split; [lia|].
  intros l Hl. rewrite C2 by lia. now apply C1.
Qed.

Lemma values_frame s s' ls :
  frame s s' -> Forall (fun l => (l < next s)%nat) ls ->
  values s' ls = values s ls.
Proof.
  intros [_ Hc] Hls. unfold values.
  induction Hls as [|l ls Hl _ IH]; cbn; [reflexivity|].
  now rewrite IH, Hc.
Qed.

(** The comprehension over the store changes no object that was there,
    puts its elements in new objects, and computes what the comprehension
    over values computes. *)
Lemma list_comprehension_st_refines c m locs : forall s r s',
  Forall (fun l => (l < next s)%nat) locs ->
  list_comprehension_st c m locs s = (r, s') ->
  frame s s' /\
  match r with
  | Ok ls =>
      Forall (fun l => (next s <= l < next s')%nat) ls /\
      list_comprehension c m (values s locs) = Ok (values s' ls)
  | Raise e => list_comprehension c m (values s locs) = Raise e
  end.
Proof.
  induction locs as [|l locs IH]; intros s r s' Hv H.
  - injection H as <- <-. split; [apply frame_refl|]. now split.
  - inversion Hv as [|? ? Hl Hls]; subst.
    cbn [list_comprehension_st] in H. unfold st_bind, deref, st_lift in H.
    cbn [values map list_comprehension]. fold (values s locs).
    destruct (condition c m (JDict (cells s l))) as [[|]|e] eqn:Ec;
      cbn [res_bind].
    + unfold element. destruct (element_dict m (cells s l)) as [x|e] eqn:Ee;
        cbn [res_bind].
      * unfold new_dict in H.
        set (s1 := {| cells := fun l0 => if Nat.eqb l0 (next s) then x
                                         else cells s l0;
                      next := S (next s) |}) in H.
        assert (F1 : frame s s1).
        { split; [cbn; lia|]. intros l0 Hl0. cbn.
          destruct (Nat.eqb_spec l0 (next s)); [lia|reflexivity]. }
        destruct (list_comprehension_st c m locs s1) as [[ls|e] s2] eqn:Er.
        -- apply IH in Er as [F2 [Hnew Hp]].
           2:{ eapply Forall_impl; [exact Hls|]. cbn. intros; lia. }
           injection H as <- <-. split; [eapply frame_trans; eauto|].
           rewrite (values_frame s s1 locs F1 Hls) in Hp. rewrite Hp.
           cbn [res_bind values map]. split.
           ++ constructor.
              ** destruct F2 as [F2 _]. cbn in F2. lia.
              ** eapply Forall_impl; [exact Hnew|]. cbn. intros; lia.
           ++ do 2 f_equal. destruct F2 as [_ F2].
              rewrite F2 by (cbn; lia). cbn. now rewrite Nat.eqb_refl.
        -- apply IH in Er as [F2 Hp].
           2:{ eapply Forall_impl; [exact Hls|]. cbn. intros; lia. }
           injection H as <- <-. split; [eapply frame_trans; eauto|].
           rewrite (values_frame s s1 locs F1 Hls) in Hp. now rewrite Hp.
      * injection H as <- <-. split; [apply frame_refl|reflexivity].
    + now apply IH.
    + injection H as <- <-. split; [apply frame_refl|reflexivity].
Qed.

Lemma filter_and_transform_outages_st_refines locs site s r s' :
  Forall (fun l => (l < next s)%nat) locs ->
  filter_and_transform_outages_st locs site s = (r, s') ->
  frame s s' /\
  match r with
  | Ok ls =>
      Forall (fun l => (next s <= l < next s')%nat) ls /\
      filter_and_transform_outages (JList (values s locs)) (JDict (cells s site))
      = Ok (values s' ls)
  | Raise e =>
      filter_and_transform_outages (JList (values s locs)) (JDict (cells s site))
      = Raise e
  end.
Proof.
  intros Hv H. unfold filter_and_transform_outages_st in H.
  unfold filter_and_transform_outages, st_bind, st_lift, deref in *.
  destruct (fromisoformat cutoff_literal) as [c|e]; cbn [res_bind].
  2:{ injection H as <- <-. split; [apply frame_refl|reflexivity]. }
  destruct (py_getitem (JDict (cells s site)) "devices") as [dv|e];
    cbn [res_bind].
  2:{ injection H as <- <-. split; [apply frame_refl|reflexivity]. }
  destruct (py_iter dv) as [devices|e]; cbn [res_bind].
  2:{ injection H as <- <-. split; [apply frame_refl|reflexivity]. }
  destruct (dict_comprehension devices ∅) as [m|e]; cbn [res_bind py_iter].
  2:{ injection H as <- <-. split; [apply frame_refl|reflexivity]. }
  now apply list_comprehension_st_refines.
Qed.

(* ===================================================================== *)
(** ** filter_and_transform_outages: the claims *)
(* ===================================================================== *)

Lemma device_map_agrees devices m :
  dict_comprehension devices ∅ = Ok m ->
  (forall k, m !! k = matching_name devices k) /\
  (forall k, is_Some (m !! k) <-> k ∈ device_ids devices).
Proof.
  intros H.
  assert (Hl : forall k, m !! k = matching_name devices k).
  { intros k. rewrite (dict_comprehension_lookup _ _ _ H k).
    destruct (matching_name devices k); [reflexivity|apply lookup_empty]. }
  split; [exact Hl|]. intros k. rewrite Hl.
  apply matching_name_ids. eapply dict_comprehension_wf, H.
Qed.

(** On data that fits the data model [filter_and_transform_outages]
    returns the retained outages, enriched, in input order. *)
Lemma filter_and_transform_outages_wf cutoff outages site_info devices :
  fromisoformat cutoff_literal = Ok (Aware cutoff) ->
  devices_of site_info = Some devices ->
  Forall wf_device devices ->
  Forall wf_outage outages ->
  exists out,
    filter_and_transform_outages (JList outages) site_info = Ok out /\
    Forall2 (enriched devices)
      (List.filter (retained_spec cutoff devices) outages) out.
Proof.
  intros Hc Hd Hwd Hwo. unfold filter_and_transform_outages.
  rewrite Hc, (devices_of_Some _ _ Hd). cbn [res_bind py_iter].
  destruct (dict_comprehension_total devices ∅ Hwd) as [m Hm].
  rewrite Hm. cbn [res_bind].
  destruct (device_map_agrees _ _ Hm) as [Hl Hi].
  now apply list_comprehension_wf.
Qed.

(** C1.  Given outages and a site that fit the data model (each outage has
    an [id] and a [begin] that parses as a timestamp with a timezone, each
    device an [id] and a [name]), [filter_and_transform_outages] returns,
    item for item and in input order, the enriched forms of exactly the
    outages that the specification retains: those whose [begin] instant is
    at or after the instant of 2022-01-01T00:00:00.000Z and whose [id] is
    the id of a device of the site.  An outage that begins exactly at the
    cutoff is retained when its id matches; an outage that begins before
    it is not, whatever its id. *)
Theorem filter_and_transform_outages_retains
    (cutoff : Z) (outages : list json) (site_info : json)
    (devices : list json) :
  fromisoformat cutoff_literal = Ok (Aware cutoff) ->
  devices_of site_info = Some devices ->
  Forall wf_device devices ->
  Forall wf_outage outages ->
  (exists out,
     filter_and_transform_outages (JList outages) site_info = Ok out /\
     Forall2 (enriched devices)
       (List.filter (retained_spec cutoff devices) outages) out) /\
  (forall o,
     retained_spec cutoff devices o = true <->
     (exists t, begin_instant o = Some t /\ cutoff <= t) /\
     (exists k device,
        id_key o = Some k /\ device ∈ devices /\ id_key device = Some k)) /\
  (forall o k,
     begin_instant o = Some cutoff -> id_key o = Some k ->
     k ∈ device_ids devices -> retained_spec cutoff devices o = true) /\
  (forall o t,
     begin_instant o = Some t -> t < cutoff ->
     retained_spec cutoff devices o = false).
Proof.
  intros Hc Hd Hwd Hwo.
  split; [now apply filter_and_transform_outages_wf|].
  split; [|split].
  - intros o. unfold retained_spec.
    destruct (begin_instant o) as [t|]; [|split; [discriminate|]].
    2:{ intros [(t & [=] & _) _]. }
    destruct (id_key o) as [k|]; [|split; [discriminate|]].
    2:{ intros [_ (k & dev & [=] & _)]. }
    rewrite andb_true_iff, Z.leb_le, bool_decide_eq_true.
    unfold device_ids. rewrite list_elem_of_omap. split.
    + intros [Ht (dev & Hin & Hid)]. split; [eauto|]. exists k, dev. auto.
    + intros [(t' & [= <-] & Ht) (k' & dev & [= <-] & Hin & Hid)].
      split; [exact Ht|]. eauto.
  - intros o k Hb Hk Hin. unfold retained_spec. rewrite Hb, Hk.
    apply andb_true_iff. split; [apply Z.leb_refl|now apply bool_decide_eq_true].
  - intros o t Hb Ht. unfold retained_spec. rewrite Hb.
    destruct (id_key o); [|reflexivity].
    apply andb_false_iff. left. apply Z.leb_gt. exact Ht.
Qed.

(** C4, as amended.  [filter_and_transform_outages] does not raise on
    outages that fit the data model: it then returns a list.  A malformed
    timestamp is not tolerated: when the outages before it fit the data
    model, an outage whose [begin] is a string that the parser rejects with
    [ValueError] makes the whole call raise [ValueError], whatever comes
    after it in the list. *)
Theorem filter_and_transform_outages_malformed_begin
    (cutoff : Z) (site_info : json) (devices : list json)
    (before rest : list json) (d : pydict) (s : string) :
  fromisoformat cutoff_literal = Ok (Aware cutoff) ->
  devices_of site_info = Some devices ->
  Forall wf_device devices ->
  Forall wf_outage before ->
  dict_get "begin" d = Some (JStr s) ->
  fromisoformat s = Raise ValueError ->
  (exists out,
     filter_and_transform_outages (JList before) site_info = Ok out) /\
  filter_and_transform_outages (JList (before ++ JDict d :: rest)) site_info
  = Raise ValueError.
Proof.
  intros Hc Hd Hwd Hwo Hb Hs. split.
  - destruct (filter_and_transform_outages_wf cutoff before site_info devices)
      as (out & E & _); eauto.
  - unfold filter_and_transform_outages.
    rewrite Hc, (devices_of_Some _ _ Hd). cbn [res_bind py_iter].
    destruct (dict_comprehension_total devices ∅ Hwd) as [m Hm].
    rewrite Hm. cbn [res_bind].
    destruct (device_map_agrees _ _ Hm) as [_ Hi].
    now apply (list_comprehension_malformed cutoff m devices before d s rest).
Qed.

(** C8.  Whenever [filter_and_transform_outages] returns, each record of
    the result is built from one outage of the input, the outages taken in
    input order: it is that outage's dict with the single field [name] set
    (added last, or overwritten in place) to the name of a device of the
    site with the same id, the last such device; looking up [name] in it
    gives that name and looking up any other field gives what the outage
    has.  Run over a store, the function changes no object that existed
    before the call (the outages and the site among them): its result
    lives in new objects and is the result computed on values. *)
Theorem filter_and_transform_outages_adds_name
    (outages site_info : json) (devices out : list json)
    (locs : list nat) (site : nat) (st : store) :
  devices_of site_info = Some devices ->
  filter_and_transform_outages outages site_info = Ok out ->
  Forall (fun l => (l < next st)%nat) locs ->
  (exists items kept,
     py_iter outages = Ok items /\ sublist kept items /\
     Forall2 (fun o e =>
                exists d name device,
                  o = JDict d /\ e = JDict (dict_set "name" name d) /\
                  enriched devices o e /\
                  device ∈ devices /\ id_key device = id_key o /\
                  name_of device = Some name /\
                  dict_get "name" (dict_set "name" name d) = Some name /\
                  forall key, key <> "name" ->
                    dict_get key (dict_set "name" name d) = dict_get key d)
             kept out) /\
  (forall r st',
     filter_and_transform_outages_st locs site st = (r, st') ->
     (forall l, (l < next st)%nat -> cells st' l = cells st l) /\
     match r with
     | Ok ls =>
         Forall (fun l => (next st <= l < next st')%nat) ls /\
         filter_and_transform_outages (JList (values st locs))
           (JDict (cells st site)) = Ok (values st' ls)
     | Raise e =>
         filter_and_transform_outages (JList (values st locs))
           (JDict (cells st site)) = Raise e
     end).
Proof.
  intros Hd H Hv. split.
  - destruct (filter_and_transform_outages_inv _ _ _ H)
      as (c & dv & devs & m & items & Hc & Hg & Hi & Hm & Ho & Hl).
    rewrite (devices_of_Some _ _ Hd) in Hg. injection Hg as <-.
    cbn in Hi. injection Hi as <-.
    destruct (device_map_agrees _ _ Hm) as [Hname _].
    destruct (list_comprehension_inv _ _ _ _ Hl) as (kept & Hs & Hf).
    exists items, kept. split; [exact Ho|]. split; [exact Hs|].
    eapply Forall2_impl; [exact Hf|]. cbn.
    intros o e (d & k & name & -> & Hk & Hn & ->). rewrite Hname in Hn.
    destruct (matching_name_sound _ _ _ Hn) as (dev & Hin & Hid & Hnm).
    exists d, name, dev. split; [reflexivity|]. split; [reflexivity|].
    split; [exists d, k, name; auto|]. split; [exact Hin|].
    split; [congruence|]. split; [exact Hnm|].
    split; [apply dict_get_set_eq|]. intros key Hne.
    now apply dict_get_set_ne.
  - intros r st' Hr.
    destruct (filter_and_transform_outages_st_refines _ _ _ _ _ Hv Hr)
      as [[_ Hf] Hp].
    split; [exact Hf|exact Hp].
Qed.

(** C9.  Whenever [filter_and_transform_outages] returns a list, running
    it on that list with the same site returns the same list; the list is
    made, in input order, from a sublist of the input; and over a store, a
    second call on the same outages and site, made after the first, returns
    records equal to those of the first, in the same order. *)
Theorem filter_and_transform_outages_idempotent
    (outages site_info : json) (out : list json) :
  filter_and_transform_outages outages site_info = Ok out ->
  filter_and_transform_outages (JList out) site_info = Ok out /\
  (exists items kept,
     py_iter outages = Ok items /\ sublist kept items /\
     Forall2 (fun o e =>
                exists d name, o = JDict d /\ e = JDict (dict_set "name" name d))
             kept out) /\
  (forall locs site st ls1 st1,
     Forall (fun l => (l < next st)%nat) locs ->
     (site < next st)%nat ->
     filter_and_transform_outages_st locs site st = (Ok ls1, st1) ->
     exists ls2 st2,
       filter_and_transform_outages_st locs site st1 = (Ok ls2, st2) /\
       values st2 ls2 = values st1 ls1).
Proof.
  intros H.
  destruct (filter_and_transform_outages_inv _ _ _ H)
    as (c & dv & devs & m & items & Hc & Hg & Hi & Hm & Ho & Hl).
  split; [|split].
  - unfold filter_and_transform_outages.
    rewrite Hc, Hg. cbn [res_bind]. rewrite Hi. cbn [res_bind].
    rewrite Hm. cbn [res_bind py_iter].
    eapply list_comprehension_idem, Hl.
  - destruct (list_comprehension_inv _ _ _ _ Hl) as (kept & Hs & Hf).
    exists items, kept. split; [exact Ho|]. split; [exact Hs|].
    eapply Forall2_impl; [exact Hf|]. cbn.
    intros o e (d & k & name & -> & _ & _ & ->). eauto.
  - intros locs site st ls1 st1 Hv Hsite H1.
    destruct (filter_and_transform_outages_st_refines _ _ _ _ _ Hv H1)
      as [F1 [_ P1]].
    assert (Hv1 : Forall (fun l => (l < next st1)%nat) locs).
    { eapply Forall_impl; [exact Hv|]. cbn. destruct F1. intros; lia. }
    destruct (filter_and_transform_outages_st locs site st1) as [r2 st2] eqn:H2.
    destruct (filter_and_transform_outages_st_refines _ _ _ _ _ Hv1 H2)
      as [F2 P2].
    rewrite (values_frame st st1 locs F1 Hv) in P2.
    destruct F1 as [_ C1]. rewrite (C1 site Hsite) in P2.
    destruct r2 as [ls2|e]; [|congruence].
    destruct P2 as [_ P2]. exists ls2, st2. split; [reflexivity|congruence].
Qed.

(* ===================================================================== *)
(** ** main *)
(* ===================================================================== *)

Lemma bind_emit {B} e (k : unit -> IO B) w :
  io_bind (emit e) k w = k tt (after w [e]).
Proof. reflexivity. Qed.

Lemma bind_ok {A B} (m : IO A) (k : A -> IO B) w a w1 :
  m w = (Ok a, w1) -> io_bind m k w = k a w1.
Proof. intros H. unfold io_bind. now rewrite H. Qed.

Lemma bind_raise {A B} (m : IO A) (k : A -> IO B) w e w1 :
  m w = (Raise e, w1) -> io_bind m k w = (Raise e, w1).
Proof. intros H. unfold io_bind. now rewrite H. Qed.

Lemma bind_lift_ok {A B} (a : A) (k : A -> IO B) w :
  io_bind (io_lift (Ok a)) k w = k a w.
Proof. reflexivity. Qed.

Lemma bind_lift_raise {A B} e (k : A -> IO B) w :
  io_bind (io_lift (Raise e)) k w = (Raise e, w).
Proof. reflexivity. Qed.

Lemma io_for_print items w :
  io_for items (fun outage => print (PValue outage)) w
  = (Ok tt, after w (map (fun outage => EvPrint (PValue outage)) items)).
Proof.
  revert w. induction items as [|o items IH]; intros w; cbn [io_for map].
  - unfold io_ret. now rewrite after_nil.
  - unfold print. rewrite bind_emit, IH, after_after. reflexivity.
Qed.

(** Whatever [fetch_data] does, the trace only grows. *)
Lemma fetch_data_extends endpoint method data retries backoff_factor w x w' :
  fetch_data endpoint method data retries backoff_factor w = (x, w') ->
  exists evs, trace w' = trace w ++ evs.
Proof.
  intros H. unfold fetch_data in H.
  destruct (loop_bound _ _ _ _ _ _ _ _ _ H) as (evs & Htr & _). eauto.
Qed.

Lemma post_site_outages_extends site_id outages w x w' :
  post_site_outages site_id outages w = (x, w') ->
  exists evs, trace w' = trace w ++ evs.
Proof.
  unfold post_site_outages. destruct outages as [|o outages].
  - unfold logging_warning. rewrite bind_emit. intros [= <- <-].
    cbn. eauto.
  - intros H. unfold io_bind in H.
    destruct (fetch_data _ _ _ _ _ w) as [[v|e] w1] eqn:E;
      destruct (fetch_data_extends _ _ _ _ _ _ _ _ E) as (evs & Htr).
    + unfold logging_info, logging_error, emit, io_ret in H.
      destruct (truthy v); injection H as <- <-; cbn [trace];
        rewrite Htr, <- app_assoc; eauto.
    + injection H as <- <-. eauto.
Qed.

(** C2, as amended.  Let the first fetch return the value [v1].  If [v1]
    is falsy ([None], but also an empty list), [main] returns there and
    then: nothing happens after the first fetch.  If [v1] is a non-empty
    list, [main] reports it and goes on to fetch the site.  Let that fetch
    return [v2].  If [v2] is falsy ([None], but also an empty object),
    [main] returns there and then.  Otherwise [main] reports the site and
    runs the transformation; if the transformation raises, the exception
    ends the run before the post step; if it returns a list, [main]
    reports the list and runs the post step on it, and nothing but the
    report of the response follows. *)
Theorem main_stages (w : world) (v1 : json) (w1 : world) :
  get_all_outages (after w opening) = (Ok v1, w1) ->
  exists x w',
    main w = (x, w') /\
    (truthy v1 = false -> x = Ok tt /\ w' = w1) /\
    (forall items, v1 = JList items -> items <> [] ->
       (exists evs, trace w' = trace w1 ++ outages_report items ++ evs) /\
       forall v2 w2,
         get_site_info "norwich-pear-tree" (after w1 (outages_report items))
         = (Ok v2, w2) ->
         (truthy v2 = false -> x = Ok tt /\ w' = w2) /\
         (truthy v2 = true ->
            (forall e,
               filter_and_transform_outages v1 v2 = Raise e ->
               x = Raise e /\ w' = after w2 (site_report v2)) /\
            (forall out,
               filter_and_transform_outages v1 v2 = Ok out ->
               forall y w3,
                 post_site_outages "norwich-pear-tree" out
                   (after w2 (site_report v2 ++ processed_report out))
                 = (y, w3) ->
                 exists evs,
                   w' = after w3 evs /\
                   x = match y with Ok _ => Ok tt | Raise e => Raise e end))).
Proof.
  intros H1. destruct (main w) as [x w'] eqn:Em. exists x, w'.
  split; [reflexivity|].
  unfold main, logging_info in Em. rewrite !bind_emit, after_after in Em.
  change ([EvLog INFO "Starting the process..." []]
          ++ [EvLog INFO "Fetching all outages..." []]) with opening in Em.
  rewrite (bind_ok _ _ _ _ _ H1) in Em. split.
  - intros Hf. rewrite Hf in Em. cbn [negb] in Em. now injection Em as <- <-.
  - intros items -> Hne.
    assert (Ht : truthy (JList items) = true) by (destruct items; [easy|reflexivity]).
    rewrite Ht in Em. cbn [negb] in Em. unfold print in Em.
    rewrite !bind_emit in Em.
    cbn [py_iter] in Em.
    rewrite bind_lift_ok, (bind_ok _ _ _ _ _ (io_for_print _ _)),
      bind_emit, !after_after in Em.
    change (after w1 _) with (after w1 (outages_report items)) in Em.
    destruct (get_site_info "norwich-pear-tree" (after w1 (outages_report items)))
      as [r2 w2] eqn:H2.
    destruct (fetch_data_extends _ _ _ _ _ _ _ _ H2) as (evs2 & Htr2).
    cbn [after trace] in Htr2.
    destruct r2 as [v2|e2].
    2:{ rewrite (bind_raise _ _ _ _ _ H2) in Em. injection Em as <- <-.
        split; [|intros ? ? [=]]. exists evs2. now rewrite Htr2, app_assoc. }
    rewrite (bind_ok _ _ _ _ _ H2) in Em.
    destruct (truthy v2) eqn:Ht2; cbn [negb] in Em.
    2:{ injection Em as <- <-. split.
        - exists evs2. now rewrite Htr2, app_assoc.
        - intros ? ? [= <- <-]. split; [auto|congruence]. }
    rewrite !bind_emit, !after_after in Em.
    change (after w2 _) with (after w2 (site_report v2)) in Em.
    destruct (filter_and_transform_outages (JList items) v2) as [out|e] eqn:Ef.
    2:{ rewrite bind_lift_raise in Em. injection Em as <- <-.
        split.
        - exists (evs2 ++ site_report v2). cbn [after trace].
          now rewrite Htr2, <- !app_assoc.
        - intros ? ? [= <- <-]. split; [congruence|]. intros _.
          split; [|congruence]. intros e' Hf'. split; congruence. }
    rewrite bind_lift_ok in Em.
    rewrite !bind_emit in Em.
    rewrite (bind_ok _ _ _ _ _ (io_for_print _ _)), bind_emit, !after_after in Em.
    change (after w2 _)
      with (after w2 (site_report v2 ++ processed_report out)) in Em.
    destruct (post_site_outages "norwich-pear-tree" out
                (after w2 (site_report v2 ++ processed_report out)))
      as [y w3] eqn:H3.
    destruct (post_site_outages_extends _ _ _ _ _ H3) as (evs3 & Htr3).
    cbn [after trace] in Htr3.
    assert (Hend : exists evs,
               w' = after w3 evs /\
               x = match y with Ok _ => Ok tt | Raise e => Raise e end).
    { destruct y as [v3|e3].
      - rewrite (bind_ok _ _ _ _ _ H3) in Em.
        destruct (truthy v3); cbn [negb] in Em.
        + rewrite !bind_emit, !after_after in Em. unfold emit in Em.
          injection Em as <- <-. eexists. split; [|reflexivity].
          unfold after. cbn [sent trace]. rewrite <- !app_assoc. reflexivity.
        + injection Em as <- <-. exists []. now rewrite after_nil.
      - rewrite (bind_raise _ _ _ _ _ H3) in Em. injection Em as <- <-.
        exists []. now rewrite after_nil. }
    destruct Hend as (evs4 & -> & ->). split.
    + exists (evs2 ++ site_report v2 ++ processed_report out ++ evs3 ++ evs4).
      cbn [after trace]. rewrite Htr3, Htr2, <- !app_assoc. reflexivity.
    + intros ? ? [= <- <-]. split; [congruence|]. intros _. split.
      * congruence.
      * intros out' Hf' y' w3' H3'. rewrite Ef in Hf'. injection Hf' as <-.
        rewrite H3 in H3'. injection H3' as <- <-. eauto.
Qed.

(* ===================================================================== *)
(** ** fetch_data: what a run looks like *)
(* ===================================================================== *)

Lemma emits_ret {A} P (a : A) : emits P (io_ret a).
Proof.
  intros w x w' H. inversion H; subst. exists []. now rewrite after_nil.
Qed.

Lemma emits_raise {A} P (e : exn) : emits P (@io_raise A e).
Proof.
  intros w x w' H. inversion H; subst. exists []. now rewrite after_nil.
Qed.

Lemma emits_lift {A} P (r : res A) : emits P (io_lift r).
Proof.
  intros w x w' H. inversion H; subst. exists []. now rewrite after_nil.
Qed.

Lemma emits_emit (P : event -> Prop) e : P e -> emits P (emit e).
Proof.
  intros He w x w' H. inversion H; subst. exists [e]. split; [reflexivity|].
  now constructor.
Qed.

Lemma emits_try {A B} P (m : IO A) (k : A -> IO B) (h : exn -> IO B) :
  emits P m -> (forall a, emits P (k a)) -> (forall e, emits P (h e)) ->
  emits P (io_try m k h).
Proof.
  intros Hm Hk Hh w x w' H. unfold io_try in H.
  destruct (m w) as [[a|e] w1] eqn:E;
    destruct (Hm _ _ _ E) as (evs & -> & Hr).
  - destruct (Hk _ _ _ _ H) as (evs' & -> & Hr').
    exists (evs ++ evs'). rewrite after_after. split; [reflexivity|].
    now apply Forall_app.
  - destruct (Hh _ _ _ _ H) as (evs' & -> & Hr').
    exists (evs ++ evs'). rewrite after_after. split; [reflexivity|].
    now apply Forall_app.
Qed.

Lemma emits_bind {A B} P (m : IO A) (k : A -> IO B) :
  emits P m -> (forall a, emits P (k a)) -> emits P (io_bind m k).
Proof.
  intros Hm Hk. apply (emits_try P m k io_raise Hm Hk).
  intros e. apply emits_raise.
Qed.

Ltac emits_step :=
  first
    [ apply emits_ret | apply emits_raise | apply emits_lift
    | apply emits_emit; exact I
    | apply emits_bind; [|intros ?]
    | progress unfold logging_info, logging_warning, logging_error,
        local, raise_for_status, response_json
    | case_match ].

(** The handlers log and nothing else, and none of them returns from the
    function. *)
Lemma except_clauses_emits response e : emits is_log (except_clauses response e).
Proof. unfold except_clauses. repeat emits_step. Qed.

Lemma except_clauses_next response e w f w' :
  except_clauses response e w = (Ok f, w') -> f = Next.
Proof.
  unfold except_clauses. io_unfold. intros H.
  repeat (case_match; simplify_eq/=); reflexivity.
Qed.

(** Off the 429 branch the [try] block logs and nothing else; what it
    returns is [None] or the JSON body of a response whose status is no
    error status. *)
Lemma on_response_emits backoff_factor i r :
  status_code r <> 429 -> emits is_log (on_response backoff_factor i r).
Proof.
  intros Hs. unfold on_response.
  destruct (Z.eqb_spec (status_code r) 429); [contradiction|].
  repeat emits_step.
Qed.

Lemma on_response_return backoff_factor i r w v w' :
  on_response backoff_factor i r w = (Ok (Return v), w') ->
  v = JNull \/ succeeds r v.
Proof.
  unfold on_response, raise_for_status, response_json, time_sleep, succeeds,
    error_status.
  io_unfold. intros H.
  repeat (case_match; simplify_eq/=); auto.
Qed.

Lemma logs_no_requests evs : Forall is_log evs -> requests_of evs = [].
Proof.
  induction 1 as [|[] evs He _ IH]; cbn in *; try contradiction; auto.
Qed.

Lemma logs_no_sleeps evs : Forall is_log evs -> sleeps_of evs = [].
Proof.
  induction 1 as [|[] evs He _ IH]; cbn in *; try contradiction; auto.
Qed.

Lemma sleeps_of_app evs evs' :
  sleeps_of (evs ++ evs') = sleeps_of evs ++ sleeps_of evs'.
Proof.
  induction evs as [|[] evs IH]; cbn; auto. now rewrite IH.
Qed.

Lemma after_requested w req evs :
  after (requested w req []) evs = requested w req evs.
Proof.
  unfold after, requested. cbn [sent trace]. now rewrite <- app_assoc.
Qed.

Section Run.

Variables (endpoint method : string) (data : json) (backoff_factor : Q).

Let url := String.append BASE_URL endpoint.
Let headers := [("x-api-key", API_KEY)].
Let req := request_for endpoint method data.
Let loop := fetch_loop method url headers data backoff_factor.
Let wait := backoff_wait backoff_factor.

(** [time.sleep] sleeps for the length it is given, or raises and leaves
    no trace. *)
Lemma time_sleep_cases x w y w' :
  time_sleep x w = (y, w') ->
  (exists q, x = Finite q /\ y = Ok tt /\ w' = after w [EvSleep q]) \/
  (exists e, y = Raise e /\ w' = w).
Proof.
  unfold time_sleep. destruct x as [q|negative];
    [|intros [= <- <-]; right; eauto].
  destruct (_ || _); [intros [= <- <-]; right; eauto|].
  destruct (Qle_bool 0 q); [|intros [= <- <-]; right; eauto].
  unfold io_bind, io_lift, emit.
  destruct (pysleep q) as [[]|e]; intros [= <- <-]; [left|right]; eauto.
Qed.

(** The 429 branch: the warning and the sleep of [backoff_factor * 2 ** i]
    seconds, or an exception after at most the warning. *)
Lemma on_response_429 i r w y w' :
  status_code r = 429 ->
  on_response backoff_factor i r w = (y, w') ->
  (y = Ok Next /\
   w' = after w [rate_limit_warning (wait i); EvSleep (wait i)]) \/
  (exists e evs, y = Raise e /\ w' = after w evs /\ Forall is_log evs).
Proof.
  intros Hs. unfold on_response. rewrite Hs. cbn [Z.eqb Pos.eqb].
  unfold io_bind, io_lift, logging_warning, emit.
  destruct (float_mul_pow2 backoff_factor i) as [x|e] eqn:Em.
  2:{ intros [= <- <-]. right. exists e, []. rewrite after_nil.
      repeat split. constructor. }
  destruct (time_sleep x _) as [y1 w1] eqn:Es.
  apply time_sleep_cases in Es as [(q & -> & -> & ->)|(e & -> & ->)];
    unfold io_ret; intros [= <- <-].
  - assert (Hq : q = wait i).
    { unfold float_mul_pow2 in Em. repeat case_match; simplify_eq.
      reflexivity. }
    subst q. left. split; [reflexivity|]. unfold after, rate_limit_warning.
    cbn [sent trace]. now rewrite <- app_assoc.
  - right. eexists e, [_]. split; [reflexivity|]. split; [reflexivity|].
    repeat constructor.
Qed.

(** One pass through the loop body: after the request come log lines
    only, or, on a 429, the warning and the sleep.  A pass that returns
    from the function returns [None] or the JSON body of the response it
    received, whose status is then no error status. *)
Lemma iteration_cases i response w x w' :
  iteration method url headers data backoff_factor i response w = (x, w') ->
  exists evs,
    w' = requested w req evs /\
    ((Forall is_log evs /\
      forall v response',
        x = Ok (Return v, response') ->
        v = JNull \/
        exists r, transport (sent w) req = Returns r /\ succeeds r v)
     \/
     (exists r,
        transport (sent w) req = Returns r /\ status_code r = 429 /\
        evs = [rate_limit_warning (wait i); EvSleep (wait i)] /\
        x = Ok (Next, Some r))).
Proof.
  unfold iteration, io_try. intros H. unfold url, headers in H.
  destruct (transport (sent w) req) as [r|e] eqn:Ht.
  - rewrite (request_returns _ _ _ _ _ Ht) in H. fold req in H.
    destruct (Z.eqb_spec (status_code r) 429) as [Hs|Hs].
    + unfold io_bind, io_catch, io_try in H.
      destruct (on_response backoff_factor i r (requested w req []))
        as [y w1] eqn:Eo.
      destruct (on_response_429 _ _ _ _ _ Hs Eo)
        as [[-> ->]|(e & evs & -> & -> & Hlog)].
      * unfold io_ret in H. injection H as <- <-.
        exists [rate_limit_warning (wait i); EvSleep (wait i)].
        split; [apply after_requested|]. right. exists r. auto.
      * destruct (except_clauses (Some r) e (after (requested w req []) evs))
          as [[f|e'] w2] eqn:Ee;
          destruct (except_clauses_emits _ _ _ _ _ Ee) as (evs' & -> & Hlog');
          injection H as <- <-;
          exists (evs ++ evs');
          (split; [now rewrite after_after, after_requested|]);
          left; (split; [now apply Forall_app|]).
        -- rewrite (except_clauses_next _ _ _ _ _ Ee). intros ? ? [=].
        -- intros ? ? [=].
    + unfold io_bind, io_catch, io_try in H.
      destruct (on_response backoff_factor i r (requested w req []))
        as [[f|e] w1] eqn:Eo;
        destruct (on_response_emits _ _ _ Hs _ _ _ Eo) as (evs & -> & Hlog).
      * injection H as <- <-. exists evs. split; [apply after_requested|].
        left. split; [exact Hlog|]. intros v response' [= -> _].
        destruct (on_response_return _ _ _ _ _ _ Eo); eauto.
      * destruct (except_clauses (Some r) e (after (requested w req []) evs))
          as [[f|e'] w2] eqn:Ee;
          destruct (except_clauses_emits _ _ _ _ _ Ee) as (evs' & -> & Hlog');
          injection H as <- <-;
          exists (evs ++ evs');
          (split; [now rewrite after_after, after_requested|]);
          left; (split; [now apply Forall_app|]).
        -- rewrite (except_clauses_next _ _ _ _ _ Ee). intros ? ? [=].
        -- intros ? ? [=].
  - rewrite (request_raises _ _ _ _ _ Ht) in H. fold req in H.
    unfold io_bind in H.
    destruct (except_clauses response e (requested w req []))
      as [[f|e'] w2] eqn:Ee;
      destruct (except_clauses_emits _ _ _ _ _ Ee) as (evs' & -> & Hlog');
      injection H as <- <-;
      exists evs'; (split; [apply after_requested|]);
      left; (split; [exact Hlog'|]).
    + rewrite (except_clauses_next _ _ _ _ _ Ee). intros ? ? [=].
    + intros ? ? [=].
Qed.

Let kind : event -> Prop :=
  fun e => e = EvRequest req \/ is_log e \/ exists q, e = EvSleep q.

Lemma iteration_summary i response w x w' :
  iteration method url headers data backoff_factor i response w = (x, w') ->
  exists evs,
    w' = requested w req evs /\
    requests_of evs = [] /\
    Forall kind evs /\
    (sleeps_of evs = [] \/
     sleeps_of evs = [wait i] /\
     (exists response', x = Ok (Next, response')) /\
     exists r, transport (sent w) req = Returns r /\ status_code r = 429) /\
    forall v response',
      x = Ok (Return v, response') ->
      v = JNull \/ exists r, transport (sent w) req = Returns r /\ succeeds r v.
Proof.
  intros H. destruct (iteration_cases _ _ _ _ _ H) as (evs & -> & Hc).
  exists evs. split; [reflexivity|].
  destruct Hc as [[Hlog Hv]|(r & Ht & Hs & -> & ->)].
  - split; [now apply logs_no_requests|]. split.
    + eapply Forall_impl; [exact Hlog|]. intros e He. right. now left.
    + split; [left; now apply logs_no_sleeps|exact Hv].
  - split; [reflexivity|]. split.
    + constructor; [right; left; exact I|].
      constructor; [right; right; eauto|constructor].
    + split; [|intros ? ? [=]]. right. split; [reflexivity|]. eauto.
Qed.

(** A run of the loop: it sends the same request once per pass, at most
    once per element of the range; besides requests there are log lines
    and sleeps only; the sleeps are, in order, among the waits of the
    range, and there is none unless some call answered 429; and a value
    that is returned is [None] or the JSON body of a response received in
    this run whose status is no error status. *)
Lemma loop_run range : forall response w x w',
  loop range response w = (x, w') ->
  exists evs k,
    w' = {| sent := (sent w + k)%nat; trace := trace w ++ evs |} /\
    (k <= length range)%nat /\
    requests_of evs = repeat req k /\
    Forall kind evs /\
    sublist (sleeps_of evs) (map wait range) /\
    ((forall j r, (j < length range)%nat ->
                  transport (sent w + j)%nat req = Returns r ->
                  status_code r <> 429) ->
     sleeps_of evs = []) /\
    forall v,
      x = Ok v ->
      v = JNull \/
      exists j r,
        (j < length range)%nat /\
        transport (sent w + j)%nat req = Returns r /\ succeeds r v.
Proof.
  induction range as [|i range IH]; intros response w x w' H.
  - unfold loop in H. cbn in H. injection H as <- <-. exists [], 0%nat.
    split. { destruct w. cbn. now rewrite Nat.add_0_r, app_nil_r. }
    split; [cbn; lia|]. split; [reflexivity|]. split; [constructor|].
    split; [constructor|]. split; [reflexivity|].
    intros v [= <-]. now left.
  - unfold loop in H. simpl fetch_loop in H. unfold io_bind in H.
    destruct (iteration method url headers data backoff_factor i response w)
      as [[[f response']|e] w1] eqn:E;
      destruct (iteration_summary _ _ _ _ _ E)
        as (evs1 & -> & Hq1 & Hk1 & Hs1 & Hv1).
    + destruct f as [|v0].
      * apply IH in H as (evs2 & k2 & -> & Hk & Hq & Hkind & Hsub & Hno & Hv).
        exists (EvRequest req :: evs1 ++ evs2), (S k2).
        split. { unfold requested. cbn [sent trace]. f_equal; [lia|].
                 now rewrite <- app_assoc. }
        split; [cbn; lia|].
        split. { cbn. now rewrite requests_of_app, Hq1, Hq. }
        split. { constructor; [now left|]. now apply Forall_app. }
        split.
        { cbn [sleeps_of map]. rewrite sleeps_of_app.
          destruct Hs1 as [->|(-> & _)]; cbn [app];
            [now apply sublist_cons|now apply sublist_skip]. }
        split.
        { intros Hall. cbn [sleeps_of]. rewrite sleeps_of_app.
          destruct Hs1 as [->|(_ & _ & r & Ht & Hs)].
          - cbn [app]. apply Hno. intros j r Hj Hr.
            apply (Hall (S j) r); [cbn; lia|].
            cbn [requested sent] in Hr. rewrite <- Hr. f_equal. lia.
          - exfalso. apply (Hall 0%nat r); [cbn; lia| |exact Hs].
            now rewrite Nat.add_0_r. }
        intros v Hx. destruct (Hv v Hx) as [->|(j & r & Hj & Hr & Hsu)];
          [now left|]. right. exists (S j), r. split; [cbn; lia|].
        split; [|exact Hsu]. cbn [requested sent] in Hr. rewrite <- Hr.
        f_equal. lia.
      * unfold io_ret in H. injection H as <- <-.
        exists (EvRequest req :: evs1), 1%nat.
        assert (Hs0 : sleeps_of evs1 = []).
        { destruct Hs1 as [?|(_ & (? & [=]) & _)]; assumption. }
        split. { unfold requested. cbn [sent trace]. f_equal. lia. }
        split; [cbn; lia|]. split; [cbn; now rewrite Hq1|].
        split; [constructor; [now left|exact Hk1]|].
        split. { cbn [sleeps_of]. rewrite Hs0. apply sublist_nil_l. }
        split; [intros _; cbn [sleeps_of]; exact Hs0|].
        intros v [= <-].
        destruct (Hv1 v0 response' eq_refl) as [->|(r & Hr & Hsu)];
          [now left|]. right. exists 0%nat, r. split; [cbn; lia|].
        now rewrite Nat.add_0_r.
    + injection H as <- <-. exists (EvRequest req :: evs1), 1%nat.
      assert (Hs0 : sleeps_of evs1 = []).
      { destruct Hs1 as [?|(_ & (? & [=]) & _)]; assumption. }
      split. { unfold requested. cbn [sent trace]. f_equal. lia. }
      split; [cbn; lia|]. split; [cbn; now rewrite Hq1|].
      split; [constructor; [now left|exact Hk1]|].
      split. { cbn [sleeps_of]. rewrite Hs0. apply sublist_nil_l. }
      split; [intros _; cbn [sleeps_of]; exact Hs0|].
      intros v [=].
Qed.

(** An absorbed attempt: the pass ends without an exception and without a
    [return], and the body of whatever [response] is bound to afterwards
    is UTF-8. *)
Lemma iteration_absorbed i response w :
  (forall r, transport (sent w) req = Returns r -> status_code r = 429 ->
             can_wait backoff_factor i = true) ->
  absorbed (transport (sent w) req) = true ->
  is_bound response || first_contact (transport (sent w) req) = true ->
  decodable response ->
  exists response' w',
    iteration method url headers data backoff_factor i response w
    = (Ok (Next, response'), w') /\
    decodable response' /\
    is_bound response'
    = is_bound response || returns (transport (sent w) req).
Proof.
  intros Hb Ha Hf Hdec. unfold iteration, io_try. unfold url, headers.
  destruct (transport (sent w) req) as [r|e] eqn:Ht.
  - rewrite (request_returns _ _ _ _ _ Ht). cbn in Ha.
    apply andb_true_iff in Ha as [Hu Ha].
    assert (Hd : bytes_decode_utf8 (content r)
                 = Ok (string_of_list_byte (content r))).
    { unfold bytes_decode_utf8. now rewrite Hu. }
    assert (Hr : decodable (Some r)) by (intros ? [= <-]; exact Hu).
    assert (Hfin : forall w' : world,
               exists response' w'',
                 ((Ok (Next, Some r), w') : res (flow * option Response) * world)
                 = (Ok (Next, response'), w'') /\
                 decodable response' /\
                 is_bound response' = is_bound response || returns (Returns r)).
    { intros w'. exists (Some r), w'. split; [reflexivity|].
      split; [exact Hr|]. cbn. now rewrite orb_true_r. }
    unfold on_response, except_clauses, raise_for_status, response_json.
    rewrite Hd. io_unfold.
    unfold error_status in Ha.
    destruct (Z.eqb_spec (status_code r) 429) as [H429|_]; cbn.
    { pose proof (Hb r eq_refl H429) as Hw.
      rewrite (can_wait_product _ _ Hw). unfold emit, io_try. cbv beta.
      rewrite (can_wait_sleep _ _ _ Hw). apply Hfin. }
    destruct (Z.eqb_spec (status_code r) 400) as [E4|_]; cbn.
    { rewrite E4 in Ha. discriminate Ha. }
    destruct (Z.leb 400 (status_code r) && Z.ltb (status_code r) 600); cbn.
    + destruct (Z.eqb (status_code r) 500); cbn; apply Hfin.
    + destruct (json_body r); [discriminate Ha|]. cbn.
      destruct (json_error r); try discriminate Ha; cbn.
      * apply Hfin.
      * destruct (Z.eqb (status_code r) 500); cbn; apply Hfin.
      * destruct (content r); cbn; rewrite ?Hd; cbn; apply Hfin.
      * destruct (content r); cbn; rewrite ?Hd; cbn; apply Hfin.
  - rewrite (request_raises _ _ _ _ _ Ht). cbn in Ha, Hf.
    unfold except_clauses. io_unfold. cbn [returns]. rewrite orb_false_r.
    destruct response as [r0|].
    + assert (Hd : bytes_decode_utf8 (content r0)
                   = Ok (string_of_list_byte (content r0))).
      { unfold bytes_decode_utf8. now rewrite (Hdec r0 eq_refl). }
      destruct e; try discriminate; cbn.
      * eexists _, _. split; [reflexivity|]. now split.
      * destruct (Z.eqb (status_code r0) 500); cbn;
          eexists _, _; (split; [reflexivity|]); now split.
      * destruct (content r0); cbn; rewrite ?Hd; cbn;
          eexists _, _; (split; [reflexivity|]); now split.
      * destruct (content r0); cbn; rewrite ?Hd; cbn;
          eexists _, _; (split; [reflexivity|]); now split.
    + cbn in Hf. destruct e; try discriminate. cbn.
      eexists _, _. split; [reflexivity|]. now split.
Qed.

(** A script of absorbed attempts uses up as much of the range, one
    request each. *)
Lemma loop_absorbs os : forall pre post response w,
  waits backoff_factor w req pre ->
  length pre = length os ->
  follows w req os ->
  absorbs (is_bound response) os = true ->
  decodable response ->
  exists response' evs,
    loop (pre ++ post) response w
    = loop post response'
        {| sent := (sent w + length os)%nat; trace := trace w ++ evs |} /\
    requests_of evs = repeat req (length os).
Proof.
  induction os as [|o os IH]; intros pre post response w Hb Hl Hfo Ha Hdec.
  - destruct pre; [|discriminate]. exists response, []. cbn.
    rewrite Nat.add_0_r, app_nil_r. destruct w. now split.
  - destruct pre as [|i pre]; [discriminate|]. injection Hl as Hl.
    pose proof (Hfo 0%nat o eq_refl) as H0. rewrite Nat.add_0_r in H0.
    cbn [absorbs] in Ha. apply andb_true_iff in Ha as [Ha Hrest].
    apply andb_true_iff in Ha as [Ha Hf]. rewrite <- H0 in Ha, Hf.
    destruct (iteration_absorbed i response w) as
      (response' & w1 & E & Hdec' & Hbound);
      [intros r Ht Hs; apply (Hb 0%nat i r); auto; now rewrite Nat.add_0_r
      |exact Ha|exact Hf|exact Hdec|].
    destruct (iteration_one_request _ _ _ _ _ _ _ _ _ E) as (evs1 & -> & Hq1).
    assert (Hb' : waits backoff_factor (requested w req evs1) req pre).
    { intros j i' r Hj Ht Hs. apply (Hb (S j) i' r); auto.
      cbn [requested sent] in Ht. rewrite <- Ht. f_equal. lia. }
    destruct (IH pre post response' (requested w req evs1) Hb' Hl)
      as (response'' & evs2 & E2 & Hq2).
    { intros j o' Hj. cbn [requested sent].
      replace (S (sent w) + j)%nat with (sent w + S j)%nat by lia.
      now apply Hfo. }
    { rewrite Hbound, H0. exact Hrest. }
    { exact Hdec'. }
    exists response'', (EvRequest req :: evs1 ++ evs2). split.
    + change ((i :: pre) ++ post) with (i :: (pre ++ post)).
      unfold loop in E2 |- *. cbn [fetch_loop]. unfold io_bind. rewrite E.
      fold req. rewrite E2. cbn [requested sent trace length]. f_equal.
      f_equal; [lia|]. now rewrite <- app_assoc.
    + cbn [requests_of length repeat]. now rewrite requests_of_app, Hq1, Hq2.
Qed.

(** A response that succeeds ends the loop with its JSON body. *)
Lemma loop_success i range response w r v :
  transport (sent w) req = Returns r ->
  succeeds r v ->
  loop (i :: range) response w = (Ok v, requested w req []).
Proof.
  intros Ht [He Hj]. unfold loop. simpl fetch_loop.
  unfold iteration. io_unfold. unfold url, headers.
  rewrite (request_returns _ _ _ _ _ Ht).
  unfold on_response, raise_for_status, response_json.
  unfold error_status in He. rewrite He, Hj.
  destruct (Z.eqb_spec (status_code r) 429) as [E|_];
    [rewrite E in He; discriminate|].
  destruct (Z.eqb_spec (status_code r) 400) as [E|_];
    [rewrite E in He; discriminate|].
  reflexivity.
Qed.

(** With a negative backoff the sleep after a 429 is refused and the
    exception leaves the function after the warning, nothing having been
    slept: [ValueError], or [OverflowError] for a length beyond the range
    of the clock. *)
Lemma loop_429_negative i range response w r :
  (backoff_factor < 0)%Q ->
  (i < 1024)%nat ->
  (inject_Z (- 2 ^ 1024) < wait i)%Q ->
  transport (sent w) req = Returns r ->
  status_code r = 429 ->
  loop (i :: range) response w
  = (Raise (negative_sleep_error (wait i)),
     requested w req [rate_limit_warning (wait i)]).
Proof.
  intros Hb Hi Hlo Ht Hs. unfold loop. simpl fetch_loop.
  unfold iteration. io_unfold. unfold url, headers.
  rewrite (request_returns _ _ _ _ _ Ht).
  unfold on_response. rewrite Hs. cbn [Z.eqb Pos.eqb].
  io_unfold.
  assert (Hneg : (wait i < 0)%Q).
  { assert (Hp : 0 < 2 ^ Z.of_nat i) by (apply Z.pow_pos_nonneg; lia).
    unfold wait, backoff_wait, Qlt in *.
    cbn [Qnum Qden Qmult inject_Z] in *. nia. }
  assert (Hn : Qle_bool 0 (wait i) = false).
  { destruct (Qle_bool 0 (wait i)) eqn:E; [|reflexivity].
    apply Qle_bool_iff in E. exfalso.
    exact (Qlt_irrefl _ (Qle_lt_trans _ _ _ E Hneg)). }
  assert (Hm : float_mul_pow2 backoff_factor i = Ok (Finite (wait i))).
  { unfold float_mul_pow2.
    replace (Nat.leb 1024 i) with false
      by (symmetry; apply Nat.leb_gt; exact Hi).
    fold (backoff_wait backoff_factor i). fold wait.
    destruct (Qle_bool (inject_Z (2 ^ 1024)) (wait i)) eqn:E1.
    { exfalso. apply Qle_bool_iff in E1.
      pose proof (Qle_lt_trans _ _ _ E1 Hneg) as Hc.
      vm_compute in Hc. discriminate Hc. }
    destruct (Qle_bool (wait i) (inject_Z (- 2 ^ 1024))) eqn:E2.
    { exfalso. apply Qle_bool_iff in E2.
      exact (Qlt_irrefl _ (Qle_lt_trans _ _ _ E2 Hlo)). }
    reflexivity. }
  rewrite Hm. unfold emit, time_sleep, negative_sleep_error, Qlt_bool.
  cbn [sent trace].
  replace (Qle_bool (wait i * inject_Z (10 ^ 9)) (inject_Z (2 ^ 63 + 1024)))
    with true.
  2:{ symmetry. apply Qle_bool_iff. apply Qlt_le_weak.
      apply Qle_lt_trans with (y := 0%Q); [|reflexivity].
      rewrite <- (Qmult_0_l (inject_Z (10 ^ 9))).
      apply Qmult_le_compat_r; [now apply Qlt_le_weak|discriminate]. }
  cbn [negb orb]. rewrite Hn.
  destruct (negb _); unfold except_clauses; cbn; unfold requested; cbn;
    rewrite <- !app_assoc; reflexivity.
Qed.

End Run.

Lemma total_sublist l1 l2 :
  sublist l1 l2 -> Forall (fun q => Qle 0 q) l2 -> Qle (total l1) (total l2).
Proof.
  induction 1 as [|x l1 l2 _ IH|x l1 l2 _ IH]; intros Hf; cbn [total].
  - apply Qle_refl.
  - inversion Hf; subst. apply Qplus_le_compat; [apply Qle_refl|auto].
  - inversion Hf as [|? ? Hx Hr]; subst.
    eapply Qle_trans; [apply IH, Hr|].
    rewrite <- (Qplus_0_l (total l2)) at 1.
    apply Qplus_le_compat; [exact Hx|apply Qle_refl].
Qed.

Lemma total_waits backoff_factor n : forall k,
  (total (map (backoff_wait backoff_factor) (seq k n))
   == backoff_factor * inject_Z (2 ^ Z.of_nat (k + n) - 2 ^ Z.of_nat k))%Q.
Proof.
  induction n as [|n IH]; intros k; cbn [seq map total].
  - rewrite Nat.add_0_r, Z.sub_diag. cbn. ring.
  - rewrite IH. unfold backoff_wait.
    rewrite <- Qmult_plus_distr_r, <- inject_Z_plus.
    replace (2 ^ Z.of_nat k + (2 ^ Z.of_nat (S k + n) - 2 ^ Z.of_nat (S k)))
      with (2 ^ Z.of_nat (k + S n) - 2 ^ Z.of_nat k); [reflexivity|].
    replace (k + S n)%nat with (S k + n)%nat by lia.
    rewrite (Nat2Z.inj_succ k), Z.pow_succ_r by lia. lia.
Qed.

Lemma waits_nonneg backoff_factor range :
  Qle 0 backoff_factor ->
  Forall (fun q => Qle 0 q) (map (backoff_wait backoff_factor) range).
Proof.
  intros Hb. apply Forall_forall. intros q Hq.
  apply list_elem_of_In, in_map_iff in Hq as (i & <- & _).
  apply Qle_bool_iff, wait_time_nonneg, Hb.
Qed.

(* ===================================================================== *)
(** ** fetch_data: further properties *)
(* ===================================================================== *)

(** X1.  However a call of [fetch_data] ends, it has sent the same request
    some [k <= retries] times and nothing else: the given method, the base
    URL followed by the endpoint, the API key header, the given body, a
    timeout of 10 seconds. *)
Theorem fetch_data_requests endpoint method data retries backoff_factor
    w x w' :
  fetch_data endpoint method data retries backoff_factor w = (x, w') ->
  exists k,
    (k <= Z.to_nat retries)%nat /\
    sent w' = (sent w + k)%nat /\
    requests_of (new_events w w')
    = repeat {| req_method := method;
                req_url := String.append BASE_URL endpoint;
                req_headers := [("x-api-key", API_KEY)];
                req_json := data;
                req_timeout := 10 |} k.
Proof.
  intros H. unfold fetch_data in H.
  destruct (loop_run _ _ _ _ _ _ _ _ _ H)
    as (evs & k & -> & Hk & Hq & _).
  rewrite length_seq in Hk. exists k. split; [exact Hk|].
  split; [reflexivity|]. now rewrite (new_events_after _ _ evs).
Qed.

(** X2.  A call of [fetch_data] never prints: between the worlds before
    and after it there are requests, log lines and sleeps only.  The
    sleeps are, in order, among [backoff_factor * 2 ** i] for
    [i = 0, ..., retries - 1], each at most once; and there is no sleep at
    all unless some attempt was answered with 429. *)
Theorem fetch_data_sleeps endpoint method data retries backoff_factor
    w x w' :
  fetch_data endpoint method data retries backoff_factor w = (x, w') ->
  Forall (fun e => (exists r, e = EvRequest r) \/ is_log e
                   \/ exists q, e = EvSleep q)
    (new_events w w') /\
  sublist (sleeps_of (new_events w w'))
    (map (backoff_wait backoff_factor) (seq 0 (Z.to_nat retries))) /\
  ((forall j r,
      (j < Z.to_nat retries)%nat ->
      transport (sent w + j)%nat (request_for endpoint method data)
      = Returns r ->
      status_code r <> 429) ->
   sleeps_of (new_events w w') = []).
Proof.
  intros H. unfold fetch_data in H.
  destruct (loop_run _ _ _ _ _ _ _ _ _ H)
    as (evs & k & -> & _ & _ & Hkind & Hsub & Hno & _).
  rewrite (new_events_after _ _ evs) by reflexivity.
  split; [|split; [exact Hsub|]].
  - eapply Forall_impl; [exact Hkind|]. cbn. intros e [->|[He|He]]; eauto.
  - intros Hall. apply Hno. intros j r Hj. apply Hall.
    now rewrite length_seq in Hj.
Qed.

(** X3.  With a backoff that is not negative, the time a call of
    [fetch_data] sleeps is at most [backoff_factor * (2 ** retries - 1)]
    seconds in all, however the call ends. *)
Theorem fetch_data_total_sleep endpoint method data retries backoff_factor
    w x w' :
  Qle 0 backoff_factor ->
  fetch_data endpoint method data retries backoff_factor w = (x, w') ->
  (total (sleeps_of (new_events w w'))
   <= backoff_factor * inject_Z (2 ^ Z.of_nat (Z.to_nat retries) - 1))%Q.
Proof.
  intros Hb H. unfold fetch_data in H.
  destruct (loop_run _ _ _ _ _ _ _ _ _ H)
    as (evs & k & -> & _ & _ & _ & Hsub & _).
  rewrite (new_events_after _ _ evs) by reflexivity.
  eapply Qle_trans.
  - apply (total_sublist _ _ Hsub). now apply waits_nonneg.
  - rewrite total_waits. cbn [Nat.add Z.of_nat Z.pow]. apply Qle_refl.
Qed.

(** X4.  What [fetch_data] returns is [None] or the JSON body of a
    response received in this call whose status is no error status
    (neither 4xx nor 5xx): the body of an error response is never
    returned. *)
Theorem fetch_data_result endpoint method data retries backoff_factor
    w v w' :
  fetch_data endpoint method data retries backoff_factor w = (Ok v, w') ->
  v = JNull \/
  exists j r,
    (j < Z.to_nat retries)%nat /\
    transport (sent w + j)%nat (request_for endpoint method data) = Returns r /\
    json_body r = Some v /\
    ~ (400 <= status_code r < 600).
Proof.
  intros H. unfold fetch_data in H.
  destruct (loop_run _ _ _ _ _ _ _ _ _ H) as (evs & k & _ & _ & _ & _ & _ & _ & Hv).
  destruct (Hv v eq_refl) as [->|(j & r & Hj & Hr & He & Hjs)]; [now left|].
  right. exists j, r. rewrite length_seq in Hj. repeat split; auto.
  unfold error_status in He. intros [Hlo Hhi].
  apply Z.leb_le in Hlo. apply Z.ltb_lt in Hhi.
  rewrite Hlo, Hhi in He. discriminate.
Qed.

Lemma follows_app_l w req os os' :
  follows w req (os ++ os') -> follows w req os.
Proof.
  intros H j o Hj. apply H. rewrite lookup_app_l; [exact Hj|].
  eapply lookup_lt_Some, Hj.
Qed.

Lemma follows_waits backoff_factor w req os :
  follows w req os ->
  slept backoff_factor os ->
  waits backoff_factor w req (seq 0 (length os)).
Proof.
  intros Hfo Hsl j i r Hj Ht Hs. apply lookup_seq in Hj as [-> Hj].
  destruct (lookup_lt_is_Some_2 os j Hj) as [o Ho].
  pose proof (Hfo j o Ho) as Hto. rewrite Ht in Hto. subst o.
  exact (Hsl j r Ho Hs).
Qed.

Lemma slept_app_l backoff_factor os os' :
  slept backoff_factor (os ++ os') -> slept backoff_factor os.
Proof.
  intros H j r Hj. apply (H j r). rewrite lookup_app_l; [exact Hj|].
  eapply lookup_lt_Some, Hj.
Qed.

(** X5.  When every attempt of a call fails in a way the loop absorbs (a
    timeout; a 429 whose wait is slept; an HTTP error status other than
    400; under a status that is no error status, a body for which
    [json()] raises a [RequestException], as it does for one that is not
    JSON; any other [RequestException] once some earlier attempt has
    received a response), the bodies received being UTF-8, [fetch_data]
    makes exactly [retries] attempts and returns [None]. *)
Theorem fetch_data_absorbs endpoint method data retries backoff_factor w os :
  slept backoff_factor os ->
  follows w (request_for endpoint method data) os ->
  length os = Z.to_nat retries ->
  absorbs false os = true ->
  exists w',
    fetch_data endpoint method data retries backoff_factor w = (Ok JNull, w') /\
    sent w' = (sent w + Z.to_nat retries)%nat /\
    requests_of (new_events w w')
    = repeat (request_for endpoint method data) (Z.to_nat retries).
Proof.
  intros Hb Hfo Hl Ha. unfold fetch_data.
  destruct (loop_absorbs endpoint method data backoff_factor os
              (seq 0 (Z.to_nat retries)) [] None w)
    as (response' & evs & E & Hq); auto.
  { rewrite <- Hl. now apply follows_waits. }
  { now rewrite length_seq. }
  { intros r [=]. }
  rewrite app_nil_r in E. rewrite E, Hl in *. cbn [fetch_loop io_ret].
  eexists. split; [reflexivity|]. split; [reflexivity|].
  now rewrite (new_events_after _ _ evs).
Qed.

Lemma seq_split n k :
  (k < n)%nat -> seq 0 n = seq 0 k ++ k :: seq (S k) (n - S k).
Proof.
  intros Hk. replace n with (k + S (n - S k))%nat at 1 by lia.
  rewrite seq_app. reflexivity.
Qed.

(** X6.  Retrying works: when some attempts fail in ways the loop absorbs,
    the waits after their 429s being slept, and the next one, still
    within [retries], is answered with a status that is no error status
    and a JSON body, [fetch_data] returns that body, having sent one
    request per attempt and none after the success. *)
Theorem fetch_data_retries_until_success endpoint method data retries
    backoff_factor w os r v :
  slept backoff_factor os ->
  follows w (request_for endpoint method data) (os ++ [Returns r]) ->
  (length os < Z.to_nat retries)%nat ->
  absorbs false os = true ->
  succeeds r v ->
  exists w',
    fetch_data endpoint method data retries backoff_factor w = (Ok v, w') /\
    sent w' = (sent w + S (length os))%nat /\
    requests_of (new_events w w')
    = repeat (request_for endpoint method data) (S (length os)).
Proof.
  intros Hb Hfo Hl Ha Hs. unfold fetch_data.
  rewrite (seq_split _ _ Hl).
  destruct (loop_absorbs endpoint method data backoff_factor os
              (seq 0 (length os))
              (length os :: seq (S (length os)) (Z.to_nat retries - S (length os)))
              None w)
    as (response' & evs & E & Hq); auto.
  { apply follows_waits; [eapply follows_app_l, Hfo|exact Hb]. }
  { now rewrite length_seq. }
  { eapply follows_app_l, Hfo. }
  { intros ? [=]. }
  rewrite E.
  erewrite loop_success; [| |exact Hs].
  2:{ cbn [sent]. apply Hfo. now apply list_lookup_middle. }
  eexists. split; [reflexivity|]. split; [cbn [requested sent]; lia|].
  erewrite new_events_after
    by (unfold requested; cbn [trace]; rewrite <- app_assoc; reflexivity).
  rewrite requests_of_app, Hq. cbn [requests_of].
  now rewrite <- repeat_cons.
Qed.

(** X7.  A 400 ends the call whatever is left of [retries]: when some
    attempts fail in ways the loop absorbs, the waits after their 429s
    being slept, and the next one is answered with 400 and a UTF-8 body,
    [fetch_data] returns [None] after that attempt and sends nothing
    more. *)
Theorem fetch_data_retries_until_400 endpoint method data retries
    backoff_factor w os r body :
  slept backoff_factor os ->
  follows w (request_for endpoint method data) (os ++ [Returns r]) ->
  (length os < Z.to_nat retries)%nat ->
  absorbs false os = true ->
  status_code r = 400 ->
  bytes_decode_utf8 (content r) = Ok body ->
  exists w',
    fetch_data endpoint method data retries backoff_factor w = (Ok JNull, w') /\
    sent w' = (sent w + S (length os))%nat /\
    requests_of (new_events w w')
    = repeat (request_for endpoint method data) (S (length os)).
Proof.
  intros Hb Hfo Hl Ha Hs Hd. unfold fetch_data.
  rewrite (seq_split _ _ Hl).
  destruct (loop_absorbs endpoint method data backoff_factor os
              (seq 0 (length os))
              (length os :: seq (S (length os)) (Z.to_nat retries - S (length os)))
              None w)
    as (response' & evs & E & Hq); auto.
  { apply follows_waits; [eapply follows_app_l, Hfo|exact Hb]. }
  { now rewrite length_seq. }
  { eapply follows_app_l, Hfo. }
  { intros ? [=]. }
  rewrite E.
  erewrite loop_400; [| |exact Hs|exact Hd].
  2:{ cbn [sent]. apply Hfo. now apply list_lookup_middle. }
  eexists. split; [reflexivity|]. split; [cbn [requested sent]; lia|].
  erewrite new_events_after
    by (unfold requested; cbn [trace]; rewrite <- app_assoc; reflexivity).
  rewrite requests_of_app, Hq. cbn [requests_of].
  now rewrite <- repeat_cons.
Qed.

(** X8.  With a negative [backoff_factor] (a float, so above
    [- 2 ** 1024]), a 429 on the first attempt makes [fetch_data] raise:
    the warning is logged, the sleep of negative length is refused, and
    no handler catches the error.  The error is [ValueError] for a length
    of no more than [2 ** 63] nanoseconds (up to the rounding of
    [time.sleep]) and [OverflowError] for a longer one, which fails the
    conversion to nanoseconds before its sign is looked at. *)
Theorem fetch_data_negative_backoff endpoint method data retries
    backoff_factor w r :
  (backoff_factor < 0)%Q ->
  (inject_Z (- 2 ^ 1024) < backoff_factor)%Q ->
  0 < retries ->
  transport (sent w) (request_for endpoint method data) = Returns r ->
  status_code r = 429 ->
  let ns := (backoff_factor * inject_Z (10 ^ 9))%Q in
  let w' := requested w (request_for endpoint method data)
              [rate_limit_warning (backoff_wait backoff_factor 0)] in
  ((inject_Z (- (2 ^ 63 + 1024)) <= ns)%Q ->
   fetch_data endpoint method data retries backoff_factor w
   = (Raise ValueError, w')) /\
  ((ns < inject_Z (- (2 ^ 63 + 1024)))%Q ->
   fetch_data endpoint method data retries backoff_factor w
   = (Raise OverflowError, w')).
Proof.
  intros Hb Hlo Hr Ht Hs ns w'.
  assert (Hw : (backoff_wait backoff_factor 0 == backoff_factor)%Q).
  { unfold backoff_wait. cbn [Z.of_nat Z.pow]. apply Qmult_1_r. }
  assert (E : fetch_data endpoint method data retries backoff_factor w
              = (Raise (negative_sleep_error (backoff_wait backoff_factor 0)),
                 w')).
  { unfold fetch_data.
    destruct (Z.to_nat retries) as [|n] eqn:E; [lia|]. cbn [seq].
    apply (loop_429_negative endpoint method data backoff_factor 0%nat _ None
             w r Hb); [lia| |exact Ht|exact Hs].
    now rewrite Hw. }
  rewrite E. unfold negative_sleep_error, Qlt_bool. rewrite Hw. fold ns.
  split; intros Hns.
  - apply Qle_bool_iff in Hns. now rewrite Hns.
  - destruct (Qle_bool (inject_Z (- (2 ^ 63 + 1024))) ns) eqn:En;
      [|reflexivity].
    apply Qle_bool_iff in En. exfalso.
    exact (Qlt_irrefl _ (Qle_lt_trans _ _ _ En Hns)).
Qed.

(** X9.  A [retries] that is zero or negative means no attempt at all:
    [fetch_data] returns [None] and the world is as it was. *)
Theorem fetch_data_nonpositive_retries endpoint method data retries
    backoff_factor w :
  retries <= 0 ->
  fetch_data endpoint method data retries backoff_factor w = (Ok JNull, w).
Proof.
  intros Hr. unfold fetch_data.
  replace (Z.to_nat retries) with 0%nat by lia. reflexivity.
Qed.

(** X10.  [fetch_data] raises nothing when none of its calls raises
    anything but a timeout, every body received is UTF-8, [json()] raises
    nothing but a [RequestException] (as it does for a body that is not
    JSON), and the wait after every 429 is one that is slept: it then
    returns, [None] or a JSON value. *)
Theorem fetch_data_no_exception endpoint method data retries backoff_factor w :
  (forall j r, (j < Z.to_nat retries)%nat ->
     transport (sent w + j)%nat (request_for endpoint method data) = Returns r ->
     status_code r = 429 ->
     can_wait backoff_factor j = true) ->
  (forall k, (k < Z.to_nat retries)%nat ->
     guarded (transport (sent w + k)%nat (request_for endpoint method data))
     = true) ->
  exists v w',
    fetch_data endpoint method data retries backoff_factor w = (Ok v, w') /\
    (sent w' <= sent w + Z.to_nat retries)%nat.
Proof.
  intros Hb Hall.
  destruct (fetch_data_returns endpoint method data retries backoff_factor w
              Hb Hall) as (v & w' & E).
  exists v, w'. split; [exact E|].
  now destruct (fetch_data_at_most_retries _ _ _ _ _ _ _ _ E).
Qed.

(* ===================================================================== *)
(** ** The wrappers, post_site_outages and main: further properties *)
(* ===================================================================== *)

(** A success on the first attempt. *)
Lemma fetch_data_first_success endpoint method data retries backoff_factor
    w r v :
  0 < retries ->
  transport (sent w) (request_for endpoint method data) = Returns r ->
  succeeds r v ->
  fetch_data endpoint method data retries backoff_factor w
  = (Ok v, requested w (request_for endpoint method data) []).
Proof.
  intros Hr Ht Hs. unfold fetch_data.
  destruct (Z.to_nat retries) as [|n] eqn:E; [lia|]. cbn [seq].
  exact (loop_success endpoint method data backoff_factor 0%nat _ None w r v
           Ht Hs).
Qed.

(** A call with at least one attempt starts with a request. *)
Lemma fetch_data_run endpoint method data retries backoff_factor w x w' :
  0 < retries ->
  fetch_data endpoint method data retries backoff_factor w = (x, w') ->
  exists k evs,
    (1 <= k <= Z.to_nat retries)%nat /\
    sent w' = (sent w + k)%nat /\
    trace w' = trace w ++ EvRequest (request_for endpoint method data) :: evs /\
    requests_of (new_events w w')
    = repeat (request_for endpoint method data) k.
Proof.
  intros Hr H. unfold fetch_data in H.
  destruct (Z.to_nat retries) as [|n] eqn:En; [lia|]. cbn [seq] in H.
  cbn [fetch_loop] in H. unfold io_bind in H.
  destruct (iteration _ _ _ _ _ _ _ w) as [[[f response']|e] w1] eqn:E;
    destruct (iteration_one_request _ _ _ _ _ _ _ _ _ E) as (evs1 & -> & Hq1).
  - destruct f as [|v].
    + destruct (loop_run _ _ _ _ _ _ _ _ _ H)
        as (evs2 & k & -> & Hk & Hq & _).
      rewrite length_seq in Hk. exists (S k), (evs1 ++ evs2).
      split; [lia|]. split; [cbn [requested sent]; lia|].
      assert (Ht : trace w ++ EvRequest (request_for endpoint method data)
                             :: evs1 ++ evs2
                   = (trace w ++ EvRequest (request_for endpoint method data)
                              :: evs1) ++ evs2)
        by now rewrite <- app_assoc.
      split; [cbn [requested trace]; now rewrite Ht|].
      erewrite new_events_after by (cbn [requested trace]; now rewrite <- Ht).
      cbn [requests_of repeat]. now rewrite requests_of_app, Hq1, Hq.
    + injection H as <- <-. exists 1%nat, evs1. split; [lia|].
      split; [cbn [requested sent]; lia|]. split; [reflexivity|].
      erewrite new_events_after by reflexivity. cbn. now rewrite Hq1.
  - injection H as <- <-. exists 1%nat, evs1. split; [lia|].
    split; [cbn [requested sent]; lia|]. split; [reflexivity|].
    erewrite new_events_after by reflexivity. cbn. now rewrite Hq1.
Qed.

(** X11.  [get_all_outages] and [get_site_info] send nothing but a GET
    without a body to the base URL followed by [/outages], respectively
    by [/site-info/] and the site id, between one and five times. *)
Theorem wrappers_requests (site_id : string) w1 x1 w1' w2 x2 w2' :
  get_all_outages w1 = (x1, w1') ->
  get_site_info site_id w2 = (x2, w2') ->
  (exists k,
     (1 <= k <= 5)%nat /\
     requests_of (new_events w1 w1')
     = repeat {| req_method := "GET";
                 req_url := String.append BASE_URL "/outages";
                 req_headers := [("x-api-key", API_KEY)];
                 req_json := JNull;
                 req_timeout := 10 |} k) /\
  (exists k,
     (1 <= k <= 5)%nat /\
     requests_of (new_events w2 w2')
     = repeat {| req_method := "GET";
                 req_url :=
                   String.append BASE_URL (String.append "/site-info/" site_id);
                 req_headers := [("x-api-key", API_KEY)];
                 req_json := JNull;
                 req_timeout := 10 |} k).
Proof.
  intros H1 H2. split.
  - destruct (fetch_data_run "/outages" "GET" JNull 5 (1 # 2) w1 x1 w1'
                ltac:(lia) H1)
      as (k & evs & Hk & _ & _ & Hq).
    exists k. split; [exact Hk|exact Hq].
  - destruct (fetch_data_run (String.append "/site-info/" site_id) "GET"
                JNull 5 (1 # 2) w2 x2 w2' ltac:(lia) H2)
      as (k & evs & Hk & _ & _ & Hq).
    exists k. split; [exact Hk|exact Hq].
Qed.

(** X12.  [post_site_outages] sends a request exactly when there is
    something to post.  With an empty list it logs a warning, sends
    nothing and returns [None].  With a non-empty list the first thing it
    does is to POST that list, as the JSON body, to the base URL followed
    by [/site-outages/] and the site id, and all it sends is that request,
    between one and five times. *)
Theorem post_site_outages_requests site_id outages w x w' :
  post_site_outages site_id outages w = (x, w') ->
  (outages = [] -> x = Ok JNull /\ w' = after w [nothing_to_post]) /\
  (outages <> [] ->
   exists k evs,
     (1 <= k <= 5)%nat /\
     trace w'
     = trace w
       ++ EvRequest
            (request_for (String.append "/site-outages/" site_id) "POST"
               (JList outages)) :: evs /\
     requests_of (new_events w w')
     = repeat
         (request_for (String.append "/site-outages/" site_id) "POST"
            (JList outages)) k).
Proof.
  intros H. split.
  - intros ->. cbn in H. now injection H as <- <-.
  - intros Hne. unfold post_site_outages in H.
    destruct outages as [|o outages]; [contradiction|].
    unfold io_bind in H.
    destruct (fetch_data _ _ _ _ _ w) as [[v|e] w1] eqn:E;
      destruct (fetch_data_run _ _ _ 5 _ _ _ _ ltac:(lia) E)
        as (k & evs & Hk & _ & Htr & Hq).
    + assert (Hw : w' = after w1 [post_verdict v]).
      { unfold logging_info, logging_error, emit, io_ret, post_verdict in *.
        destruct (truthy v); now injection H as <- <-. }
      subst w'. exists k, (evs ++ [post_verdict v]).
      split; [exact Hk|]. cbn [after trace]. rewrite Htr, <- app_assoc.
      split; [reflexivity|].
      erewrite new_events_after
        by (cbn [after trace]; rewrite Htr, <- app_assoc; reflexivity).
      rewrite (new_events_after _ _ _ Htr) in Hq.
      change (EvRequest ?r :: evs ++ [post_verdict v])
        with ((EvRequest r :: evs) ++ [post_verdict v]).
      rewrite requests_of_app, Hq. unfold post_verdict.
      destruct (truthy v); cbn; now rewrite app_nil_r.
    + injection H as <- <-. exists k, evs. auto.
Qed.

(** A post that is acknowledged on the first attempt. *)
Lemma post_site_outages_first_success site_id outages w r v :
  outages <> [] ->
  transport (sent w)
    (request_for (String.append "/site-outages/" site_id) "POST" (JList outages))
  = Returns r ->
  succeeds r v ->
  post_site_outages site_id outages w
  = (Ok v,
     requested w
       (request_for (String.append "/site-outages/" site_id) "POST"
          (JList outages))
       [post_verdict v]).
Proof.
  intros Hne Ht Hs. unfold post_site_outages.
  destruct outages as [|o outages]; [contradiction|].
  rewrite (bind_ok _ _ _ _ _
             (fetch_data_first_success _ _ _ 5 (1 # 2) _ _ _ ltac:(lia) Ht Hs)).
  unfold post_verdict, logging_info, logging_error.
  destruct (truthy v); rewrite bind_emit; unfold io_ret, after, requested;
    cbn [sent trace]; now rewrite <- app_assoc.
Qed.

(** X13.  When the first attempt of the post is answered with a status
    that is no error status and a JSON body, [post_site_outages] returns
    that body after the one request, and its log line goes by the truth
    value of the body: an acknowledgement that is falsy, such as an empty
    object, is logged as a failure to post. *)
Theorem post_site_outages_acknowledged site_id outages w r v :
  outages <> [] ->
  transport (sent w)
    (request_for (String.append "/site-outages/" site_id) "POST" (JList outages))
  = Returns r ->
  succeeds r v ->
  post_site_outages site_id outages w
  = (Ok v,
     requested w
       (request_for (String.append "/site-outages/" site_id) "POST"
          (JList outages))
       [if truthy v
        then EvLog INFO "Outages posted successfully." []
        else EvLog ERROR "Failed to post the outages." []]).
Proof. exact (post_site_outages_first_success site_id outages w r v). Qed.

Lemma prints_no_requests (items : list json) :
  requests_of (map (fun outage => EvPrint (PValue outage)) items) = [].
Proof. induction items; cbn; auto. Qed.

Lemma outages_report_no_requests items :
  requests_of (outages_report items) = [].
Proof.
  unfold outages_report. cbn. now rewrite requests_of_app, prints_no_requests.
Qed.

Lemma processed_report_no_requests out :
  requests_of (processed_report out) = [].
Proof.
  unfold processed_report. cbn.
  now rewrite requests_of_app, prints_no_requests.
Qed.

(** [main] from its start to the post step, when both fetches return
    truthy values and the transformation returns. *)
Lemma main_unfold w v1 w1 items v2 w2 out :
  get_all_outages (after w opening) = (Ok v1, w1) ->
  truthy v1 = true ->
  py_iter v1 = Ok items ->
  get_site_info "norwich-pear-tree" (after w1 (outages_report items))
  = (Ok v2, w2) ->
  truthy v2 = true ->
  filter_and_transform_outages v1 v2 = Ok out ->
  main w = main_post out (after w2 (site_report v2 ++ processed_report out)).
Proof.
  intros H1 Ht1 Hi H2 Ht2 Hf.
  unfold main, logging_info, print. rewrite !bind_emit, after_after.
  change (after w _) with (after w opening).
  rewrite (bind_ok _ _ _ _ _ H1), Ht1. cbn [negb].
  rewrite !bind_emit, Hi, bind_lift_ok.
  rewrite (bind_ok _ _ _ _ _ (io_for_print _ _)), bind_emit, !after_after.
  change (after w1 _) with (after w1 (outages_report items)).
  rewrite (bind_ok _ _ _ _ _ H2), Ht2. cbn [negb].
  rewrite !bind_emit, !after_after, Hf, bind_lift_ok.
  rewrite !bind_emit.
  rewrite (bind_ok _ _ _ _ _ (io_for_print _ _)), bind_emit, !after_after.
  change (after w2 _)
    with (after w2 (site_report v2 ++ processed_report out)).
  reflexivity.
Qed.

(** X14.  The whole run when everything answers at once: if the first
    attempt of each fetch is answered with a status that is no error
    status, the outages being a non-empty list and the site truthy, the
    transformation returns a non-empty list, and the post of that list is
    acknowledged with a truthy body, then [main] sends exactly three
    requests (the GET of the outages, the GET of the site, and the POST
    whose JSON body is the transformed list) and ends by printing that the
    process completed. *)
Theorem main_posts_transformed w r1 items r2 v2 out r3 v3 :
  transport (sent w) (request_for "/outages" "GET" JNull) = Returns r1 ->
  succeeds r1 (JList items) ->
  items <> [] ->
  transport (S (sent w))
    (request_for "/site-info/norwich-pear-tree" "GET" JNull) = Returns r2 ->
  succeeds r2 v2 ->
  truthy v2 = true ->
  filter_and_transform_outages (JList items) v2 = Ok out ->
  out <> [] ->
  transport (S (S (sent w)))
    (request_for "/site-outages/norwich-pear-tree" "POST" (JList out))
  = Returns r3 ->
  succeeds r3 v3 ->
  truthy v3 = true ->
  exists w',
    main w = (Ok tt, w') /\
    requests_of (new_events w w')
    = [request_for "/outages" "GET" JNull;
       request_for "/site-info/norwich-pear-tree" "GET" JNull;
       request_for "/site-outages/norwich-pear-tree" "POST" (JList out)] /\
    last (trace w') = Some (EvPrint (PText "Process completed successfully!")).
Proof.
  intros T1 S1 Hne T2 S2 Ht2 Hf Hout T3 S3 Ht3.
  assert (Ht1 : truthy (JList items) = true)
    by (destruct items; [contradiction|reflexivity]).
  pose proof (fetch_data_first_success "/outages" "GET" JNull 5 (1 # 2)
                (after w opening) r1 (JList items) ltac:(lia) T1 S1) as H1.
  pose proof (fetch_data_first_success "/site-info/norwich-pear-tree" "GET"
                JNull 5 (1 # 2)
                (after (requested (after w opening)
                          (request_for "/outages" "GET" JNull) [])
                   (outages_report items))
                r2 v2 ltac:(lia) T2 S2) as H2.
  rewrite (main_unfold w _ _ items _ _ out H1 Ht1 eq_refl H2 Ht2 Hf).
  unfold main_post.
  erewrite bind_ok
    by (apply (post_site_outages_first_success "norwich-pear-tree" out _ r3 v3
                 Hout); [exact T3|exact S3]).
  rewrite Ht3. cbn [negb]. unfold print, logging_info.
  rewrite !bind_emit, !after_after. unfold emit.
  eexists. split; [reflexivity|]. split.
  - erewrite new_events_after
      by (unfold after, requested; cbn [sent trace];
          rewrite <- !app_assoc; reflexivity).
    cbn [app requests_of opening].
    rewrite !requests_of_app, outages_report_no_requests. cbn [app requests_of].
    rewrite !requests_of_app, processed_report_no_requests.
    unfold post_verdict, site_report. destruct (truthy v3); reflexivity.
  - cbn [trace after]. now rewrite last_snoc.
Qed.

(** X15.  When both fetches return truthy values and the transformation
    retains nothing, [main] ends without posting: after the report of the
    empty result there is the warning that there is nothing to post, and
    no request. *)
Theorem main_nothing_retained w v1 w1 items v2 w2 :
  get_all_outages (after w opening) = (Ok v1, w1) ->
  truthy v1 = true ->
  py_iter v1 = Ok items ->
  get_site_info "norwich-pear-tree" (after w1 (outages_report items))
  = (Ok v2, w2) ->
  truthy v2 = true ->
  filter_and_transform_outages v1 v2 = Ok [] ->
  main w
  = (Ok tt,
     after w2 (site_report v2 ++ processed_report [] ++ [nothing_to_post])) /\
  requests_of (site_report v2 ++ processed_report [] ++ [nothing_to_post]) = [].
Proof.
  intros H1 Ht1 Hi H2 Ht2 Hf.
  rewrite (main_unfold w _ _ items _ _ [] H1 Ht1 Hi H2 Ht2 Hf).
  split; [|reflexivity].
  unfold main_post, post_site_outages, logging_warning.
  unfold io_bind at 1. rewrite bind_emit. unfold io_ret. cbn [truthy negb].
  rewrite after_after, <- app_assoc. reflexivity.
Qed.

(** X16.  When the outages fetched are truthy but cannot be iterated over
    (a number other than zero, or [true]), [main] raises [TypeError] in
    the loop that prints them, right after the heading, and the site is
    never fetched. *)
Theorem main_outages_not_iterable w v1 w1 e :
  get_all_outages (after w opening) = (Ok v1, w1) ->
  truthy v1 = true ->
  py_iter v1 = Raise e ->
  e = TypeError /\
  main w
  = (Raise TypeError,
     after w1 [EvLog INFO "Fetched all outages successfully." [];
               EvPrint (PText (String "010" "Outages Data:"))]).
Proof.
  intros H1 Ht1 Hi.
  assert (He : e = TypeError).
  { destruct v1; cbn in Hi; congruence. }
  subst e. split; [reflexivity|].
  unfold main, logging_info, print. rewrite !bind_emit, after_after.
  change (after w _) with (after w opening).
  rewrite (bind_ok _ _ _ _ _ H1), Ht1. cbn [negb].
  rewrite !bind_emit, Hi, bind_lift_raise, after_after. reflexivity.
Qed.

Lemma sends_ret {A} n (a : A) : sends_at_most n (io_ret a).
Proof. intros w x w' [= <- <-]. lia. Qed.

Lemma sends_lift {A} n (r : res A) : sends_at_most n (io_lift r).
Proof. intros w x w' [= <- <-]. lia. Qed.

Lemma sends_emit n e : sends_at_most n (emit e).
Proof. intros w x w' [= <- <-]. cbn. lia. Qed.

Lemma sends_bind {A B} a b (m : IO A) (k : A -> IO B) :
  sends_at_most a m -> (forall x, sends_at_most b (k x)) ->
  sends_at_most (a + b) (io_bind m k).
Proof.
  intros Hm Hk w x w' H. unfold io_bind in H.
  destruct (m w) as [[y|e] w1] eqn:E; destruct (Hm _ _ _ E).
  - destruct (Hk _ _ _ _ H). lia.
  - injection H as <- <-. lia.
Qed.

Lemma sends_then {A B} b (m : IO A) (k : A -> IO B) :
  sends_at_most 0 m -> (forall x, sends_at_most b (k x)) ->
  sends_at_most b (io_bind m k).
Proof. intros Hm Hk. apply (sends_bind 0 b); assumption. Qed.

Lemma sends_for_print n items :
  sends_at_most n (io_for items (fun outage => print (PValue outage))).
Proof.
  intros w x w' H. rewrite io_for_print in H. injection H as <- <-. cbn. lia.
Qed.

Lemma sends_fetch_data endpoint method data retries backoff_factor :
  sends_at_most (Z.to_nat retries)
    (fetch_data endpoint method data retries backoff_factor).
Proof.
  intros w x w' H. unfold fetch_data in H.
  destruct (loop_run _ _ _ _ _ _ _ _ _ H) as (evs & k & -> & Hk & _).
  rewrite length_seq in Hk. cbn. lia.
Qed.

Lemma sends_post_site_outages site_id outages :
  sends_at_most 5 (post_site_outages site_id outages).
Proof.
  unfold post_site_outages. destruct outages.
  - apply sends_then; [apply sends_emit|intros; apply sends_ret].
  - apply (sends_bind 5 0); [apply (sends_fetch_data _ _ _ 5)|].
    intros v. apply sends_then; [|intros; apply sends_ret].
    unfold logging_info, logging_error. destruct (truthy v); apply sends_emit.
Qed.

Ltac sends_quietly :=
  repeat first
    [ apply sends_ret
    | apply sends_emit
    | apply sends_lift
    | apply sends_for_print
    | apply sends_then; [|intros ?] ].

(** X17.  However [main] ends, it has sent at most fifteen requests: at
    most five for each of the two fetches and for the post. *)
Theorem main_sends_at_most_15 w x w' :
  main w = (x, w') ->
  (sent w <= sent w')%nat /\ (sent w' <= sent w + 15)%nat.
Proof.
  revert w x w'. change (sends_at_most 15 main).
  unfold main, logging_info, print.
  apply sends_then; [apply sends_emit|intros _].
  apply sends_then; [apply sends_emit|intros _].
  apply (sends_bind 5 10); [apply (sends_fetch_data _ _ _ 5)|intros outages].
  destruct (negb (truthy outages)); [apply sends_ret|].
  apply sends_then; [apply sends_emit|intros _].
  apply sends_then; [apply sends_emit|intros _].
  apply sends_then; [apply sends_lift|intros items].
  apply sends_then; [apply sends_for_print|intros _].
  apply sends_then; [apply sends_emit|intros _].
  apply (sends_bind 5 5); [apply (sends_fetch_data _ _ _ 5)|intros site_info].
  destruct (negb (truthy site_info)); [apply sends_ret|].
  apply sends_then; [apply sends_emit|intros _].
  apply sends_then; [apply sends_emit|intros _].
  apply sends_then; [apply sends_emit|intros _].
  apply sends_then; [apply sends_emit|intros _].
  apply sends_then; [apply sends_lift|intros processed_outages].
  apply sends_then; [apply sends_emit|intros _].
  apply sends_then; [apply sends_emit|intros _].
  apply sends_then; [apply sends_for_print|intros _].
  apply sends_then; [apply sends_emit|intros _].
  apply (sends_bind 5 0); [apply sends_post_site_outages|intros response].
  destruct (negb (truthy response)); [apply sends_ret|].
  sends_quietly.
Qed.

(* ===================================================================== *)
(** ** filter_and_transform_outages: further properties *)
(* ===================================================================== *)

(** The comprehension works through its input from left to right: over a
    concatenation it is the comprehension over the first part followed by
    the comprehension over the second. *)
Lemma list_comprehension_app c m xs ys :
  list_comprehension c m (xs ++ ys)
  = res_bind (list_comprehension c m xs)
      (fun a => res_bind (list_comprehension c m ys) (fun b => Ok (a ++ b))).
Proof.
  induction xs as [|x xs IH]; cbn [app list_comprehension].
  - cbn [res_bind]. destruct (list_comprehension c m ys); reflexivity.
  - destruct (condition c m x) as [[|]|]; cbn [res_bind]; auto.
    destruct (element m x); cbn [res_bind]; [|reflexivity].
    rewrite IH. destruct (list_comprehension c m xs); cbn [res_bind]; auto.
    destruct (list_comprehension c m ys); reflexivity.
Qed.

(** The part of [filter_and_transform_outages] that does not look at the
    outages: the cutoff and the dict of device names. *)
Lemma filter_and_transform_outages_steps outages site_info :
  filter_and_transform_outages outages site_info
  = res_bind (fromisoformat cutoff_literal) (fun c =>
      res_bind (py_getitem site_info "devices") (fun dv =>
        res_bind (py_iter dv) (fun devices =>
          res_bind (dict_comprehension devices ∅) (fun m =>
            res_bind (py_iter outages) (fun items =>
              list_comprehension c m items))))).
Proof. reflexivity. Qed.

Lemma filter_and_transform_outages_site cutoff site_info devices :
  fromisoformat cutoff_literal = Ok (Aware cutoff) ->
  devices_of site_info = Some devices ->
  Forall wf_device devices ->
  exists m,
    (forall k, m !! k = matching_name devices k) /\
    (forall k, is_Some (m !! k) <-> k ∈ device_ids devices) /\
    forall items,
      filter_and_transform_outages (JList items) site_info
      = list_comprehension (Aware cutoff) m items.
Proof.
  intros Hc Hd Hwd.
  destruct (dict_comprehension_total devices ∅ Hwd) as [m Hm].
  destruct (device_map_agrees _ _ Hm) as [Hl Hi].
  exists m. split; [exact Hl|]. split; [exact Hi|]. intros items.
  rewrite filter_and_transform_outages_steps, Hc, (devices_of_Some _ _ Hd).
  cbn [res_bind py_iter]. now rewrite Hm.
Qed.

(** X18.  The result is never longer than the input, and every record of
    it carries the id of some device of the site and, under [name], that
    device's name. *)
Theorem filter_and_transform_outages_bounded
    (items : list json) (site_info : json) (devices out : list json) :
  devices_of site_info = Some devices ->
  filter_and_transform_outages (JList items) site_info = Ok out ->
  (length out <= length items)%nat /\
  Forall (fun e =>
            exists k device,
              id_key e = Some k /\ device ∈ devices /\
              id_key device = Some k /\
              is_Some (name_of device) /\ name_of e = name_of device) out.
Proof.
  intros Hd H.
  destruct (filter_and_transform_outages_inv _ _ _ H)
    as (c & dv & devs & m & items' & Hc & Hg & Hi & Hm & Ho & Hl).
  rewrite (devices_of_Some _ _ Hd) in Hg. injection Hg as <-.
  cbn in Hi, Ho. injection Hi as <-. injection Ho as <-.
  destruct (device_map_agrees _ _ Hm) as [Hname _].
  destruct (list_comprehension_inv _ _ _ _ Hl) as (kept & Hs & Hf).
  split.
  - rewrite <- (Forall2_length _ _ _ Hf). now apply sublist_length.
  - clear Hs Hl H. induction Hf as [|o e kept out Hoe _ IH]; constructor; auto.
    destruct Hoe as (d & k & name & -> & Hk & Hn & ->).
    rewrite Hname in Hn.
    destruct (matching_name_sound _ _ _ Hn) as (dev & Hin & Hid & Hnm).
    exists k, dev. rewrite id_key_enriched. split; [exact Hk|].
    split; [exact Hin|]. split; [exact Hid|]. split; [rewrite Hnm; eauto|].
    rewrite Hnm. cbn. apply dict_get_set_eq.
Qed.

(** X19.  Over a concatenation of two lists of outages the function is
    the function over the first list followed by the function over the
    second: the results are concatenated, and the first error wins. *)
Theorem filter_and_transform_outages_app (xs ys : list json) (site_info : json) :
  filter_and_transform_outages (JList (xs ++ ys)) site_info
  = res_bind (filter_and_transform_outages (JList xs) site_info)
      (fun a =>
         res_bind (filter_and_transform_outages (JList ys) site_info)
           (fun b => Ok (a ++ b))).
Proof.
  rewrite !filter_and_transform_outages_steps.
  destruct (fromisoformat cutoff_literal) as [c|]; cbn [res_bind]; auto.
  destruct (py_getitem site_info "devices") as [dv|]; cbn [res_bind]; auto.
  destruct (py_iter dv) as [devices|]; cbn [res_bind]; auto.
  destruct (dict_comprehension devices ∅) as [m|]; cbn [res_bind py_iter]; auto.
  apply list_comprehension_app.
Qed.

Lemma list_comprehension_raises cutoff m devices before o rest e :
  Forall wf_outage before ->
  (forall k, m !! k = matching_name devices k) ->
  (forall k, is_Some (m !! k) <-> k ∈ device_ids devices) ->
  condition (Aware cutoff) m o = Raise e ->
  list_comprehension (Aware cutoff) m (before ++ o :: rest) = Raise e.
Proof.
  intros Hwf Hl Hi Hc. rewrite list_comprehension_app.
  destruct (list_comprehension_wf cutoff m devices before Hwf Hl Hi)
    as (a & -> & _).
  cbn [res_bind list_comprehension]. now rewrite Hc.
Qed.

(** X20.  The test of the comprehension reads [id] only for an outage
    that begins at or after the cutoff.  So an outage without an [id] is
    dropped silently when it begins before the cutoff, and makes the call
    raise [KeyError] when it does not. *)
Theorem filter_and_transform_outages_missing_id
    (cutoff : Z) (site_info : json) (devices before rest : list json)
    (d : pydict) (s : string) (t : Z) :
  fromisoformat cutoff_literal = Ok (Aware cutoff) ->
  devices_of site_info = Some devices ->
  Forall wf_device devices ->
  Forall wf_outage before ->
  dict_get "begin" d = Some (JStr s) ->
  fromisoformat s = Ok (Aware t) ->
  dict_get "id" d = None ->
  (t < cutoff ->
   filter_and_transform_outages (JList (before ++ JDict d :: rest)) site_info
   = filter_and_transform_outages (JList (before ++ rest)) site_info) /\
  (cutoff <= t ->
   filter_and_transform_outages (JList (before ++ JDict d :: rest)) site_info
   = Raise KeyError).
Proof.
  intros Hc Hd Hwd Hwo Hb Hs Hid.
  destruct (filter_and_transform_outages_site cutoff site_info devices Hc Hd Hwd)
    as (m & Hl & Hi & Hf).
  rewrite !Hf.
  assert (Hcond : condition (Aware cutoff) m (JDict d)
                  = if Z.leb cutoff t then Raise KeyError else Ok false).
  { unfold condition, py_getitem. rewrite Hb.
    cbn [res_bind datetime_fromisoformat]. rewrite Hs.
    cbn [res_bind datetime_ge]. destruct (Z.leb cutoff t); [|reflexivity].
    now rewrite Hid. }
  split; intros Ht.
  - apply Z.leb_gt in Ht. rewrite Ht in Hcond.
    rewrite !list_comprehension_app. cbn [list_comprehension].
    now rewrite Hcond.
  - apply Z.leb_le in Ht. rewrite Ht in Hcond.
    now apply (list_comprehension_raises cutoff m devices).
Qed.

Lemma dict_comprehension_bad_device good : forall m0 dev more,
  Forall wf_device good ->
  dict_get "id" dev = None \/ dict_get "name" dev = None ->
  dict_comprehension (good ++ JDict dev :: more) m0 = Raise KeyError.
Proof.
  induction good as [|g good IH]; intros m0 dev more Hwf Hbad;
    cbn [app dict_comprehension].
  - unfold py_getitem. destruct (dict_get "id" dev) as [v|]; [|reflexivity].
    cbn [res_bind]. destruct Hbad as [[=] | ->]. reflexivity.
  - inversion Hwf as [|? ? [[k Hk] [name Hn]] Hrest]; subst.
    apply id_key_Some in Hk as (v & Hv & Hh). rewrite Hv.
    unfold name_of in Hn. unfold py_getitem in *.
    destruct g; try discriminate. rewrite Hn. cbn [res_bind]. rewrite Hh.
    cbn [res_bind]. now apply IH.
Qed.

(** X21.  The site is checked before any outage is looked at.  A site
    without [devices], or with a device that lacks [id] or [name] after
    devices that have both, makes the call raise [KeyError] whatever the
    outages are; and with a site whose devices all have both, the empty
    list of outages gives the empty list. *)
Theorem filter_and_transform_outages_site_first
    (c : datetime) (outages : json) (site : pydict) :
  fromisoformat cutoff_literal = Ok c ->
  (dict_get "devices" site = None ->
   filter_and_transform_outages outages (JDict site) = Raise KeyError) /\
  (forall good dev more,
     dict_get "devices" site = Some (JList (good ++ JDict dev :: more)) ->
     Forall wf_device good ->
     dict_get "id" dev = None \/ dict_get "name" dev = None ->
     filter_and_transform_outages outages (JDict site) = Raise KeyError) /\
  (forall devices,
     dict_get "devices" site = Some (JList devices) ->
     Forall wf_device devices ->
     filter_and_transform_outages (JList []) (JDict site) = Ok []).
Proof.
  intros Hc. rewrite !filter_and_transform_outages_steps, Hc.
  cbn [res_bind py_getitem]. split; [|split].
  - now intros ->.
  - intros good dev more -> Hwf Hbad. cbn [res_bind py_iter].
    now rewrite dict_comprehension_bad_device.
  - intros devices -> Hwf. cbn [res_bind py_iter].
    destruct (dict_comprehension_total devices ∅ Hwf) as [m ->].
    reflexivity.
Qed.

(** X22.  A [begin] without a timezone is not compared with the cutoff:
    an outage whose [begin] parses as a naive timestamp makes the call
    raise [TypeError], once the outages before it have been handled. *)
Theorem filter_and_transform_outages_naive_begin_raises
    (cutoff : Z) (site_info : json) (devices before rest : list json)
    (d : pydict) (s : string) (t : Z) :
  fromisoformat cutoff_literal = Ok (Aware cutoff) ->
  devices_of site_info = Some devices ->
  Forall wf_device devices ->
  Forall wf_outage before ->
  dict_get "begin" d = Some (JStr s) ->
  fromisoformat s = Ok (Naive t) ->
  filter_and_transform_outages (JList (before ++ JDict d :: rest)) site_info
  = Raise TypeError.
Proof.
  intros Hc Hd Hwd Hwo Hb Hs.
  destruct (filter_and_transform_outages_site cutoff site_info devices Hc Hd Hwd)
    as (m & Hl & Hi & Hf).
  rewrite Hf. apply (list_comprehension_raises cutoff m devices); auto.
  unfold condition, py_getitem. rewrite Hb.
  cbn [res_bind datetime_fromisoformat]. now rewrite Hs.
Qed.

Lemma matching_name_last earlier : forall device later k name,
  id_key device = Some k ->
  name_of device = Some name ->
  Forall (fun dv => id_key dv <> Some k) later ->
  matching_name (earlier ++ device :: later) k = Some name.
Proof.
  induction earlier as [|x earlier IH]; intros device later k name Hk Hn Hl.
  - cbn [app matching_name].
    assert (Hnone : matching_name later k = None).
    { induction Hl as [|dv later Hdv _ IHl]; cbn; [reflexivity|].
      rewrite IHl. now rewrite bool_decide_eq_false_2. }
    rewrite Hnone. now rewrite bool_decide_eq_true_2.
  - cbn [app matching_name]. now rewrite (IH device later k name).
Qed.

(** X23.  When several devices share an id, the last of them gives the
    name: every record of the result with that id carries the name of the
    last device of the site that has the id. *)
Theorem filter_and_transform_outages_last_device
    (outages site_info device name : json) (earlier later out : list json)
    (k : pykey) :
  devices_of site_info = Some (earlier ++ device :: later) ->
  id_key device = Some k ->
  name_of device = Some name ->
  Forall (fun dv => id_key dv <> Some k) later ->
  filter_and_transform_outages outages site_info = Ok out ->
  Forall (fun e => id_key e = Some k -> name_of e = Some name) out.
Proof.
  intros Hd Hk Hn Hlater H.
  destruct (filter_and_transform_outages_inv _ _ _ H)
    as (c & dv & devs & m & items & Hc & Hg & Hi & Hm & Ho & Hl).
  rewrite (devices_of_Some _ _ Hd) in Hg. injection Hg as <-.
  cbn in Hi. injection Hi as <-.
  destruct (device_map_agrees _ _ Hm) as [Hname _].
  destruct (list_comprehension_inv _ _ _ _ Hl) as (kept & _ & Hf).
  clear Hl H. induction Hf as [|o e kept out Hoe _ IH]; constructor; auto.
  destruct Hoe as (d & k' & name' & -> & Hk' & Hn' & ->).
  rewrite id_key_enriched. intros Hke. rewrite Hk' in Hke.
  injection Hke as ->. rewrite Hname in Hn'.
  rewrite (matching_name_last earlier device later k name Hk Hn Hlater) in Hn'.
  injection Hn' as <-. cbn. apply dict_get_set_eq.
Qed.

Lemma dict_set_absent k v d :
  dict_get k d = None -> dict_set k v d = d ++ [(k, v)].
Proof.
  induction d as [|[k' v'] d IH]; cbn; [reflexivity|].
  destruct (String.eqb k k'); [discriminate|]. intros H. now rewrite IH.
Qed.

Lemma dict_set_present k v d :
  is_Some (dict_get k d) -> map fst (dict_set k v d) = map fst d.
Proof.
  induction d as [|[k' v'] d IH]; cbn; [intros [? [=]]|].
  destruct (String.eqb k k'); [reflexivity|]. intros H. cbn. now rewrite IH.
Qed.

(** X24.  Each record of the result keeps the fields of its outage in
    their order: if the outage has no [name], the record is the outage
    with [name] added as its last field; if it has one, the record has the
    same fields in the same order. *)
Theorem filter_and_transform_outages_field_order
    (items : list json) (site_info : json) (out : list json) :
  filter_and_transform_outages (JList items) site_info = Ok out ->
  exists kept,
    sublist kept items /\
    Forall2 (fun o e =>
               exists d d' name,
                 o = JDict d /\ e = JDict d' /\
                 dict_get "name" d' = Some name /\
                 (dict_get "name" d = None -> d' = d ++ [("name", name)]) /\
                 (is_Some (dict_get "name" d) -> map fst d' = map fst d))
            kept out.
Proof.
  intros H.
  destruct (filter_and_transform_outages_inv _ _ _ H)
    as (c & dv & devs & m & items' & _ & _ & _ & _ & Ho & Hl).
  cbn in Ho. injection Ho as <-.
  destruct (list_comprehension_inv _ _ _ _ Hl) as (kept & Hs & Hf).
  exists kept. split; [exact Hs|].
  eapply Forall2_impl; [exact Hf|]. cbn.
  intros o e (d & k & name & -> & _ & _ & ->).
  exists d, (dict_set "name" name d), name.
  split; [reflexivity|]. split; [reflexivity|].
  split; [apply dict_get_set_eq|].
  split; [apply dict_set_absent|apply dict_set_present].
Qed.

End Program.

(* ===================================================================== *)
(** ** Closed examples *)
(* ===================================================================== *)

(** The reference parser on the timestamps of the examples. *)
Example fromisoformat_extended_cutoff :
  fromisoformat_extended cutoff_literal = Ok (Aware 1640995200000000).
Proof. reflexivity. Qed.

Example fromisoformat_extended_offset :
  fromisoformat_extended "2022-06-01T01:00:00+01:00"
  = fromisoformat_extended "2022-06-01T00:00:00+00:00".
Proof. reflexivity. Qed.

Example fromisoformat_extended_naive :
  fromisoformat_extended "2022-06-01T00:00:00" = Ok (Naive 1654041600000000).
Proof. reflexivity. Qed.

Example fromisoformat_extended_rejects :
  fromisoformat_extended "not-a-date" = Raise ValueError.
Proof. reflexivity. Qed.

(** The end-to-end scenario of the specification: of the two outages only
    [d1] is kept, and it gains the name of the device. *)
(** A [for] loop over a [str] runs over its characters, not its bytes: of
    the three bytes of [h], [e-acute] there are two characters. *)
Example py_iter_characters :
  py_iter (JStr (String "h" (String "195" (String "169" EmptyString))))
  = Ok [JStr "h"; JStr (String "195" (String "169" EmptyString))].
Proof. reflexivity. Qed.

Example filter_and_transform_outages_scenario :
  filter_and_transform_outages fromisoformat_extended
    (JList [JDict outage_d1; JDict outage_d2]) (JDict site_fridge)
  = Ok [JDict [("id", JStr "d1");
               ("begin", JStr "2022-06-01T00:00:00+00:00");
               ("name", JStr "Fridge")]].
Proof. vm_compute. reflexivity. Qed.

(** A [begin] without a timezone cannot be ordered against the cutoff. *)
Example filter_and_transform_outages_naive_begin :
  filter_and_transform_outages fromisoformat_extended
    (JList [JDict [("id", JStr "d1"); ("begin", JStr "2022-06-01T00:00:00")]])
    (JDict site_fridge)
  = Raise TypeError.
Proof. vm_compute. reflexivity. Qed.

Example main_scenario :
  exists w,
    main fromisoformat_extended transport_api platform world0 = (Ok tt, w) /\
    sent w = 3%nat /\
    last (trace w) = Some (EvPrint (PText "Process completed successfully!")).
Proof. eexists. split; [vm_compute; reflexivity|]. split; reflexivity. Qed.

(** *** C1 *)

Lemma filter_and_transform_outages_retains_witness :
  let outages :=
    [JDict outage_d1; JDict outage_d2; JDict outage_at_cutoff] in
  let devices := [JDict fridge] in
  fromisoformat_extended cutoff_literal = Ok (Aware 1640995200000000) /\
  devices_of (JDict site_fridge) = Some devices /\
  Forall wf_device devices /\
  Forall (wf_outage fromisoformat_extended) outages /\
  exists out,
    filter_and_transform_outages fromisoformat_extended (JList outages)
      (JDict site_fridge) = Ok out /\
    Forall2 (enriched devices)
      (List.filter
         (retained_spec fromisoformat_extended 1640995200000000 devices)
         outages) out.
Proof.
  intros outages devices.
  assert (Hd : Forall wf_device devices).
  { repeat constructor; eexists; vm_compute; reflexivity. }
  assert (Ho : Forall (wf_outage fromisoformat_extended) outages).
  { repeat constructor; eexists; vm_compute; reflexivity. }
  split; [reflexivity|]. split; [reflexivity|].
  split; [exact Hd|]. split; [exact Ho|].
  exact (proj1 (filter_and_transform_outages_retains fromisoformat_extended
                  1640995200000000 outages (JDict site_fridge) devices
                  eq_refl eq_refl Hd Ho)).
Defined.

(** *** C2 *)

(** The first fetch returns a value, the empty list, and yet [main] stops
    there: the site is never fetched.  And when both fetches return values
    but an outage has a malformed [begin], the transformation raises and
    the post step is never reached. *)
Lemma main_stops_early :
  (let w1 := requested (after world0 opening)
               (request_for "/outages" "GET" JNull) [] in
   get_all_outages transport_empty platform (after world0 opening)
   = (Ok (JList []), w1) /\
   main fromisoformat_extended transport_empty platform world0 = (Ok tt, w1) /\
   ~ In fetching_site_info (trace w1) /\
   requests_of (trace w1) = [request_for "/outages" "GET" JNull]) /\
  (exists w',
     main fromisoformat_extended transport_malformed platform world0
     = (Raise ValueError, w') /\
     last (trace w') = Some filtering /\
     requests_of (trace w')
     = [request_for "/outages" "GET" JNull;
        request_for "/site-info/norwich-pear-tree" "GET" JNull]).
Proof.
  split.
  - cbv zeta. split; [vm_compute; reflexivity|].
    split; [vm_compute; reflexivity|].
    split; [|vm_compute; reflexivity].
    cbn. intros [H|[H|[H|[]]]]; discriminate H.
  - eexists. split; [vm_compute; reflexivity|]. split; reflexivity.
Qed.

Lemma main_stages_witness :
  let v1 := JList [JDict outage_d1; JDict outage_d2] in
  let w1 := requested (after world0 opening)
              (request_for "/outages" "GET" JNull) [] in
  get_all_outages transport_api platform (after world0 opening) = (Ok v1, w1) /\
  exists x w',
    main fromisoformat_extended transport_api platform world0 = (x, w') /\
    exists evs,
      trace w' = trace w1 ++ outages_report [JDict outage_d1; JDict outage_d2]
                 ++ evs.
Proof.
  intros v1 w1.
  assert (H1 : get_all_outages transport_api platform (after world0 opening)
               = (Ok v1, w1)) by (vm_compute; reflexivity).
  split; [exact H1|].
  destruct (main_stages fromisoformat_extended transport_api platform world0 v1 w1 H1)
    as (x & w' & E & _ & H).
  exists x, w'. split; [exact E|].
  exact (proj1 (H _ eq_refl ltac:(discriminate))).
Defined.

(** *** C3 *)

(** C3.  The network is down: the first attempt raises
    [requests.ConnectionError], the [RequestException] handler reads the
    local [response], which no statement has assigned yet, and
    [UnboundLocalError] leaves [fetch_data] after one request. *)
Theorem fetch_data_network_down_raises :
  fetch_data transport_down platform "/outages" "GET" JNull 5 (1 # 2) world0
  = (Raise UnboundLocalError,
     requested world0 (request_for "/outages" "GET" JNull)
       [EvLog ERROR "Request error: {e}" [ArgExn ConnectionError]]).
Proof. vm_compute. reflexivity. Qed.

(** *** C4 *)

Lemma filter_and_transform_outages_raises_on_malformed :
  filter_and_transform_outages fromisoformat_extended
    (JList [JDict outage_malformed]) (JDict site_fridge)
  = Raise ValueError.
Proof. vm_compute. reflexivity. Qed.

Lemma filter_and_transform_outages_malformed_begin_witness :
  let devices := [JDict fridge] in
  fromisoformat_extended cutoff_literal = Ok (Aware 1640995200000000) /\
  devices_of (JDict site_fridge) = Some devices /\
  Forall wf_device devices /\
  Forall (wf_outage fromisoformat_extended) [JDict outage_d1] /\
  dict_get "begin" outage_malformed = Some (JStr "not-a-date") /\
  fromisoformat_extended "not-a-date" = Raise ValueError /\
  (exists out,
     filter_and_transform_outages fromisoformat_extended
       (JList [JDict outage_d1]) (JDict site_fridge) = Ok out) /\
  filter_and_transform_outages fromisoformat_extended
    (JList ([JDict outage_d1] ++ JDict outage_malformed :: [JDict outage_d2]))
    (JDict site_fridge)
  = Raise ValueError.
Proof.
  intros devices.
  assert (Hd : Forall wf_device devices).
  { repeat constructor; eexists; vm_compute; reflexivity. }
  assert (Ho : Forall (wf_outage fromisoformat_extended) [JDict outage_d1]).
  { repeat constructor; eexists; vm_compute; reflexivity. }
  split; [reflexivity|]. split; [reflexivity|].
  split; [exact Hd|]. split; [exact Ho|].
  split; [reflexivity|]. split; [reflexivity|].
  exact (filter_and_transform_outages_malformed_begin fromisoformat_extended
           1640995200000000 (JDict site_fridge) devices [JDict outage_d1]
           [JDict outage_d2] outage_malformed "not-a-date"
           eq_refl eq_refl Hd Ho eq_refl eq_refl).
Defined.

(** *** C5 *)

Lemma fetch_data_429_backoff_witness :
  let req := request_for "/outages" "GET" JNull in
  let wait := backoff_wait (1 # 2) in
  let run := fetch_data transport_429_429_429_200 platform
               "/outages" "GET" JNull 5 (1 # 2) world0 in
  run = (fst run, snd run) /\
  (sent world0 + 1 < sent (snd run))%nat /\
  transport_429_429_429_200 (sent world0 + 1)%nat req
  = Returns (reply 429 [] None) /\
  can_wait platform (1 # 2) 1 = true /\
  (exists before rest,
     new_events world0 (snd run)
     = before
       ++ EvRequest req :: rate_limit_warning (wait 1%nat)
          :: EvSleep (wait 1%nat) :: rest /\
     requests_of before = repeat req 1 /\
     (Z.of_nat 2 < 5 -> exists rest', rest = EvRequest req :: rest') /\
     (Z.of_nat 2 = 5 -> rest = [] /\ fst run = Ok JNull)) /\
  forallb (can_wait platform (1 # 2)) (seq 0 3) = true /\
  exists w',
    fetch_data transport_429_429_429_200 platform "/outages" "GET" JNull 5
      (1 # 2) world0 = (Ok (JStr "payload"), w') /\
    sent w' = 4%nat /\
    sleeps_of (new_events world0 w')
    = [((1 # 2) * inject_Z 1)%Q; ((1 # 2) * inject_Z 2)%Q;
       ((1 # 2) * inject_Z 4)%Q].
Proof.
  intros req wait run.
  assert (H : run = (fst run, snd run)) by (vm_compute; reflexivity).
  assert (Hi : (sent world0 + 1 < sent (snd run))%nat)
    by (vm_compute; lia).
  assert (H1 : can_wait platform (1 # 2) 1 = true)
    by (vm_compute; reflexivity).
  assert (Hall : forall i, (i < 3)%nat -> can_wait platform (1 # 2) i = true).
  { intros [|[|[|i]]] Hlt; [vm_compute; reflexivity..|lia]. }
  split; [exact H|]. split; [exact Hi|]. split; [reflexivity|].
  split; [exact H1|].
  split.
  - exact (proj1 (fetch_data_429_backoff transport_429_429_429_200 platform
                    "/outages" "GET" JNull 5 (1 # 2) world0)
             1%nat (reply 429 [] None) (fst run) (snd run)
             H Hi eq_refl eq_refl H1).
  - split; [vm_compute; reflexivity|].
    exact (proj2 (fetch_data_429_backoff transport_429_429_429_200 platform
                    "/outages" "GET" JNull 5 (1 # 2) world0)
             (reply 429 [] None) (reply 429 [] None)
             (reply 429 [] None) (reply 200 [] (Some (JStr "payload")))
             (JStr "payload") ltac:(lia)
             eq_refl eq_refl eq_refl eq_refl eq_refl eq_refl eq_refl eq_refl
             eq_refl Hall).
Defined.

(** The claim as it stands fails where the wait is no length that
    [time.sleep] takes.  Against a server that always answers 429, with
    36 attempts and the default backoff of half a second, attempt 35 is
    made and answered 429, but [0.5 * 2 ** 35] seconds are more than
    [2 ** 63] nanoseconds: there are the 35 sleeps of the attempts before
    and no other, and [OverflowError] leaves the function.  With a
    backoff of [1e10] seconds the transport that answers 429 three times
    and then 200 is asked once: the first 429 ends the call with
    [OverflowError], no sleep and no payload.  With a backoff of minus
    half a second the first 429 ends the call with [ValueError] and no
    sleep. *)
Lemma fetch_data_429_unslept :
  let req := request_for "/outages" "GET" JNull in
  let run := fetch_data transport_busy platform "/outages" "GET" JNull 36
               (1 # 2) world0 in
  let run' := fetch_data transport_429_429_429_200 platform "/outages" "GET"
                JNull 5 (inject_Z (10 ^ 10)) world0 in
  let run'' := fetch_data transport_busy platform "/outages" "GET" JNull 5
                 (- (1 # 2)) world0 in
  (transport_busy 35%nat req = Returns (reply 429 [] None) /\
   requests_of (trace (snd run)) = repeat req 36 /\
   sleeps_of (trace (snd run)) = map (backoff_wait (1 # 2)) (seq 0 35) /\
   fst run = Raise OverflowError) /\
  (transport_429_429_429_200 0%nat req = Returns (reply 429 [] None) /\
   requests_of (trace (snd run')) = [req] /\
   sleeps_of (trace (snd run')) = [] /\
   fst run' = Raise OverflowError) /\
  (transport_busy 0%nat req = Returns (reply 429 [] None) /\
   requests_of (trace (snd run'')) = [req] /\
   sleeps_of (trace (snd run'')) = [] /\
   fst run'' = Raise ValueError).
Proof. vm_compute. repeat split. Qed.

(** On a platform that refuses long sleeps the refusal leaves the
    function like any other exception of [time.sleep]: with the default
    backoff the wait of attempt 28 is the first of more than a hundred
    million seconds. *)
Example fetch_data_sleep_refused :
  let run := fetch_data transport_busy platform_short "/outages" "GET" JNull
               40 (1 # 2) world0 in
  fst run = Raise OSError /\
  sent (snd run) = 29%nat /\
  sleeps_of (trace (snd run)) = map (backoff_wait (1 # 2)) (seq 0 28).
Proof. vm_compute. repeat split. Qed.

(** With a backoff of [0.0] every wait is zero seconds, but from attempt
    1024 on the power of two no longer converts to a float: the 1025th
    request is the last, and [OverflowError] leaves the function before
    the warning is logged. *)
Example fetch_data_power_overflow :
  let run := fetch_data transport_busy platform "/outages" "GET" JNull 1030
               0 world0 in
  fst run = Raise OverflowError /\
  sent (snd run) = 1025%nat /\
  length (sleeps_of (trace (snd run))) = 1024%nat /\
  last (trace (snd run))
  = Some (EvRequest (request_for "/outages" "GET" JNull)).
Proof. vm_compute. repeat split. Qed.

(** A body for which [json()] raises something that is no
    [RequestException]: the exception leaves the function. *)
Example fetch_data_json_value_error :
  let r := {| status_code := 200; content := [Byte.x31]; json_body := None;
              json_error := ValueError |} in
  fetch_data (fun _ _ => Returns r) platform "/outages" "GET" JNull 5 (1 # 2)
    world0
  = (Raise ValueError, requested world0 (request_for "/outages" "GET" JNull) []).
Proof. reflexivity. Qed.

(** *** C6 *)

(** C6.  A 400 whose body is the single byte [0xFF]: building the log line
    decodes the body as UTF-8, which fails, and [UnicodeDecodeError]
    leaves [fetch_data] (after one request and no sleep) where the claim
    has it return [None]. *)
Theorem fetch_data_400_undecodable_raises :
  fetch_data transport_400_latin1 platform "/outages" "GET" JNull 5 (1 # 2) world0
  = (Raise UnicodeDecodeError,
     requested world0 (request_for "/outages" "GET" JNull) []).
Proof. vm_compute. reflexivity. Qed.

(** With a body that is UTF-8 the 400 does end the call with [None],
    after one request and no sleep. *)
Example fetch_data_400_decodable :
  fetch_data transport_400 platform "/outages" "GET" JNull 5 (1 # 2) world0
  = (Ok JNull,
     requested world0 (request_for "/outages" "GET" JNull)
       [EvLog ERROR
          "Bad Request. Server Response: {response.content.decode('utf-8')}"
          [ArgText "Bad"]]).
Proof. vm_compute. reflexivity. Qed.

(** *** C7 *)

(** C7.  Every attempt fails, the network being down, and [retries] is 5;
    [fetch_data] makes one attempt, not five, and does not return [None]:
    it raises. *)
Theorem fetch_data_network_down_one_attempt :
  exists w',
    fetch_data transport_down platform "/outages" "GET" JNull 5 (1 # 2) world0
    = (Raise UnboundLocalError, w') /\
    sent w' = 1%nat /\
    requests_of (trace w') = [request_for "/outages" "GET" JNull].
Proof. eexists. split; [vm_compute; reflexivity|]. split; reflexivity. Qed.

(** When every attempt times out, the five attempts are made and [None]
    comes back. *)
Example fetch_data_always_timeout :
  exists w',
    fetch_data transport_timeout platform "/outages" "GET" JNull 5 (1 # 2) world0
    = (Ok JNull, w') /\
    sent w' = 5%nat /\
    requests_of (new_events world0 w')
    = repeat (request_for "/outages" "GET" JNull) 5.
Proof.
  apply (fetch_data_exhausts transport_timeout platform); [discriminate|].
  reflexivity.
Qed.

(** *** C8 *)

Lemma filter_and_transform_outages_adds_name_witness :
  let outages := JList [JDict outage_d1; JDict outage_d2; JDict outage_at_cutoff] in
  let out := [JDict (dict_set "name" (JStr "Fridge") outage_d1);
              JDict (dict_set "name" (JStr "Fridge") outage_at_cutoff)] in
  devices_of (JDict site_fridge) = Some [JDict fridge] /\
  filter_and_transform_outages fromisoformat_extended outages
    (JDict site_fridge) = Ok out /\
  Forall (fun l => (l < next store_sample)%nat) [1%nat; 2%nat] /\
  forall r st',
    filter_and_transform_outages_st fromisoformat_extended [1%nat; 2%nat]
      0%nat store_sample = (r, st') ->
    (forall l, (l < next store_sample)%nat ->
               cells st' l = cells store_sample l) /\
    match r with
    | Ok ls =>
        Forall (fun l => (next store_sample <= l < next st')%nat) ls /\
        filter_and_transform_outages fromisoformat_extended
          (JList (values store_sample [1%nat; 2%nat]))
          (JDict (cells store_sample 0%nat)) = Ok (values st' ls)
    | Raise e =>
        filter_and_transform_outages fromisoformat_extended
          (JList (values store_sample [1%nat; 2%nat]))
          (JDict (cells store_sample 0%nat)) = Raise e
    end.
Proof.
  intros outages out.
  assert (Hf : filter_and_transform_outages fromisoformat_extended outages
                 (JDict site_fridge) = Ok out) by (vm_compute; reflexivity).
  assert (Hv : Forall (fun l => (l < next store_sample)%nat) [1%nat; 2%nat]).
  { repeat constructor; cbn; lia. }
  split; [reflexivity|]. split; [exact Hf|]. split; [exact Hv|].
  exact (proj2 (filter_and_transform_outages_adds_name fromisoformat_extended
                  outages (JDict site_fridge) [JDict fridge] out
                  [1%nat; 2%nat] 0%nat store_sample eq_refl Hf Hv)).
Defined.

(** The record built from an outage that already has a [name] keeps the
    field where it was, with the device's name in it. *)
Example filter_and_transform_outages_overwrites_name :
  filter_and_transform_outages fromisoformat_extended
    (JList [JDict outage_at_cutoff]) (JDict site_fridge)
  = Ok [JDict [("id", JStr "d1"); ("begin", JStr "2022-01-01T00:00:00.000Z");
               ("end", JStr "2022-01-02T00:00:00.000Z");
               ("name", JStr "Fridge")]].
Proof. vm_compute. reflexivity. Qed.

(** *** C9 *)

Lemma filter_and_transform_outages_idempotent_witness :
  let outages := JList [JDict outage_d1; JDict outage_d2] in
  let out := [JDict (dict_set "name" (JStr "Fridge") outage_d1)] in
  filter_and_transform_outages fromisoformat_extended outages
    (JDict site_fridge) = Ok out /\
  filter_and_transform_outages fromisoformat_extended (JList out)
    (JDict site_fridge) = Ok out.
Proof.
  intros outages out.
  assert (Hf : filter_and_transform_outages fromisoformat_extended outages
                 (JDict site_fridge) = Ok out) by (vm_compute; reflexivity).
  split; [exact Hf|].
  exact (proj1 (filter_and_transform_outages_idempotent fromisoformat_extended
                  outages (JDict site_fridge) out Hf)).
Defined.

(* ===================================================================== *)
(** ** Closed examples for the further properties *)
(* ===================================================================== *)

Lemma fetch_data_requests_witness :
  let run :=
    fetch_data transport_flaky platform "/outages" "GET" JNull 5 (1 # 2) world0 in
  run = (fst run, snd run) /\
  exists k,
    (k <= 5)%nat /\
    sent (snd run) = (0 + k)%nat /\
    requests_of (new_events world0 (snd run))
    = repeat {| req_method := "GET";
                req_url := String.append BASE_URL "/outages";
                req_headers := [("x-api-key", API_KEY)];
                req_json := JNull;
                req_timeout := 10 |} k.
Proof.
  intros run.
  assert (H : run = (fst run, snd run)) by (vm_compute; reflexivity).
  split; [exact H|].
  exact (fetch_data_requests transport_flaky platform "/outages" "GET" JNull 5 (1 # 2)
           world0 (fst run) (snd run) H).
Defined.

Lemma fetch_data_sleeps_witness :
  let run :=
    fetch_data transport_429_429_429_200 platform "/outages" "GET" JNull 5 (1 # 2)
      world0 in
  run = (fst run, snd run) /\
  sublist (sleeps_of (new_events world0 (snd run)))
    (map (backoff_wait (1 # 2)) (seq 0 5)).
Proof.
  intros run.
  assert (H : run = (fst run, snd run)) by (vm_compute; reflexivity).
  split; [exact H|].
  exact (proj1 (proj2 (fetch_data_sleeps transport_429_429_429_200 platform "/outages"
                         "GET" JNull 5 (1 # 2) world0 (fst run) (snd run) H))).
Defined.

Lemma fetch_data_total_sleep_witness :
  let run :=
    fetch_data transport_busy platform "/outages" "GET" JNull 5 (1 # 2) world0 in
  Qle 0 (1 # 2) /\
  run = (fst run, snd run) /\
  (total (sleeps_of (new_events world0 (snd run)))
   <= (1 # 2) * inject_Z (2 ^ Z.of_nat (Z.to_nat 5) - 1))%Q.
Proof.
  intros run.
  assert (Hb : Qle 0 (1 # 2)) by discriminate.
  assert (H : run = (fst run, snd run)) by (vm_compute; reflexivity).
  split; [exact Hb|]. split; [exact H|].
  exact (fetch_data_total_sleep transport_busy platform "/outages" "GET" JNull 5
           (1 # 2) world0 (fst run) (snd run) Hb H).
Defined.

Lemma fetch_data_result_witness :
  let run :=
    fetch_data transport_flaky platform "/outages" "GET" JNull 5 (1 # 2) world0 in
  run = (Ok (JStr "payload"), snd run) /\
  (JStr "payload" = JNull \/
   exists j r,
     (j < Z.to_nat 5)%nat /\
     transport_flaky (sent world0 + j)%nat (request_for "/outages" "GET" JNull)
     = Returns r /\
     json_body r = Some (JStr "payload") /\
     ~ (400 <= status_code r < 600)).
Proof.
  intros run.
  assert (H : run = (Ok (JStr "payload"), snd run)) by (vm_compute; reflexivity).
  split; [exact H|].
  exact (fetch_data_result transport_flaky platform "/outages" "GET" JNull 5 (1 # 2)
           world0 (JStr "payload") (snd run) H).
Defined.

Lemma follows_failures_sample r :
  follows (fun n _ => nth n failures_sample (Returns r)) world0
    (request_for "/outages" "GET" JNull) (failures_sample ++ [Returns r]).
Proof.
  intros j o H. cbn [sent world0 Nat.add].
  destruct j as [|[|[|[|j]]]]; cbn in H; try discriminate;
    now injection H as <-.
Defined.

Lemma fetch_data_absorbs_witness :
  slept platform (1 # 2) (repeat (Returns (reply 429 [] None)) 5) /\
  follows transport_busy world0 (request_for "/outages" "GET" JNull)
    (repeat (Returns (reply 429 [] None)) 5) /\
  absorbs false (repeat (Returns (reply 429 [] None)) 5) = true /\
  exists w',
    fetch_data transport_busy platform "/outages" "GET" JNull 5 (1 # 2) world0
    = (Ok JNull, w') /\
    sent w' = (sent world0 + Z.to_nat 5)%nat /\
    requests_of (new_events world0 w')
    = repeat (request_for "/outages" "GET" JNull) (Z.to_nat 5).
Proof.
  assert (Hb : slept platform (1 # 2) (repeat (Returns (reply 429 [] None)) 5)).
  { intros j r H _. destruct j as [|[|[|[|[|j]]]]];
      [vm_compute; reflexivity..|discriminate H]. }
  assert (Hf : follows transport_busy world0
                 (request_for "/outages" "GET" JNull)
                 (repeat (Returns (reply 429 [] None)) 5)).
  { intros j o H. destruct j as [|[|[|[|[|j]]]]]; cbn in H;
      try discriminate; now injection H as <-. }
  split; [exact Hb|]. split; [exact Hf|]. split; [reflexivity|].
  exact (fetch_data_absorbs transport_busy platform "/outages" "GET" JNull 5
           (1 # 2) world0 (repeat (Returns (reply 429 [] None)) 5)
           Hb Hf eq_refl eq_refl).
Defined.

Lemma fetch_data_retries_until_success_witness :
  slept platform (1 # 2) failures_sample /\
  absorbs false failures_sample = true /\
  exists w',
    fetch_data transport_flaky platform "/outages" "GET" JNull 5 (1 # 2) world0
    = (Ok (JStr "payload"), w') /\
    sent w' = (sent world0 + 4)%nat /\
    requests_of (new_events world0 w')
    = repeat (request_for "/outages" "GET" JNull) 4.
Proof.
  assert (Hb : slept platform (1 # 2) failures_sample).
  { intros j r H _. destruct j as [|[|[|j]]];
      [vm_compute; reflexivity..|discriminate H]. }
  split; [exact Hb|]. split; [reflexivity|].
  exact (fetch_data_retries_until_success transport_flaky platform "/outages" "GET"
           JNull 5 (1 # 2) world0 failures_sample
           (reply 200 [] (Some (JStr "payload"))) (JStr "payload") Hb
           (follows_failures_sample _) ltac:(cbn; lia) eq_refl
           (conj eq_refl eq_refl)).
Defined.

Lemma fetch_data_retries_until_400_witness :
  slept platform (1 # 2) failures_sample /\
  absorbs false failures_sample = true /\
  exists w',
    fetch_data transport_flaky_400 platform "/outages" "GET" JNull 5 (1 # 2) world0
    = (Ok JNull, w') /\
    sent w' = (sent world0 + 4)%nat /\
    requests_of (new_events world0 w')
    = repeat (request_for "/outages" "GET" JNull) 4.
Proof.
  assert (Hb : slept platform (1 # 2) failures_sample).
  { intros j r H _. destruct j as [|[|[|j]]];
      [vm_compute; reflexivity..|discriminate H]. }
  split; [exact Hb|]. split; [reflexivity|].
  exact (fetch_data_retries_until_400 transport_flaky_400 platform "/outages" "GET"
           JNull 5 (1 # 2) world0 failures_sample
           (reply 400 [Byte.x42; Byte.x61; Byte.x64] None) "Bad" Hb
           (follows_failures_sample _) ltac:(cbn; lia) eq_refl
           eq_refl eq_refl).
Defined.

Lemma fetch_data_negative_backoff_witness :
  let req := request_for "/outages" "GET" JNull in
  (- (1 # 2) < 0)%Q /\
  (inject_Z (- 2 ^ 1024) < - (1 # 2))%Q /\
  (inject_Z (- (2 ^ 63 + 1024)) <= - (1 # 2) * inject_Z (10 ^ 9))%Q /\
  fetch_data transport_busy platform "/outages" "GET" JNull 5 (- (1 # 2)) world0
  = (Raise ValueError,
     requested world0 req [rate_limit_warning (backoff_wait (- (1 # 2)) 0)]) /\
  (- inject_Z (10 ^ 10) < 0)%Q /\
  (inject_Z (- 2 ^ 1024) < - inject_Z (10 ^ 10))%Q /\
  (- inject_Z (10 ^ 10) * inject_Z (10 ^ 9) < inject_Z (- (2 ^ 63 + 1024)))%Q /\
  fetch_data transport_busy platform "/outages" "GET" JNull 5
    (- inject_Z (10 ^ 10)) world0
  = (Raise OverflowError,
     requested world0 req
       [rate_limit_warning (backoff_wait (- inject_Z (10 ^ 10)) 0)]).
Proof.
  intros req.
  assert (Hb : (- (1 # 2) < 0)%Q) by reflexivity.
  assert (Hlo : (inject_Z (- 2 ^ 1024) < - (1 # 2))%Q) by reflexivity.
  assert (Hns : (inject_Z (- (2 ^ 63 + 1024))
                 <= - (1 # 2) * inject_Z (10 ^ 9))%Q) by discriminate.
  assert (Hb' : (- inject_Z (10 ^ 10) < 0)%Q) by reflexivity.
  assert (Hlo' : (inject_Z (- 2 ^ 1024) < - inject_Z (10 ^ 10))%Q)
    by reflexivity.
  assert (Hns' : (- inject_Z (10 ^ 10) * inject_Z (10 ^ 9)
                  < inject_Z (- (2 ^ 63 + 1024)))%Q) by reflexivity.
  split; [exact Hb|]. split; [exact Hlo|]. split; [exact Hns|].
  split.
  { exact (proj1 (fetch_data_negative_backoff transport_busy platform
                    "/outages" "GET" JNull 5 (- (1 # 2)) world0
                    (reply 429 [] None) Hb Hlo ltac:(lia) eq_refl eq_refl)
             Hns). }
  split; [exact Hb'|]. split; [exact Hlo'|]. split; [exact Hns'|].
  exact (proj2 (fetch_data_negative_backoff transport_busy platform
                  "/outages" "GET" JNull 5 (- inject_Z (10 ^ 10)) world0
                  (reply 429 [] None) Hb' Hlo' ltac:(lia) eq_refl eq_refl)
           Hns').
Defined.

Lemma fetch_data_nonpositive_retries_witness :
  -3 <= 0 /\
  fetch_data transport_api platform "/outages" "GET" JNull (-3) (1 # 2) world0
  = (Ok JNull, world0).
Proof.
  split; [lia|].
  exact (fetch_data_nonpositive_retries transport_api platform "/outages" "GET" JNull
           (-3) (1 # 2) world0 ltac:(lia)).
Defined.

Lemma fetch_data_no_exception_witness :
  let req := request_for "/outages" "GET" JNull in
  forallb (can_wait platform (1 # 2)) (seq 0 5) = true /\
  forallb (fun k => guarded (transport_429_429_429_200 (sent world0 + k)%nat req))
    (seq 0 5) = true /\
  exists v w',
    fetch_data transport_429_429_429_200 platform "/outages" "GET" JNull 5
      (1 # 2) world0
    = (Ok v, w') /\
    (sent w' <= sent world0 + Z.to_nat 5)%nat.
Proof.
  intros req.
  assert (Hb : forall j r, (j < Z.to_nat 5)%nat ->
            transport_429_429_429_200 (sent world0 + j)%nat req = Returns r ->
            status_code r = 429 ->
            can_wait platform (1 # 2) j = true).
  { intros j r Hj _ _. destruct j as [|[|[|[|[|j]]]]];
      [vm_compute; reflexivity..|cbn in Hj; lia]. }
  assert (Hg : forall k, (k < Z.to_nat 5)%nat ->
            guarded (transport_429_429_429_200 (sent world0 + k)%nat req)
            = true).
  { intros k Hk. destruct k as [|[|[|[|[|k]]]]];
      [reflexivity..|cbn in Hk; lia]. }
  split; [vm_compute; reflexivity|]. split; [reflexivity|].
  exact (fetch_data_no_exception transport_429_429_429_200 platform
           "/outages" "GET" JNull 5 (1 # 2) world0 Hb Hg).
Defined.

Lemma wrappers_requests_witness :
  let run1 := get_all_outages transport_api platform world0 in
  let run2 := get_site_info transport_api platform "norwich-pear-tree" world0 in
  run1 = (fst run1, snd run1) /\
  run2 = (fst run2, snd run2) /\
  exists k,
    (1 <= k <= 5)%nat /\
    requests_of (new_events world0 (snd run2))
    = repeat {| req_method := "GET";
                req_url :=
                  String.append BASE_URL
                    (String.append "/site-info/" "norwich-pear-tree");
                req_headers := [("x-api-key", API_KEY)];
                req_json := JNull;
                req_timeout := 10 |} k.
Proof.
  intros run1 run2.
  assert (H1 : run1 = (fst run1, snd run1)) by (vm_compute; reflexivity).
  assert (H2 : run2 = (fst run2, snd run2)) by (vm_compute; reflexivity).
  split; [exact H1|]. split; [exact H2|].
  exact (proj2 (wrappers_requests transport_api platform "norwich-pear-tree"
                  world0 (fst run1) (snd run1) world0 (fst run2) (snd run2)
                  H1 H2)).
Defined.

Lemma post_site_outages_requests_witness :
  let outages := [JDict outage_d1] in
  let run := post_site_outages transport_flaky platform "norwich-pear-tree" outages
               world0 in
  run = (fst run, snd run) /\
  outages <> [] /\
  exists k evs,
    (1 <= k <= 5)%nat /\
    trace (snd run)
    = trace world0
      ++ EvRequest
           (request_for (String.append "/site-outages/" "norwich-pear-tree")
              "POST" (JList outages)) :: evs /\
    requests_of (new_events world0 (snd run))
    = repeat
        (request_for (String.append "/site-outages/" "norwich-pear-tree")
           "POST" (JList outages)) k.
Proof.
  intros outages run.
  assert (H : run = (fst run, snd run)) by (vm_compute; reflexivity).
  assert (Hne : outages <> []) by discriminate.
  split; [exact H|]. split; [exact Hne|].
  exact (proj2 (post_site_outages_requests transport_flaky platform "norwich-pear-tree"
                  outages world0 (fst run) (snd run) H) Hne).
Defined.

Lemma post_site_outages_acknowledged_witness :
  let outages := [JDict outage_d1] in
  let req := request_for (String.append "/site-outages/" "norwich-pear-tree")
               "POST" (JList outages) in
  outages <> [] /\
  transport_empty_ack (sent world0) req = Returns (reply 200 [] (Some (JDict []))) /\
  succeeds (reply 200 [] (Some (JDict []))) (JDict []) /\
  post_site_outages transport_empty_ack platform "norwich-pear-tree" outages world0
  = (Ok (JDict []),
     requested world0 req [EvLog ERROR "Failed to post the outages." []]).
Proof.
  intros outages req.
  assert (Hne : outages <> []) by discriminate.
  assert (Hs : succeeds (reply 200 [] (Some (JDict []))) (JDict []))
    by (split; reflexivity).
  split; [exact Hne|]. split; [reflexivity|]. split; [exact Hs|].
  exact (post_site_outages_acknowledged transport_empty_ack platform
           "norwich-pear-tree" outages world0 _ _ Hne eq_refl Hs).
Defined.

Lemma main_posts_transformed_witness :
  let out := [JDict (dict_set "name" (JStr "Fridge") outage_d1)] in
  filter_and_transform_outages fromisoformat_extended
    (JList [JDict outage_d1; JDict outage_d2]) (JDict site_fridge) = Ok out /\
  exists w',
    main fromisoformat_extended transport_api platform world0 = (Ok tt, w') /\
    requests_of (new_events world0 w')
    = [request_for "/outages" "GET" JNull;
       request_for "/site-info/norwich-pear-tree" "GET" JNull;
       request_for "/site-outages/norwich-pear-tree" "POST" (JList out)] /\
    last (trace w') = Some (EvPrint (PText "Process completed successfully!")).
Proof.
  intros out.
  assert (Hf : filter_and_transform_outages fromisoformat_extended
                 (JList [JDict outage_d1; JDict outage_d2]) (JDict site_fridge)
               = Ok out) by (vm_compute; reflexivity).
  split; [exact Hf|].
  exact (main_posts_transformed fromisoformat_extended transport_api platform world0
           (reply 200 [] (Some (JList [JDict outage_d1; JDict outage_d2])))
           [JDict outage_d1; JDict outage_d2]
           (reply 200 [] (Some (JDict site_fridge))) (JDict site_fridge)
           out
           (reply 200 [] (Some (JDict [("ok", JBool true)])))
           (JDict [("ok", JBool true)])
           eq_refl (conj eq_refl eq_refl) ltac:(discriminate)
           eq_refl (conj eq_refl eq_refl) eq_refl
           Hf ltac:(discriminate)
           eq_refl (conj eq_refl eq_refl) eq_refl).
Defined.

Lemma main_nothing_retained_witness :
  let v1 := JList [JDict outage_d2] in
  let w1 := requested (after world0 opening)
              (request_for "/outages" "GET" JNull) [] in
  let w2 := requested (after w1 (outages_report [JDict outage_d2]))
              (request_for "/site-info/norwich-pear-tree" "GET" JNull) [] in
  get_all_outages transport_old platform (after world0 opening) = (Ok v1, w1) /\
  filter_and_transform_outages fromisoformat_extended v1 (JDict site_fridge)
  = Ok [] /\
  main fromisoformat_extended transport_old platform world0
  = (Ok tt,
     after w2 (site_report (JDict site_fridge) ++ processed_report []
               ++ [nothing_to_post])).
Proof.
  intros v1 w1 w2.
  assert (H1 : get_all_outages transport_old platform (after world0 opening)
               = (Ok v1, w1)) by (vm_compute; reflexivity).
  assert (Hf : filter_and_transform_outages fromisoformat_extended v1
                 (JDict site_fridge) = Ok []) by (vm_compute; reflexivity).
  split; [exact H1|]. split; [exact Hf|].
  exact (proj1 (main_nothing_retained fromisoformat_extended transport_old platform
                  world0 v1 w1 [JDict outage_d2] (JDict site_fridge) w2
                  H1 eq_refl eq_refl ltac:(vm_compute; reflexivity) eq_refl Hf)).
Defined.

Lemma main_outages_not_iterable_witness :
  let w1 := requested (after world0 opening)
              (request_for "/outages" "GET" JNull) [] in
  get_all_outages transport_number platform (after world0 opening) = (Ok (JNum 5), w1) /\
  main fromisoformat_extended transport_number platform world0
  = (Raise TypeError,
     after w1 [EvLog INFO "Fetched all outages successfully." [];
               EvPrint (PText (String "010" "Outages Data:"))]).
Proof.
  intros w1.
  assert (H1 : get_all_outages transport_number platform (after world0 opening)
               = (Ok (JNum 5), w1)) by (vm_compute; reflexivity).
  split; [exact H1|].
  exact (proj2 (main_outages_not_iterable fromisoformat_extended
                  transport_number platform world0 (JNum 5) w1 TypeError
                  H1 eq_refl eq_refl)).
Defined.

Lemma main_sends_at_most_15_witness :
  let run := main fromisoformat_extended transport_busy platform world0 in
  run = (fst run, snd run) /\
  (sent world0 <= sent (snd run))%nat /\ (sent (snd run) <= sent world0 + 15)%nat.
Proof.
  intros run.
  assert (H : run = (fst run, snd run)) by (vm_compute; reflexivity).
  split; [exact H|].
  exact (main_sends_at_most_15 fromisoformat_extended transport_busy platform world0
           (fst run) (snd run) H).
Defined.

Lemma filter_and_transform_outages_bounded_witness :
  let items := [JDict outage_d1; JDict outage_d2; JDict outage_at_cutoff] in
  let out := [JDict (dict_set "name" (JStr "Fridge") outage_d1);
              JDict (dict_set "name" (JStr "Fridge") outage_at_cutoff)] in
  devices_of (JDict site_fridge) = Some [JDict fridge] /\
  filter_and_transform_outages fromisoformat_extended (JList items)
    (JDict site_fridge) = Ok out /\
  (length out <= length items)%nat.
Proof.
  intros items out.
  assert (Hf : filter_and_transform_outages fromisoformat_extended
                 (JList items) (JDict site_fridge) = Ok out)
    by (vm_compute; reflexivity).
  split; [reflexivity|]. split; [exact Hf|].
  exact (proj1 (filter_and_transform_outages_bounded fromisoformat_extended
                  items (JDict site_fridge) [JDict fridge] out eq_refl Hf)).
Defined.

Lemma filter_and_transform_outages_missing_id_witness :
  fromisoformat_extended cutoff_literal = Ok (Aware 1640995200000000) /\
  Forall wf_device [JDict fridge] /\
  Forall (wf_outage fromisoformat_extended) [JDict outage_d1] /\
  fromisoformat_extended "2021-01-01T00:00:00+00:00"
  = Ok (Aware 1609459200000000) /\
  dict_get "id" outage_no_id = None /\
  filter_and_transform_outages fromisoformat_extended
    (JList ([JDict outage_d1] ++ JDict outage_no_id :: [JDict outage_d2]))
    (JDict site_fridge)
  = filter_and_transform_outages fromisoformat_extended
      (JList ([JDict outage_d1] ++ [JDict outage_d2])) (JDict site_fridge).
Proof.
  assert (Hd : Forall wf_device [JDict fridge]).
  { repeat constructor; eexists; vm_compute; reflexivity. }
  assert (Ho : Forall (wf_outage fromisoformat_extended) [JDict outage_d1]).
  { repeat constructor; eexists; vm_compute; reflexivity. }
  split; [reflexivity|]. split; [exact Hd|]. split; [exact Ho|].
  split; [reflexivity|]. split; [reflexivity|].
  exact (proj1 (filter_and_transform_outages_missing_id fromisoformat_extended
                  1640995200000000 (JDict site_fridge) [JDict fridge]
                  [JDict outage_d1] [JDict outage_d2] outage_no_id
                  "2021-01-01T00:00:00+00:00" 1609459200000000
                  eq_refl eq_refl Hd Ho eq_refl eq_refl eq_refl)
           ltac:(lia)).
Defined.

Lemma filter_and_transform_outages_site_first_witness :
  fromisoformat_extended cutoff_literal = Ok (Aware 1640995200000000) /\
  filter_and_transform_outages fromisoformat_extended
    (JList [JDict outage_d1]) (JDict []) = Raise KeyError.
Proof.
  split; [reflexivity|].
  exact (proj1 (filter_and_transform_outages_site_first fromisoformat_extended
                  (Aware 1640995200000000) (JList [JDict outage_d1]) []
                  eq_refl) eq_refl).
Defined.

Lemma filter_and_transform_outages_naive_begin_raises_witness :
  fromisoformat_extended cutoff_literal = Ok (Aware 1640995200000000) /\
  Forall wf_device [JDict fridge] /\
  Forall (wf_outage fromisoformat_extended) [JDict outage_d1] /\
  fromisoformat_extended "2022-06-01T00:00:00" = Ok (Naive 1654041600000000) /\
  filter_and_transform_outages fromisoformat_extended
    (JList ([JDict outage_d1] ++ JDict outage_naive :: [JDict outage_d2]))
    (JDict site_fridge)
  = Raise TypeError.
Proof.
  assert (Hd : Forall wf_device [JDict fridge]).
  { repeat constructor; eexists; vm_compute; reflexivity. }
  assert (Ho : Forall (wf_outage fromisoformat_extended) [JDict outage_d1]).
  { repeat constructor; eexists; vm_compute; reflexivity. }
  split; [reflexivity|]. split; [exact Hd|]. split; [exact Ho|].
  split; [reflexivity|].
  exact (filter_and_transform_outages_naive_begin_raises
           fromisoformat_extended 1640995200000000 (JDict site_fridge)
           [JDict fridge] [JDict outage_d1] [JDict outage_d2] outage_naive
           "2022-06-01T00:00:00" 1654041600000000
           eq_refl eq_refl Hd Ho eq_refl eq_refl).
Defined.

Lemma filter_and_transform_outages_last_device_witness :
  let out := [JDict (dict_set "name" (JStr "Freezer") outage_d1)] in
  devices_of (JDict site_two_devices) = Some ([JDict fridge] ++ JDict freezer :: []) /\
  filter_and_transform_outages fromisoformat_extended
    (JList [JDict outage_d1; JDict outage_d2]) (JDict site_two_devices)
  = Ok out /\
  Forall (fun e => id_key e = Some (KStr "d1") -> name_of e = Some (JStr "Freezer"))
    out.
Proof.
  intros out.
  assert (Hf : filter_and_transform_outages fromisoformat_extended
                 (JList [JDict outage_d1; JDict outage_d2])
                 (JDict site_two_devices) = Ok out)
    by (vm_compute; reflexivity).
  split; [reflexivity|]. split; [exact Hf|].
  exact (filter_and_transform_outages_last_device fromisoformat_extended
           (JList [JDict outage_d1; JDict outage_d2]) (JDict site_two_devices)
           (JDict freezer) (JStr "Freezer") [JDict fridge] [] out (KStr "d1")
           eq_refl eq_refl eq_refl (List.Forall_nil _) Hf).
Defined.

Lemma filter_and_transform_outages_field_order_witness :
  let items := [JDict outage_d1; JDict outage_at_cutoff] in
  let out := [JDict (outage_d1 ++ [("name", JStr "Fridge")]);
              JDict (dict_set "name" (JStr "Fridge") outage_at_cutoff)] in
  filter_and_transform_outages fromisoformat_extended (JList items)
    (JDict site_fridge) = Ok out /\
  exists kept,
    sublist kept items /\
    Forall2 (fun o e =>
               exists d d' name,
                 o = JDict d /\ e = JDict d' /\
                 dict_get "name" d' = Some name /\
                 (dict_get "name" d = None -> d' = d ++ [("name", name)]) /\
                 (is_Some (dict_get "name" d) -> map fst d' = map fst d))
            kept out.
Proof.
  intros items out.
  assert (Hf : filter_and_transform_outages fromisoformat_extended
                 (JList items) (JDict site_fridge) = Ok out)
    by (vm_compute; reflexivity).
  split; [exact Hf|].
  exact (filter_and_transform_outages_field_order fromisoformat_extended
           items (JDict site_fridge) out Hf).
Defined.
